(** * EZone controller client: a shallow embedding of the Python sources

    The development follows [custom_components/ezone/ezone_api.py] (the
    device client), [custom_components/ezone/__init__.py] (the polling
    coordinator) and [cover.py] (the damper entity).

    Conventions.
    - A Python [str] is a Rocq [string]; a character is a code point below
      256, and [isspace] is Python's [str.isspace] on that range.
    - A Python [dict] is an association list in insertion order with
      distinct keys ([dict_get], [dict_set]).
    - An awaited call is a computation in the monad [M]: it reads the
      history of events, returns a value or raises, and emits events.
    - The XML parser and the HTTP session are parameters of the client:
      every statement holds for any parser and any controller. *)

From Stdlib Require Import ZArith List Ascii String Bool Lia.
From stdpp Require Import base numbers list strings pretty.

Local Open Scope string_scope.
Local Open Scope Z_scope.
Local Open Scope list_scope.

(** ** Python strings *)

(** [str.isspace] for one character, code points 0..255. *)
Definition isspace (c : ascii) : bool :=
  let n := Z.of_nat (nat_of_ascii c) in
  ((9 <=? n) && (n <=? 13)) || ((28 <=? n) && (n <=? 32))
  || (n =? 133) || (n =? 160).

Fixpoint lstrip (s : string) : string :=
  match s with
  | EmptyString => EmptyString
  | String c s' => if isspace c then lstrip s' else s
  end.

Fixpoint rstrip (s : string) : string :=
  match s with
  | EmptyString => EmptyString
  | String c s' =>
      match rstrip s' with
      | EmptyString => if isspace c then EmptyString else String c EmptyString
      | r => String c r
      end
  end.

(** [s.strip()] *)
Definition strip (s : string) : string := rstrip (lstrip s).

(** Truth value of a [str]: the empty string is false. *)
Definition str_truthy (s : string) : bool := negb (String.eqb s "").

(** [str(n)] for an [int]. *)
Definition str_of_int (n : Z) : string := pretty n.

(** ** Python values and dictionaries *)

#[local] Set Warnings "-register-all".

Inductive value : Type :=
| VStr (s : string)
| VInt (n : Z)
| VDict (d : list (string * value))
| VList (l : list value).

Definition dict : Type := list (string * value).

(** [key in d] / [d.get(key)] *)
Fixpoint dict_get {A} (k : string) (d : list (string * A)) : option A :=
  match d with
  | [] => None
  | (k', v) :: d' => if String.eqb k' k then Some v else dict_get k d'
  end.

(** [d[key] = v]: overwrite in place, or append a new key. *)
Fixpoint dict_set {A} (k : string) (v : A) (d : list (string * A))
  : list (string * A) :=
  match d with
  | [] => [(k, v)]
  | (k', v') :: d' =>
      if String.eqb k' k then (k', v) :: d' else (k', v') :: dict_set k v d'
  end.

Definition isinstance_list (v : value) : bool :=
  match v with VList _ => true | _ => false end.

(** ** ElementTree elements *)

Inductive element : Type :=
| Element (tag : string) (text : option string) (children : list element).

Definition tag (e : element) : string :=
  match e with Element t _ _ => t end.

(** ** [ezone_api._xml_to_dict] *)

(** The body of [for child in element]: one child is folded into [result].
    A tag seen before has its value turned into a list unless it is one
    already, and the new child is appended to that list. *)
Definition add_child (result : dict) (child_tag : string) (child_data : value)
  : dict :=
  match dict_get child_tag result with
  | Some old =>
      let l := match old with VList l => l | _ => [old] end in
      dict_set child_tag (VList (l ++ [child_data])) result
  | None => dict_set child_tag child_data result
  end.

Fixpoint for_child (f : element -> value) (cs : list element) (result : dict)
  : dict :=
  match cs with
  | [] => result
  | child :: cs' => for_child f cs' (add_child result (tag child) (f child))
  end.

Fixpoint _xml_to_dict (e : element) : value :=
  match e with
  | Element _ txt cs =>
      let is_leaf :=
        match txt with
        | Some t => str_truthy t && str_truthy (strip t)
                    && (length cs =? 0)%nat
        | None => false
        end in
      if is_leaf then VStr (strip (default "" txt))
      else VDict (for_child _xml_to_dict cs [])
  end.

(** Every character of [s] is white space. *)
Definition all_space (s : string) : bool :=
  forallb isspace (list_ascii_of_string s).

(** The children of a node that carry tag [T], in document order. *)
Definition occurrences (T : string) (cs : list element) : list element :=
  List.filter (fun c => String.eqb (tag c) T) cs.

(** What a mapping holds for a tag, given the values of its occurrences:
    nothing, the value itself, or the sequence of all of them. *)
Definition collected (vs : list value) : option value :=
  match vs with
  | [] => None
  | [v] => Some v
  | _ => Some (VList vs)
  end.

(** ** Exceptions and results *)

(** The exception classes the sources raise, catch or can meet.
    [ClientConnectorError] and [ServerDisconnectedError] are aiohttp
    subclasses of [ClientError]; every class here is an [Exception].
    A [BaseException] that is not an [Exception], such as
    [asyncio.CancelledError], passes every [except Exception] of the
    sources untouched; it is outside this model, in which the session and
    the parser raise [Exception]s only. *)
Inductive exn_class : Type :=
| ClientError | ClientConnectorError | ServerDisconnectedError
| ConnectionResetError | TimeoutError | AssertionError
| ParseError | ApiError | UpdateFailed
| TypeError | AttributeError | ValueError | OtherException.

#[global] Instance exn_class_eq_dec : EqDecision exn_class.
Proof. solve_decision. Defined.

(** An exception object: its class and [str(err)]. *)
Record exn : Type := Exn { exn_cls : exn_class; exn_msg : string }.

Inductive result (A : Type) : Type :=
| Return (a : A)
| Raise (e : exn).
Arguments Return {A} a.
Arguments Raise {A} e.

(** ** Pure Python expressions that may raise *)

Definition digit_of (c : ascii) : option Z :=
  let n := Z.of_nat (nat_of_ascii c) in
  if (48 <=? n) && (n <=? 57) then Some (n - 48) else None.

(** Decimal digits, single underscores allowed between digits. *)
Fixpoint int_digits (s : string) (acc : Z) (after_digit : bool) : option Z :=
  match s with
  | EmptyString => if after_digit then Some acc else None
  | String c s' =>
      match digit_of c with
      | Some d => int_digits s' (10 * acc + d) true
      | None =>
          if Ascii.eqb c "_"%char && after_digit
          then int_digits s' acc false else None
      end
  end.

(** [int(s)] for a [str], base 10; [None] stands for [ValueError]. *)
Definition int_of_str (s : string) : option Z :=
  match strip s with
  | String "-"%char r => option_map Z.opp (int_digits r 0 false)
  | String "+"%char r => int_digits r 0 false
  | r => int_digits r 0 false
  end.

Definition type_name (v : value) : string :=
  match v with
  | VStr _ => "str" | VInt _ => "int" | VDict _ => "dict" | VList _ => "list"
  end.

(** [v.get(key, default)]: only a [dict] has the method. *)
Definition py_get (v : value) (key : string) (default : value)
  : result value :=
  match v with
  | VDict d => Return (match dict_get key d with Some x => x | None => default end)
  | _ => Raise (Exn AttributeError
                  ("'" +:+ type_name v +:+ "' object has no attribute 'get'"))
  end.

(** [int(v)] *)
Definition py_int (v : value) : result Z :=
  match v with
  | VInt n => Return n
  | VStr s =>
      match int_of_str s with
      | Some n => Return n
      | None => Raise (Exn ValueError
                  ("invalid literal for int() with base 10: '" +:+ s +:+ "'"))
          (* the literal between quotes, as [repr] shows a plain string *)
      end
  | _ => Raise (Exn TypeError
           ("int() argument must be a string, a bytes-like object or a real number, not '"
            +:+ type_name v +:+ "'"))
  end.

(** [v[key] = x] with a [str] key. *)
Definition py_setitem (v : value) (key : string) (x : value) : result value :=
  match v with
  | VDict d => Return (VDict (dict_set key x d))
  | VList _ => Raise (Exn TypeError
                 "list indices must be integers or slices, not str")
  | _ => Raise (Exn TypeError
           ("'" +:+ type_name v +:+ "' object does not support item assignment"))
  end.

(** [range(lo, hi)] *)
Definition py_range (lo hi : Z) : list Z := seqZ lo (hi - lo).

(** ** The network and the event history *)

(** One [session.get(url, params=..., timeout=ClientTimeout(total=...))]. *)
Record request : Type :=
  Request { url : string; params : dict; timeout : Z }.

(** What the controller does with one request: the call raises, or a
    response arrives whose body can be read ([inr]) or whose reading
    raises ([inl]). *)
Record response : Type := Response { status : Z; body : exn + string }.

Inductive outcome : Type :=
| Raises (e : exn)
| Responds (r : response).

(** What a computation does to the outside: a GET, [asyncio.sleep], a
    request to the coordinator for a refresh, and the coordinator
    replacing its snapshot. *)
Inductive event : Type :=
| Get (req : request)
| Sleep (seconds : Z)
| RequestRefresh
| SetData (data : value).

(** The requests issued in a trace, in order. *)
Fixpoint requests (t : list event) : list request :=
  match t with
  | [] => []
  | Get req :: t' => req :: requests t'
  | _ :: t' => requests t'
  end.

Definition is_refresh (e : event) : bool :=
  match e with RequestRefresh => true | _ => false end.
Definition is_set_data (e : event) : bool :=
  match e with SetData _ => true | _ => false end.

(** Events of the network side only: a GET or a sleep. *)
Definition network_event (e : event) : Prop :=
  match e with Get _ | Sleep _ => True | _ => False end.

(** Calls to [coordinator.async_request_refresh] in a trace. *)
Definition refresh_count (t : list event) : nat :=
  length (List.filter is_refresh t).

(** Modelled from the spec: [currentSnapshot()] of the coordinator, whose
    store belongs to the host framework's base class and is not among the
    sources; it is the last snapshot stored in the history, if any. *)
Fixpoint current_snapshot (h : list event) : option value :=
  match h with
  | [] => None
  | e :: h' =>
      match current_snapshot h' with
      | Some d => Some d
      | None => match e with SetData d => Some d | _ => None end
      end
  end.

(** ** The monad of awaited calls *)

(** A computation sees the history so far and yields its result with the
    events it emitted itself. *)
Definition M (A : Type) : Type := list event -> result A * list event.

Definition ret {A} (a : A) : M A := fun _ => (Return a, []).
Definition raise {A} (e : exn) : M A := fun _ => (Raise e, []).
Definition lift {A} (r : result A) : M A := fun _ => (r, []).

Definition bind {A B} (m : M A) (k : A -> M B) : M B := fun h =>
  match m h with
  | (Return a, t) => let (r, t') := k a (h ++ t) in (r, t ++ t')
  | (Raise e, t) => (Raise e, t)
  end.

(** [try: m  except ... as err: handler err]; a handler that does not
    match the class re-raises. *)
Definition try_except {A} (m : M A) (handler : exn -> M A) : M A := fun h =>
  match m h with
  | (Return a, t) => (Return a, t)
  | (Raise e, t) => let (r, t') := handler e (h ++ t) in (r, t ++ t')
  end.

Notation "'let*' x ':=' m 'in' k" := (bind m (fun x => k))
  (at level 10, x name, m at level 100, k at level 200).
Notation "'do' m 'in' k" := (bind m (fun _ => k))
  (at level 10, m at level 100, k at level 200).

Definition py_assert (b : bool) : M unit :=
  if b then ret tt else raise (Exn AssertionError "").

Definition asyncio_sleep (seconds : Z) : M unit :=
  fun _ => (Return tt, [Sleep seconds]).

Definition resp_text (resp : response) : M string :=
  lift (match body resp with inl e => Raise e | inr s => Return s end).

(** ** [class ezone_api] *)

Record ezone_api : Type := Api { ip : string; port : Z; retry : Z }.

(** [__init__(self, ip, port=2025, session=None, retry=5)] *)
Definition __init__ (ip : string) (port retry : option Z) : ezone_api :=
  Api ip (default 2025 port) (default 5 retry).

Definition endpoint (self : ezone_api) (path : string) : string :=
  "http://" +:+ ip self +:+ ":" +:+ str_of_int (port self) +:+ path.

(** [retry = retry or self.retry] *)
Definition retry_or (retry_arg : option Z) (self : ezone_api) : Z :=
  match retry_arg with
  | Some r => if r =? 0 then retry self else r
  | None => retry self
  end.

(** The message of the [ApiError] raised after the [while] loop;
    [error] is [None] until an attempt has failed. *)
Definition no_valid_response (count : Z) (error : option string) : string :=
  "No valid response after " +:+ str_of_int count +:+ " failed attempt"
  +:+ (if 1 <? count then "s" else "") +:+ ". Last error was: "
  +:+ match error with Some e => e | None => "None" end.

(** How one pass through the [try] statement of a read ends. *)
Inductive attempt (A : Type) : Type :=
| Returned (a : A)
| Retry (error : string)
| Break (error : string).
Arguments Returned {A} a.
Arguments Retry {A} error.
Arguments Break {A} error.

(** The first [except] clause: the aiohttp errors and a reset. *)
Definition is_client_error (c : exn_class) : bool :=
  match c with
  | ClientError | ClientConnectorError | ServerDisconnectedError
  | ConnectionResetError => true
  | _ => false
  end.

(** The [except] clauses of the read loops, in order. *)
Definition read_handler {A} (err : exn) : attempt A :=
  if is_client_error (exn_cls err) then Retry (exn_msg err)
  else match exn_cls err with
       | TimeoutError => Retry "Connection timed out."
       | AssertionError => Break "Response status not 200."
       | _ => Break ("XML parsing error: " +:+ exn_msg err)
       end.

(** [except c as err] for a class [c] that has no subclass here. *)
Definition is_class (c : exn_class) (err : exn) : bool :=
  bool_decide (exn_cls err = c).

(** ** A controller to run the client against *)

(** A client built with the defaults: port 2025, five attempts. *)
Definition demo_api : ezone_api := __init__ "192.168.1.50" None None.

Definition system_xml : string :=
  "<iZS10.3><system><unitcontrol><numberOfZones>5</numberOfZones></unitcontrol></system></iZS10.3>".

Definition system_root : element :=
  Element "iZS10.3" None
    [Element "system" None
       [Element "unitcontrol" None
          [Element "numberOfZones" (Some "5") []]]].

(** A system document whose zone count is an empty element. *)
Definition no_count_xml : string :=
  "<iZS10.3><system><unitcontrol><numberOfZones/></unitcontrol></system></iZS10.3>".

Definition no_count_root : element :=
  Element "iZS10.3" None
    [Element "system" None
       [Element "unitcontrol" None
          [Element "numberOfZones" None []]]].

Definition zone_xml : string :=
  "<iZS10.3><setting>1</setting><userPercentSetting>80</userPercentSetting></iZS10.3>".

Definition zone_root : element :=
  Element "iZS10.3" None
    [Element "setting" (Some "1") [];
     Element "userPercentSetting" (Some "80") []].

(** [fromstring] on the three documents above; anything else is taken
    to be unparseable. *)
Definition demo_fromstring (xml_data : string) : string + element :=
  if String.eqb xml_data system_xml then inr system_root
  else if String.eqb xml_data no_count_xml then inr no_count_root
  else if String.eqb xml_data zone_xml then inr zone_root
  else inl "syntax error: line 1, column 0".

Definition demo_system_data : value :=
  VDict [("system",
          VDict [("unitcontrol", VDict [("numberOfZones", VStr "5")])])].

Definition demo_zone_data (zone : Z) : value :=
  VDict [("setting", VStr "1"); ("userPercentSetting", VStr "80");
         ("zone_number", VInt zone)].

Definition refused : exn := Exn ClientConnectorError "Cannot connect to host".

(** A controller with five zones whose zone 3 never answers. *)
Definition demo_session (h : list event) (req : request) : outcome :=
  if String.eqb (url req) (endpoint demo_api "/getSystemData")
  then Responds (Response 200 (inr system_xml))
  else if String.eqb (url req) (endpoint demo_api "/getZoneData")
  then match dict_get "zone" (params req) with
       | Some (VInt 3) => Raises refused
       | _ => Responds (Response 200 (inr zone_xml))
       end
  else Responds (Response 200 (inr "<ack/>")).

(** The same controller behind a link that drops the first four requests. *)
Definition flaky_session (h : list event) (req : request) : outcome :=
  if (length (requests h) <? 4)%nat then Raises refused
  else demo_session h req.

(** A controller that answers every request with status 404. *)
Definition not_found_session (h : list event) (req : request) : outcome :=
  Responds (Response 404 (inr "Not Found")).

(** A controller that is unreachable. *)
Definition refused_session (h : list event) (req : request) : outcome :=
  Raises refused.

(** A controller whose system data carries no readable zone count. *)
Definition no_count_session (h : list event) (req : request) : outcome :=
  Responds (Response 200 (inr no_count_xml)).

(** A proxy that answers every request with status 200 and a body that
    is not XML. *)
Definition garbled_session (h : list event) (req : request) : outcome :=
  Responds (Response 200 (inr "Service Unavailable")).

(** ** Sequencing of expressions that may raise *)

Definition and_then {A B} (r : result A) (k : A -> result B) : result B :=
  match r with
  | Return a => k a
  | Raise e => Raise e
  end.

Notation "'let+' x ':=' r 'in' k" := (and_then r (fun x => k))
  (at level 10, x name, r at level 100, k at level 200).

(** [v == s] for a [str] literal [s]. *)
Definition eq_str (v : value) (s : string) : bool :=
  match v with
  | VStr s' => String.eqb s' s
  | _ => false
  end.

(** [v.items()]: only a [dict] has the method. *)
Definition py_items (v : value) : result (list (string * value)) :=
  match v with
  | VDict d => Return d
  | _ => Raise (Exn AttributeError
                  ("'" +:+ type_name v +:+ "' object has no attribute 'items'"))
  end.

(** ** [const.py] *)

Definition DOMAIN : string := "ezone".

Definition EZONE_HVAC_MODES : list (string * string) :=
  [("1", "cool"); ("2", "heat"); ("3", "fan_only")].

Definition EZONE_FAN_MODES : list (string * string) :=
  [("1", "low"); ("2", "medium"); ("3", "high")].

(** The members of the host framework's [HVACMode] that the sources
    name; each is its own string. *)
Definition HVACMode_OFF : string := "off".
Definition HVACMode_FAN_ONLY : string := "fan_only".

(** [table.get(key, default)] on one of the tables above, whose keys are
    strings: a [dict] or [list] key cannot be hashed. *)
Definition table_get (table : list (string * string)) (key : value)
           (default : string) : result string :=
  match key with
  | VStr k => Return (match dict_get k table with
                      | Some x => x
                      | None => default
                      end)
  | VInt _ => Return default
  | _ => Raise (Exn TypeError ("unhashable type: '" +:+ type_name key +:+ "'"))
  end.

(** [for num, name in table.items(): if name == target: found = int(num);
    break]: the key at which the loop breaks, if it does. *)
Fixpoint first_key_of (items : list (string * string)) (target : string)
  : option string :=
  match items with
  | [] => None
  | (num, name) :: rest =>
      if String.eqb name target then Some num else first_key_of rest target
  end.


(** The seconds a trace spends in [asyncio.sleep]. *)
Fixpoint slept (t : list event) : Z :=
  match t with
  | [] => 0
  | Sleep seconds :: t' => seconds + slept t'
  | _ :: t' => slept t'
  end.

(** An entry of the zones mapping as the aggregate read stores it: under
    the number of a zone as a string, a mapping that carries that number. *)
Definition zone_entry (entry : string * value) : Prop :=
  exists z d, entry.1 = str_of_int z /\ entry.2 = VDict d
              /\ dict_get "zone_number" d = Some (VInt z).

(** A value in which every mapping, at every depth, has each key once. *)
Inductive distinct_keys : value -> Prop :=
| distinct_str s : distinct_keys (VStr s)
| distinct_int n : distinct_keys (VInt n)
| distinct_dict d :
    NoDup (map fst d) ->
    Forall (fun entry => distinct_keys entry.2) d ->
    distinct_keys (VDict d)
| distinct_list l :
    Forall distinct_keys l -> distinct_keys (VList l).

(** ** More of the demonstration controller *)

(** The snapshot read from the controller whose zone 3 never answers. *)
Definition demo_snapshot : value :=
  VDict [("system",
          VDict [("unitcontrol", VDict [("numberOfZones", VStr "5")])]);
         ("zones",
          VDict [("1", demo_zone_data 1); ("2", demo_zone_data 2);
                 ("4", demo_zone_data 4); ("5", demo_zone_data 5)])].

(** A document made of bare text, and a system document whose unit
    control is an empty element. *)
Definition text_xml : string := "<iZS10.3>busy</iZS10.3>".
Definition text_root : element := Element "iZS10.3" (Some "busy") [].

Definition bare_xml : string :=
  "<iZS10.3><system><unitcontrol/></system></iZS10.3>".
Definition bare_root : element :=
  Element "iZS10.3" None
    [Element "system" None [Element "unitcontrol" None []]].

Definition demo_fromstring' (xml_data : string) : string + element :=
  if String.eqb xml_data text_xml then inr text_root
  else if String.eqb xml_data bare_xml then inr bare_root
  else demo_fromstring xml_data.

Definition text_session (h : list event) (req : request) : outcome :=
  Responds (Response 200 (inr text_xml)).

Definition bare_session (h : list event) (req : request) : outcome :=
  Responds (Response 200 (inr bare_xml)).

(** A client built with no attempt at all. *)
Definition idle_api : ezone_api := __init__ "192.168.1.50" None (Some 0).

(** A snapshot in which the unit is on and heating, the fan high. *)
Definition heating_snapshot : value :=
  VDict [("system",
          VDict [("unitcontrol",
                  VDict [("airconOnOff", VStr "1"); ("mode", VStr "2");
                         ("fanSpeed", VStr "3")])]);
         ("zones",
          VDict [("2", VDict [("setting", VStr "1");
                              ("userPercentSetting", VStr "40");
                              ("zone_number", VInt 2)])])].

Section Client.

(** [xml.etree.ElementTree.fromstring]: the root element, or the message
    of the [ParseError] it raises. *)
Variable fromstring : string -> string + element.

Definition ET_fromstring (xml_data : string) : M element :=
  lift (match fromstring xml_data with
        | inl msg => Raise (Exn ParseError msg)
        | inr root => Return root
        end).

(** [self.session.get(...)]: [session] answers from the history so far. *)
Variable session : list event -> request -> outcome.

Definition session_get (req : request) : M response := fun h =>
  (match session h req with
   | Raises e => Raise e
   | Responds resp => Return resp
   end, [Get req]).

(** *** Parsing *)

Definition _parse_system_xml (xml_data : string) : M value :=
  try_except
    (let* root := ET_fromstring xml_data in
     ret (_xml_to_dict root))
    (fun err =>
       if is_class ParseError err
       then raise (Exn ApiError ("Invalid XML response: " +:+ exn_msg err))
       else raise err).

Definition _parse_zone_xml (xml_data : string) (zone_num : Z) : M value :=
  try_except
    (let* root := ET_fromstring xml_data in
     let zone_data := _xml_to_dict root in
     lift (py_setitem zone_data "zone_number" (VInt zone_num)))
    (fun err =>
       if is_class ParseError err
       then raise (Exn ApiError ("Invalid XML response: " +:+ exn_msg err))
       else raise err).

(** *** Reads *)

Definition system_request (self : ezone_api) : request :=
  Request (endpoint self "/getSystemData") [] 4.

Definition zone_request (self : ezone_api) (zone : Z) : request :=
  Request (endpoint self "/getZoneData") [("zone", VInt zone)] 4.

(** The [try] statement of a read loop around its [async with] block. *)
Definition read_attempt {A} (block : M A) : M (attempt A) :=
  try_except (let* a := block in ret (Returned a))
             (fun err => ret (read_handler err)).

(** [while count < retry: count += 1; try ...; await asyncio.sleep(1)]
    followed by the final [raise].  [count] grows by one per pass, so the
    loop is run on [left], the number [retry - count] of passes left. *)
Fixpoint read_loop {A} (block : M A) (left : nat) (count : Z)
         (error : option string) : M A :=
  match left with
  | O => raise (Exn ApiError (no_valid_response count error))
  | S left' =>
      let count := count + 1 in
      let* r := read_attempt block in
      match r with
      | Returned a => ret a
      | Retry error =>
          do asyncio_sleep 1 in
          read_loop block left' count (Some error)
      | Break error => raise (Exn ApiError (no_valid_response count (Some error)))
      end
  end.

Definition system_block (self : ezone_api) : M value :=
  let* resp := session_get (system_request self) in
  do py_assert (status resp =? 200) in
  let* xml_data := resp_text resp in
  _parse_system_xml xml_data.

Definition zone_block (self : ezone_api) (zone : Z) : M value :=
  let* resp := session_get (zone_request self zone) in
  do py_assert (status resp =? 200) in
  let* xml_data := resp_text resp in
  _parse_zone_xml xml_data zone.

Definition async_get_system_data (self : ezone_api) (retry_arg : option Z)
  : M value :=
  let retry := retry_or retry_arg self in
  read_loop (system_block self) (Z.to_nat (retry - 0)) 0 None.

Definition async_get_zone_data (self : ezone_api) (zone : Z)
           (retry_arg : option Z) : M value :=
  let retry := retry_or retry_arg self in
  read_loop (zone_block self zone) (Z.to_nat (retry - 0)) 0 None.

(** *** The aggregate read *)

(** [int(system_data.get("system", {}).get("unitcontrol", {})
         .get("numberOfZones", 0))] *)
Definition num_zones_of (system_data : value) : result Z :=
  match py_get system_data "system" (VDict []) with
  | Raise e => Raise e
  | Return system =>
      match py_get system "unitcontrol" (VDict []) with
      | Raise e => Raise e
      | Return unitcontrol =>
          match py_get unitcontrol "numberOfZones" (VInt 0) with
          | Raise e => Raise e
          | Return n => py_int n
          end
      end
  end.

(** [for zone_num in range(1, num_zones + 1)] with its inner [try]. *)
Fixpoint for_zone_num (self : ezone_api) (zone_nums : list Z)
         (zones_data : dict) : M dict :=
  match zone_nums with
  | [] => ret zones_data
  | zone_num :: rest =>
      let* zones_data :=
        try_except
          (let* zone_data := async_get_zone_data self zone_num None in
           ret (dict_set (str_of_int zone_num) zone_data zones_data))
          (fun err =>
             (* Continue if a zone fails *)
             if is_class ApiError err then ret zones_data else raise err) in
      for_zone_num self rest zones_data
  end.

Definition async_get_all_data (self : ezone_api) : M value :=
  try_except
    (let* system_data := async_get_system_data self None in
     let* num_zones := lift (num_zones_of system_data) in
     let* zones_data := for_zone_num self (py_range 1 (num_zones + 1)) [] in
     let* system := lift (py_get system_data "system" (VDict [])) in
     let result := VDict [("system", system); ("zones", VDict zones_data)] in
     ret result)
    (fun err =>
       raise (Exn ApiError ("Failed to get all data: " +:+ exn_msg err))).

(** *** Writes *)

(** The body shared by the write methods: one GET inside one [try]. *)
Definition write_block (req : request) (failed : string) : M string :=
  try_except
    (let* resp := session_get req in
     do py_assert (status resp =? 200) in
     resp_text resp)
    (fun err => raise (Exn ApiError (failed +:+ exn_msg err))).

Definition async_set_system_data (self : ezone_api) (params : dict)
  : M string :=
  write_block (Request (endpoint self "/setSystemData") params 4)
              "Failed to set system data: ".

Definition async_set_zone_data (self : ezone_api) (zone : Z) (params : dict)
  : M string :=
  let zone_params := ("zone", VInt zone) :: params in
  write_block (Request (endpoint self "/setZoneData") zone_params 4)
              "Failed to set zone data: ".

Definition async_set_aircon_on_off (self : ezone_api) (state : bool)
  : M string :=
  async_set_system_data self [("airconOnOff", VInt (if state then 1 else 0))].

Definition async_set_mode (self : ezone_api) (mode : Z) : M string :=
  async_set_system_data self [("mode", VInt mode)].

Definition async_set_fan_speed (self : ezone_api) (speed : Z) : M string :=
  async_set_system_data self [("fanSpeed", VInt speed)].

Definition async_set_target_temp (self : ezone_api) (temp : value)
  : M string :=
  async_set_system_data self [("centralDesiredTemp", temp)].

Definition async_set_zone_setting (self : ezone_api) (zone : Z)
           (setting : bool) : M string :=
  async_set_zone_data self zone
    [("zoneSetting", VInt (if setting then 1 else 0))].

Definition async_set_zone_percent (self : ezone_api) (zone percent : Z)
  : M string :=
  async_set_zone_data self zone
    [("userPercentSetting", VInt percent); ("zoneSetting", VInt 1)].

Definition async_set_zone_name (self : ezone_api) (zone : Z) (name : string)
  : M string :=
  async_set_zone_data self zone [("name", VStr name)].

Definition async_change_system_name (self : ezone_api) (name : string)
  : M string :=
  write_block (Request (endpoint self "/changeName") [("name", VStr name)] 4)
              "Failed to change system name: ".

(** [params[key] = x] when the argument is not [None]. *)
Definition set_if_given (key : string) (x : option Z) (params : dict) : dict :=
  match x with
  | Some n => dict_set key (VInt n) params
  | None => params
  end.

Definition async_set_zone_timer (self : ezone_api)
           (start_hour start_min end_hour end_min : option Z)
           (schedule_status : Z) : M string :=
  let params := [("scheduleStatus", VInt schedule_status)] in
  let params := set_if_given "startTimeHours" start_hour params in
  let params := set_if_given "startTimeMinutes" start_min params in
  let params := set_if_given "endTimeHours" end_hour params in
  let params := set_if_given "endTimeMinutes" end_min params in
  write_block (Request (endpoint self "/setZoneTimer") params 4)
              "Failed to set zone timer: ".

(** ** [class EZoneDataUpdateCoordinator] *)

Definition _async_update_data (api : ezone_api) : M value :=
  try_except
    (let* data := async_get_all_data api in
     ret data)
    (fun err =>
       if is_class ApiError err
       then raise (Exn UpdateFailed
                     ("Error communicating with API: " +:+ exn_msg err))
       else raise err).

(** [coordinator.async_request_refresh()]: the request is handed to the
    host framework. *)
Definition async_request_refresh : M unit :=
  fun _ => (Return tt, [RequestRefresh]).

(** Modelled from the spec: the refresh of the base class
    [DataUpdateCoordinator], which belongs to the host framework and is
    not among the sources.  Spec 4.5 and 6: [refresh()] attempts the
    update; on success the new snapshot replaces the stored one and is
    returned; on failure the stored snapshot is left as it is and the
    error goes to the caller. *)
Definition refresh (api : ezone_api) : M value :=
  let* data := _async_update_data api in
  do (fun _ => (Return tt, [SetData data])) in
  ret data.

(** ** [class EZoneZoneCover] *)

Record EZoneZoneCover : Type := Cover { _api : ezone_api; _zone_num : Z }.

Definition async_open_cover (self : EZoneZoneCover) : M unit :=
  do async_set_zone_setting (_api self) (_zone_num self) true in
  async_request_refresh.

Definition async_close_cover (self : EZoneZoneCover) : M unit :=
  do async_set_zone_setting (_api self) (_zone_num self) false in
  async_request_refresh.

(** [kwargs.get("position")] is [None] when no position is passed. *)
Definition async_set_cover_position (self : EZoneZoneCover)
           (position : option Z) : M unit :=
  match position with
  | None => ret tt
  | Some position =>
      do (if position =? 0
          then async_set_zone_setting (_api self) (_zone_num self) false
          else async_set_zone_percent (_api self) (_zone_num self) position)
      in
      async_request_refresh
  end.

(** ** Vocabulary of the statements *)

(** The two read operations and the four write operations of the client. *)
Inductive read_op : Type :=
| GetSystemData
| GetZoneData (zone : Z).

Definition run_read (self : ezone_api) (op : read_op) (retry_arg : option Z)
  : M value :=
  match op with
  | GetSystemData => async_get_system_data self retry_arg
  | GetZoneData zone => async_get_zone_data self zone retry_arg
  end.

Definition read_request (self : ezone_api) (op : read_op) : request :=
  match op with
  | GetSystemData => system_request self
  | GetZoneData zone => zone_request self zone
  end.

Definition read_block (self : ezone_api) (op : read_op) : M value :=
  match op with
  | GetSystemData => system_block self
  | GetZoneData zone => zone_block self zone
  end.

(** What a read returns for a parsed document. *)
Definition parsed (op : read_op) (root : element) : result value :=
  match op with
  | GetSystemData => Return (_xml_to_dict root)
  | GetZoneData zone =>
      py_setitem (_xml_to_dict root) "zone_number" (VInt zone)
  end.

(** How the [async with] block of a read ends for one answer of the
    controller. *)
Definition block_result (op : read_op) (o : outcome) : result value :=
  match o with
  | Raises e => Raise e
  | Responds resp =>
      if status resp =? 200 then
        match body resp with
        | inl e => Raise e
        | inr xml_data =>
            match fromstring xml_data with
            | inl msg => Raise (Exn ApiError ("Invalid XML response: " +:+ msg))
            | inr root => parsed op root
            end
        end
      else Raise (Exn AssertionError "")
  end.

(** The exception, if any, that the transport raises for an answer: from
    the GET itself, or from reading the body of a 200 response. *)
Definition raised_by_transport (o : outcome) : option exn :=
  match o with
  | Raises e => Some e
  | Responds resp =>
      if status resp =? 200 then
        match body resp with inl e => Some e | inr _ => None end
      else None
  end.

(** A transport-layer failure and the text kept for it: a connection
    error or reset with its own message, or a timeout. *)
Definition transport_error (e : exn) : option string :=
  match exn_cls e with
  | ClientError | ClientConnectorError | ServerDisconnectedError
  | ConnectionResetError => Some (exn_msg e)
  | TimeoutError => Some "Connection timed out."
  | _ => None
  end.

(** The events of [k] failed attempts, each followed by its sleep. *)
Fixpoint failed_attempts (req : request) (k : nat) : list event :=
  match k with
  | O => []
  | S k' => Get req :: Sleep 1 :: failed_attempts req k'
  end.

(** The error kept after [k] retried attempts with texts [errs]. *)
Definition last_error (error : option string) (errs : nat -> string)
           (k : nat) : option string :=
  match k with
  | O => error
  | S k' => Some (errs k')
  end.

Inductive write_op : Type :=
| SetSystemData (params : dict)
| SetZoneData (zone : Z) (params : dict)
| ChangeSystemName (name : string)
| SetZoneTimer (start_hour start_min end_hour end_min : option Z)
               (schedule_status : Z).

Definition run_write (self : ezone_api) (op : write_op) : M string :=
  match op with
  | SetSystemData params => async_set_system_data self params
  | SetZoneData zone params => async_set_zone_data self zone params
  | ChangeSystemName name => async_change_system_name self name
  | SetZoneTimer sh sm eh em st => async_set_zone_timer self sh sm eh em st
  end.

Definition write_request (self : ezone_api) (op : write_op) : request :=
  match op with
  | SetSystemData params => Request (endpoint self "/setSystemData") params 4
  | SetZoneData zone params =>
      Request (endpoint self "/setZoneData") (("zone", VInt zone) :: params) 4
  | ChangeSystemName name =>
      Request (endpoint self "/changeName") [("name", VStr name)] 4
  | SetZoneTimer sh sm eh em st =>
      Request (endpoint self "/setZoneTimer")
        (set_if_given "endTimeMinutes" em
           (set_if_given "endTimeHours" eh
              (set_if_given "startTimeMinutes" sm
                 (set_if_given "startTimeHours" sh
                    [("scheduleStatus", VInt st)])))) 4
  end.

(** The text of a response with status 200 whose body can be read. *)
Definition response_text (o : outcome) : option string :=
  match o with
  | Responds resp =>
      if status resp =? 200 then
        match body resp with inr txt => Some txt | inl _ => None end
      else None
  | Raises _ => None
  end.

(** The command methods of the damper entity. *)
Inductive cover_command : Type :=
| OpenCover
| CloseCover
| SetCoverPosition (position : option Z).

Definition run_command (self : EZoneZoneCover) (cmd : cover_command)
  : M unit :=
  match cmd with
  | OpenCover => async_open_cover self
  | CloseCover => async_close_cover self
  | SetCoverPosition position => async_set_cover_position self position
  end.

(** The request a command sends, if it sends one. *)
Definition command_request (self : EZoneZoneCover) (cmd : cover_command)
  : option request :=
  let zone_data params :=
    Request (endpoint (_api self) "/setZoneData")
            (("zone", VInt (_zone_num self)) :: params) 4 in
  match cmd with
  | OpenCover => Some (zone_data [("zoneSetting", VInt 1)])
  | CloseCover => Some (zone_data [("zoneSetting", VInt 0)])
  | SetCoverPosition None => None
  | SetCoverPosition (Some position) =>
      if position =? 0 then Some (zone_data [("zoneSetting", VInt 0)])
      else Some (zone_data [("userPercentSetting", VInt position);
                            ("zoneSetting", VInt 1)])
  end.

(** ** [ezone_api.async_get_zone_timer] *)

Definition zone_timer_request (self : ezone_api) : request :=
  Request (endpoint self "/getZoneTimer") [] 4.

Definition async_get_zone_timer (self : ezone_api) : M value :=
  try_except
    (let* resp := session_get (zone_timer_request self) in
     do py_assert (status resp =? 200) in
     let* xml_data := resp_text resp in
     _parse_system_xml xml_data)
    (fun err =>
       raise (Exn ApiError ("Failed to get zone timer: " +:+ exn_msg err))).

(** ** [class EZoneZoneCover]: construction and state *)

(** [_get_zone_name]; [zone_num] stands for [str(zone_num)], the argument
    being a key of the snapshot or the entity's number. *)
Definition _get_zone_name (zone_num : string) : string :=
  let zone_names :=
    [("1", "Living"); ("2", "Theatre"); ("3", "Master Bed");
     ("4", "Bed 2"); ("5", "Bed 3")] in
  match dict_get zone_num zone_names with
  | Some name => name
  | None => "Zone " +:+ zone_num
  end.

(** What [__init__] sets besides [_api] and [_zone_num]. *)
Record cover_entity : Type :=
  CoverEntity { cover_self : EZoneZoneCover;
                _attr_name : string;
                _attr_unique_id : string }.

(** [EZoneZoneCover(coordinator, api, zone_num, zone_data)], [zone_num]
    being a key of the snapshot's zones. *)
Definition EZoneZoneCover_init (api : ezone_api) (zone_num : string)
  : result cover_entity :=
  let+ n := py_int (VStr zone_num) in
  let zone_name := _get_zone_name zone_num in
  Return (CoverEntity (Cover api n)
            ("EZone " +:+ zone_name +:+ " Damper")
            (DOMAIN +:+ "_zone_" +:+ zone_num +:+ "_damper")).

(** The loop of [async_setup_entry] over [zones_data.items()]. *)
Fixpoint for_zone_item (api : ezone_api) (items : list (string * value))
         (entities : list cover_entity) : result (list cover_entity) :=
  match items with
  | [] => Return entities
  | (zone_num, zone_data) :: rest =>
      let+ entity := EZoneZoneCover_init api zone_num in
      for_zone_item api rest (entities ++ [entity])
  end.

(** [cover.async_setup_entry]: the entities handed to
    [async_add_entities], for the snapshot [data] of the coordinator. *)
Definition cover_setup_entry (api : ezone_api) (data : value)
  : result (list cover_entity) :=
  let+ zones_data := py_get data "zones" (VDict []) in
  let+ items := py_items zones_data in
  for_zone_item api items [].

(** The property [zone_data], for the snapshot [data] of the coordinator. *)
Definition zone_data (self : EZoneZoneCover) (data : value) : result value :=
  let+ zones := py_get data "zones" (VDict []) in
  py_get zones (str_of_int (_zone_num self)) (VDict []).

Definition current_cover_position (self : EZoneZoneCover) (data : value)
  : result Z :=
  let+ zd := zone_data self data in
  let+ percent_str := py_get zd "userPercentSetting" (VStr "0") in
  match py_int percent_str with
  | Return n => Return n
  | Raise err =>
      if is_class ValueError err || is_class TypeError err then
        (* Fallback to basic open/close *)
        let+ zd := zone_data self data in
        let+ setting := py_get zd "setting" (VStr "0") in
        Return (if eq_str setting "1" then 100 else 0)
      else Raise err
  end.

Definition is_closed (self : EZoneZoneCover) (data : value) : result bool :=
  let+ zd := zone_data self data in
  let+ setting := py_get zd "setting" (VStr "0") in
  Return (eq_str setting "0").

Definition is_open (self : EZoneZoneCover) (data : value) : result bool :=
  let+ zd := zone_data self data in
  let+ setting := py_get zd "setting" (VStr "0") in
  Return (eq_str setting "1").

(** ** [class EZoneClimate] *)

Record EZoneClimate : Type := Climate { climate_api : ezone_api }.

(** The property [unit_control], through the property [system_data]. *)
Definition unit_control (self : EZoneClimate) (data : value) : result value :=
  let+ system_data := py_get data "system" (VDict []) in
  py_get system_data "unitcontrol" (VDict []).

(** [v.get(key)], which gives [None] for a missing key. *)
Definition py_get_opt (v : value) (key : string) : result (option value) :=
  match v with
  | VDict d => Return (dict_get key d)
  | _ => Raise (Exn AttributeError
                  ("'" +:+ type_name v +:+ "' object has no attribute 'get'"))
  end.

Definition hvac_mode (self : EZoneClimate) (data : value) : result string :=
  let+ uc := unit_control self data in
  let+ on_off := py_get_opt uc "airconOnOff" in
  if match on_off with Some v => eq_str v "0" | None => false end
  then Return HVACMode_OFF
  else
    let+ uc := unit_control self data in
    let+ mode := py_get uc "mode" (VStr "3") in
    table_get EZONE_HVAC_MODES mode HVACMode_FAN_ONLY.

Definition hvac_modes : list string :=
  [HVACMode_OFF] ++ map snd EZONE_HVAC_MODES.

Definition fan_mode (self : EZoneClimate) (data : value) : result string :=
  let+ uc := unit_control self data in
  let+ fan_speed := py_get uc "fanSpeed" (VStr "2") in
  table_get EZONE_FAN_MODES fan_speed "medium".

Definition fan_modes : list string := map snd EZONE_FAN_MODES.

(** [ezone_mode = None; for ...: ezone_mode = int(mode_num); break] *)
Definition find_number (table : list (string * string)) (target : string)
  : result (option Z) :=
  match first_key_of table target with
  | None => Return None
  | Some num => let+ n := py_int (VStr num) in Return (Some n)
  end.

(** Truth value of an [int] or [None]. *)
Definition number_truthy (n : option Z) : bool :=
  match n with
  | Some n => negb (n =? 0)
  | None => false
  end.

Definition async_set_temperature (self : EZoneClimate)
           (temperature : option value) : M unit :=
  match temperature with
  | None => ret tt
  | Some temperature =>
      do async_set_target_temp (climate_api self) temperature in
      async_request_refresh
  end.

Definition async_set_hvac_mode (self : EZoneClimate) (hvac_mode : string)
  : M unit :=
  do (if String.eqb hvac_mode HVACMode_OFF
      then do async_set_aircon_on_off (climate_api self) false in ret tt
      else
        (* Find the EZone mode for this HVAC mode *)
        let* ezone_mode := lift (find_number EZONE_HVAC_MODES hvac_mode) in
        if number_truthy ezone_mode then
          do async_set_aircon_on_off (climate_api self) true in
          do async_set_mode (climate_api self)
               (match ezone_mode with Some n => n | None => 0 end) in
          ret tt
        else ret tt)
  in async_request_refresh.

Definition async_set_fan_mode (self : EZoneClimate) (fan_mode : string)
  : M unit :=
  (* Find the EZone fan speed *)
  let* ezone_speed := lift (find_number EZONE_FAN_MODES fan_mode) in
  if number_truthy ezone_speed then
    do async_set_fan_speed (climate_api self)
         (match ezone_speed with Some n => n | None => 0 end) in
    async_request_refresh
  else ret tt.

(** ** Facts about strings and dictionaries *)


Lemma lstrip_all_space s : all_space s = true -> lstrip s = "".
Proof.
  induction s as [|c s IH]; simpl; [reflexivity|].
  unfold all_space; simpl. intros [Hc Hs]%andb_prop.
  rewrite Hc. now apply IH.
Qed.

Lemma rstrip_empty s : rstrip s = "" -> all_space s = true.
Proof.
  induction s as [|c s IH]; simpl; [reflexivity|].
  destruct (rstrip s) eqn:E; [|discriminate].
  destruct (isspace c) eqn:Hc; [|discriminate].
  intros _. unfold all_space; simpl. rewrite Hc. now apply IH.
Qed.

Lemma lstrip_empty s : lstrip s = "" -> all_space s = true.
Proof.
  induction s as [|c s IH]; simpl; [reflexivity|].
  destruct (isspace c) eqn:Hc; [|discriminate].
  intros H. unfold all_space; simpl. rewrite Hc. now apply IH.
Qed.

Lemma lstrip_head s c r : lstrip s = String c r -> isspace c = false.
Proof.
  induction s as [|a s IH]; simpl; [discriminate|].
  destruct (isspace a) eqn:Ha; [exact IH|].
  intros [= <- _]. exact Ha.
Qed.

(** The stripped string is empty exactly when the string is blank. *)
Lemma strip_empty_iff s : strip s = "" <-> all_space s = true.
Proof.
  unfold strip. split.
  - intros H. destruct (lstrip s) as [|c r] eqn:E.
    + now apply lstrip_empty.
    + apply rstrip_empty in H. pose proof (lstrip_head _ _ _ E) as Hc.
      unfold all_space in H; simpl in H. rewrite Hc in H. discriminate.
  - intros H. now rewrite (lstrip_all_space _ H).
Qed.

Lemma dict_get_set_eq {A} k (v : A) d : dict_get k (dict_set k v d) = Some v.
Proof.
  induction d as [|[k' v'] d IH]; simpl.
  - now rewrite String.eqb_refl.
  - destruct (String.eqb k' k) eqn:E; simpl; rewrite E; [reflexivity|exact IH].
Qed.

Lemma dict_get_set_ne {A} k k' (v : A) d :
  k <> k' -> dict_get k' (dict_set k v d) = dict_get k' d.
Proof.
  intros Hne. induction d as [|[k0 v0] d IH]; simpl.
  - destruct (String.eqb_spec k k'); [contradiction|reflexivity].
  - destruct (String.eqb_spec k0 k) as [->|Hk]; simpl.
    + destruct (String.eqb_spec k k'); [contradiction|reflexivity].
    + destruct (String.eqb k0 k'); [reflexivity|exact IH].
Qed.

(** ** The normalizer *)


Lemma occurrences_app T cs cs' :
  occurrences T (cs ++ cs') = occurrences T cs ++ occurrences T cs'.
Proof. apply List.filter_app. Qed.

Lemma xml_to_dict_not_list e : isinstance_list (_xml_to_dict e) = false.
Proof.
  destruct e as [t txt cs]. simpl.
  destruct txt as [s|]; [|reflexivity].
  destruct (str_truthy s && str_truthy (strip s) && (length cs =? 0)%nat);
    reflexivity.
Qed.

Lemma add_child_get f (Hf : forall c, isinstance_list (f c) = false)
      seen result c :
  (forall T, dict_get T result = collected (map f (occurrences T seen))) ->
  forall T, dict_get T (add_child result (tag c) (f c))
            = collected (map f (occurrences T (seen ++ [c]))).
Proof.
  intros Hres T. rewrite occurrences_app, map_app. unfold add_child.
  simpl. destruct (String.eqb_spec (tag c) T) as [->|Hne].
  - rewrite Hres. simpl.
    destruct (occurrences T seen) as [|c1 [|c2 r]]; simpl.
    + apply dict_get_set_eq.
    + rewrite dict_get_set_eq. specialize (Hf c1).
      destruct (f c1); simpl in *; try reflexivity; discriminate.
    + now rewrite dict_get_set_eq.
  - simpl. rewrite app_nil_r, <- Hres.
    destruct (dict_get (tag c) result); now apply dict_get_set_ne.
Qed.

Lemma for_child_get f (Hf : forall c, isinstance_list (f c) = false) cs :
  forall seen result,
  (forall T, dict_get T result = collected (map f (occurrences T seen))) ->
  forall T, dict_get T (for_child f cs result)
            = collected (map f (occurrences T (seen ++ cs))).
Proof.
  induction cs as [|c cs IH]; intros seen result Hres T; simpl.
  - now rewrite app_nil_r.
  - replace (seen ++ c :: cs) with ((seen ++ [c]) ++ cs)
      by now rewrite <- app_assoc.
    apply IH. now apply add_child_get.
Qed.

Lemma xml_to_dict_children t txt cs :
  cs <> [] -> _xml_to_dict (Element t txt cs)
              = VDict (for_child _xml_to_dict cs []).
Proof.
  intros Hcs. destruct cs as [|c cs]; [contradiction|]. simpl.
  destruct txt as [s|]; [|reflexivity].
  now rewrite andb_false_r.
Qed.

(** C4. Normalization of a node: a childless node whose stripped text is
    not empty becomes exactly that stripped text; a node with children
    becomes a mapping that holds, for each tag, nothing when no child has
    the tag, the child's own value when exactly one child has it, and the
    sequence of the values of all children with that tag in document
    order when two or more have it; and the value of a node is never
    itself a sequence, so a single occurrence is a scalar. *)
Theorem xml_to_dict_promotion (t : string) (txt : option string)
        (cs : list element) :
  (forall s, txt = Some s -> strip s <> "" -> cs = [] ->
     _xml_to_dict (Element t txt cs) = VStr (strip s))
  /\ (cs <> [] ->
      exists d, _xml_to_dict (Element t txt cs) = VDict d
        /\ (forall T, dict_get T d
              = match map _xml_to_dict (occurrences T cs) with
                | [] => None
                | [v] => Some v
                | v1 :: v2 :: vs => Some (VList (v1 :: v2 :: vs))
                end)
        /\ (forall T, dict_get T d <> None <-> In T (map tag cs)))
  /\ (forall c l, _xml_to_dict c <> VList l).
Proof.
  split; [|split].
  - intros s -> Hs ->. simpl. unfold str_truthy.
    destruct (String.eqb_spec (strip s) ""); [contradiction|].
    destruct (String.eqb_spec s "") as [->|_]; [now elim Hs|reflexivity].
  - intros Hcs. exists (for_child _xml_to_dict cs []).
    split; [now apply xml_to_dict_children|].
    assert (Hget : forall T, dict_get T (for_child _xml_to_dict cs [])
                   = collected (map _xml_to_dict (occurrences T cs))).
    { intros T. apply (for_child_get _ xml_to_dict_not_list cs [] []).
      reflexivity. }
    split.
    + intros T. rewrite Hget. unfold collected.
      now destruct (map _xml_to_dict (occurrences T cs)) as [|? [|? ?]].
    + intros T. rewrite Hget. unfold occurrences.
      split.
      * intros Hn. destruct (List.filter _ cs) as [|c r] eqn:E;
          [now elim Hn|].
        assert (Hin : In c (List.filter (fun c => String.eqb (tag c) T) cs))
          by (rewrite E; now left).
        apply List.filter_In in Hin as [Hin Ht].
        apply String.eqb_eq in Ht. subst T. now apply List.in_map.
      * intros Hin. apply List.in_map_iff in Hin as (c & <- & Hin).
        assert (Hc : In c (List.filter
                             (fun c' => String.eqb (tag c') (tag c)) cs)).
        { apply List.filter_In. split; [exact Hin|apply String.eqb_refl]. }
        destruct (List.filter _ cs) as [|c1 [|c2 r]];
          [contradiction| discriminate | discriminate].
  - intros c l H. pose proof (xml_to_dict_not_list c) as Hc.
    rewrite H in Hc. discriminate.
Qed.

(** ** The monad *)

Lemma bind_return {A B} (m : M A) (k : A -> M B) h a t :
  m h = (Return a, t) ->
  bind m k h = (fst (k a (h ++ t)), t ++ snd (k a (h ++ t))).
Proof. intros H. unfold bind. rewrite H. now destruct (k a (h ++ t)). Qed.

Lemma bind_raise {A B} (m : M A) (k : A -> M B) h e t :
  m h = (Raise e, t) -> bind m k h = (Raise e, t).
Proof. intros H. unfold bind. now rewrite H. Qed.

(** ** One attempt of a read *)

Lemma read_block_eq self op h :
  read_block self op h
  = (block_result op (session h (read_request self op)),
     [Get (read_request self op)]).
Proof.
  destruct op as [|zone]; simpl;
    unfold system_block, zone_block, session_get, bind; simpl;
    (destruct (session h _) as [e|[st bd]]; simpl; [reflexivity|]);
    (destruct (st =? 200); simpl; [|reflexivity]);
    (destruct bd as [e|xml]; simpl; [reflexivity|]);
    unfold _parse_system_xml, _parse_zone_xml, try_except, bind,
      ET_fromstring, lift; simpl;
    (destruct (fromstring xml) as [msg|root]; simpl; [reflexivity|]).
  - reflexivity.
  - destruct (py_setitem (_xml_to_dict root) "zone_number" (VInt zone))
      as [v|e] eqn:E; simpl; [reflexivity|].
    destruct (_xml_to_dict root); simpl in E; try discriminate;
      injection E as <-; reflexivity.
Qed.

Lemma read_attempt_eq self op h :
  read_attempt (read_block self op) h
  = (Return match block_result op (session h (read_request self op)) with
            | Return v => Returned v
            | Raise e => read_handler e
            end,
     [Get (read_request self op)]).
Proof.
  unfold read_attempt, try_except, bind. rewrite read_block_eq.
  destruct (block_result op _); simpl; now rewrite ?app_nil_r.
Qed.

Lemma transport_error_retry {A} e txt :
  transport_error e = Some txt -> @read_handler A e = Retry txt.
Proof.
  unfold transport_error, read_handler.
  destruct (exn_cls e); simpl; intros [= <-]; reflexivity.
Qed.

Lemma raised_block_result op o e :
  raised_by_transport o = Some e -> block_result op o = Raise e.
Proof.
  destruct o as [e'|[st bd]]; simpl.
  - now intros [= ->].
  - destruct (st =? 200); [|discriminate].
    destruct bd; [now intros [= ->]|discriminate].
Qed.

(** ** The retry loop *)

(** After [k] attempts that end in a retry the loop is where it would be
    had it started there, with the count and the last error advanced. *)
Lemma read_loop_retries {A} (block : M A) req k :
  forall (errs : nat -> string) left count error h,
  (forall i, (i < k)%nat ->
     read_attempt block (h ++ failed_attempts req i)
     = (Return (Retry (errs i)), [Get req])) ->
  read_loop block (k + left) count error h
  = (fst (read_loop block left (count + Z.of_nat k) (last_error error errs k)
            (h ++ failed_attempts req k)),
     failed_attempts req k
     ++ snd (read_loop block left (count + Z.of_nat k)
               (last_error error errs k) (h ++ failed_attempts req k))).
Proof.
  induction k as [|k IH]; intros errs left count error h Hk.
  - simpl. rewrite Z.add_0_r, app_nil_r. now destruct (read_loop _ _ _ _ _).
  - change (read_loop block (S k + left) count error h)
      with (bind (read_attempt block)
              (fun r => match r with
                 | Returned a => ret a
                 | Retry error' =>
                     bind (asyncio_sleep 1)
                       (fun _ => read_loop block (k + left) (count + 1)
                                   (Some error'))
                 | Break error' =>
                     raise (Exn ApiError
                              (no_valid_response (count + 1) (Some error')))
                 end) h).
    pose proof (Hk O ltac:(lia)) as H0. simpl in H0. rewrite app_nil_r in H0.
    rewrite (bind_return _ _ _ _ _ H0).
    unfold bind at 1 2, asyncio_sleep. simpl.
    rewrite (IH (fun i => errs (S i)) left (count + 1) (Some (errs O))
                ((h ++ [Get req]) ++ [Sleep 1])).
    + assert (Hh : (h ++ [Get req]) ++ [Sleep 1] ++ failed_attempts req k
                   = h ++ Get req :: Sleep 1 :: failed_attempts req k)
        by now rewrite <- app_assoc.
      replace (((h ++ [Get req]) ++ [Sleep 1]) ++ failed_attempts req k)
        with (h ++ Get req :: Sleep 1 :: failed_attempts req k)
        by now rewrite <- !app_assoc.
      replace (count + 1 + Z.of_nat k) with (count + Z.of_nat (S k)) by lia.
      replace (last_error (Some (errs O)) (fun i => errs (S i)) k)
        with (last_error error errs (S k)) by now destruct k.
      now destruct (read_loop _ _ _ _ _).
    + intros i Hi. specialize (Hk (S i) ltac:(lia)). simpl in Hk.
      now rewrite <- !app_assoc.
Qed.

Lemma run_read_eq self op retry_arg :
  run_read self op retry_arg
  = read_loop (read_block self op) (Z.to_nat (retry_or retry_arg self)) 0 None.
Proof.
  destruct op; simpl; unfold async_get_system_data, async_get_zone_data;
    now rewrite Z.sub_0_r.
Qed.

Lemma read_loop_returned {A} (block : M A) left count error h v t :
  read_attempt block h = (Return (Returned v), t) ->
  read_loop block (S left) count error h = (Return v, t).
Proof.
  intros H. simpl. rewrite (bind_return _ _ _ _ _ H). simpl.
  now rewrite app_nil_r.
Qed.

Lemma read_loop_break {A} (block : M A) left count error h txt t :
  read_attempt block h = (Return (Break txt), t) ->
  read_loop block (S left) count error h
  = (Raise (Exn ApiError (no_valid_response (count + 1) (Some txt))), t).
Proof.
  intros H. simpl. rewrite (bind_return _ _ _ _ _ H). simpl.
  now rewrite app_nil_r.
Qed.

(** The history seen by attempt [k + 1] of a read whose first [k]
    attempts failed in the transport. *)
Lemma run_read_retries self op retry_arg h k errs left :
  let req := read_request self op in
  (forall i, (i < k)%nat ->
     exists e, raised_by_transport (session (h ++ failed_attempts req i) req)
               = Some e /\ transport_error e = Some (errs i)) ->
  Z.to_nat (retry_or retry_arg self) = (k + left)%nat ->
  run_read self op retry_arg h
  = (fst (read_loop (read_block self op) left (Z.of_nat k)
            (last_error None errs k) (h ++ failed_attempts req k)),
     failed_attempts req k
     ++ snd (read_loop (read_block self op) left (Z.of_nat k)
               (last_error None errs k) (h ++ failed_attempts req k))).
Proof.
  intros req Hk Hn. rewrite run_read_eq, Hn.
  rewrite (read_loop_retries _ req k errs); [reflexivity|].
  intros i Hi. destruct (Hk i Hi) as (e & He & Hte).
  rewrite read_attempt_eq. fold req.
  rewrite (raised_block_result _ _ _ He).
  now rewrite (transport_error_retry _ _ Hte).
Qed.

(** A read that meets a fatal answer at attempt [k + 1] raises the error
    of the loop with that count and that cause. *)
Lemma run_read_fatal self op retry_arg h k errs e txt :
  let req := read_request self op in
  (forall i, (i < k)%nat ->
     exists e, raised_by_transport (session (h ++ failed_attempts req i) req)
               = Some e /\ transport_error e = Some (errs i)) ->
  Z.of_nat k < retry_or retry_arg self ->
  block_result op (session (h ++ failed_attempts req k) req) = Raise e ->
  @read_handler value e = Break txt ->
  run_read self op retry_arg h
  = (Raise (Exn ApiError (no_valid_response (Z.of_nat k + 1) (Some txt))),
     failed_attempts req k ++ [Get req]).
Proof.
  intros req Hk Hlt Hb Hh.
  rewrite (run_read_retries self op retry_arg h k errs
             (Z.to_nat (retry_or retry_arg self) - S k + 1) Hk) by lia.
  replace (Z.to_nat (retry_or retry_arg self) - S k + 1)%nat
    with (S (Z.to_nat (retry_or retry_arg self) - S k)) by lia.
  erewrite read_loop_break; [reflexivity|].
  rewrite read_attempt_eq. fold req. now rewrite Hb, Hh.
Qed.

Lemma run_read_success self op retry_arg h k errs v :
  let req := read_request self op in
  (forall i, (i < k)%nat ->
     exists e, raised_by_transport (session (h ++ failed_attempts req i) req)
               = Some e /\ transport_error e = Some (errs i)) ->
  Z.of_nat k < retry_or retry_arg self ->
  block_result op (session (h ++ failed_attempts req k) req) = Return v ->
  run_read self op retry_arg h
  = (Return v, failed_attempts req k ++ [Get req]).
Proof.
  intros req Hk Hlt Hb.
  rewrite (run_read_retries self op retry_arg h k errs
             (Z.to_nat (retry_or retry_arg self) - S k + 1) Hk) by lia.
  replace (Z.to_nat (retry_or retry_arg self) - S k + 1)%nat
    with (S (Z.to_nat (retry_or retry_arg self) - S k)) by lia.
  erewrite read_loop_returned; [reflexivity|].
  rewrite read_attempt_eq. fold req. now rewrite Hb.
Qed.

(** C2. A read with attempt budget [r] (5 unless set otherwise) whose
    first [k] attempts fail in the transport (a connection error, a reset
    or a timeout) sleeps one time unit after each of them and tries again
    while attempts remain.  If attempt [k + 1] is within the budget and
    is answered with status 200 and a parseable document, the read returns
    the parsed result and nothing else; if it is answered with another
    status or an unparseable document, the read raises at once, with no
    sleep and no further attempt; if all [r] attempts fail in the
    transport, the read raises an error with the count [r] and the text
    of the last failure. *)
Theorem read_retry_policy (self : ezone_api) (op : read_op)
        (retry_arg : option Z) (h : list event) (k : nat)
        (errs : nat -> string) :
  let r := retry_or retry_arg self in
  let req := read_request self op in
  (forall i, (i < k)%nat ->
     exists e, raised_by_transport (session (h ++ failed_attempts req i) req)
               = Some e /\ transport_error e = Some (errs i)) ->
  (Z.of_nat k < r ->
   forall xml_data root v,
     session (h ++ failed_attempts req k) req
     = Responds (Response 200 (inr xml_data)) ->
     fromstring xml_data = inr root -> parsed op root = Return v ->
     run_read self op retry_arg h
     = (Return v, failed_attempts req k ++ [Get req]))
  /\ (Z.of_nat k < r ->
      forall resp,
        session (h ++ failed_attempts req k) req = Responds resp ->
        status resp <> 200 ->
        run_read self op retry_arg h
        = (Raise (Exn ApiError (no_valid_response (Z.of_nat k + 1)
                                  (Some "Response status not 200."))),
           failed_attempts req k ++ [Get req]))
  /\ (Z.of_nat k < r ->
      forall xml_data msg,
        session (h ++ failed_attempts req k) req
        = Responds (Response 200 (inr xml_data)) ->
        fromstring xml_data = inl msg ->
        run_read self op retry_arg h
        = (Raise (Exn ApiError
                    (no_valid_response (Z.of_nat k + 1)
                       (Some ("XML parsing error: Invalid XML response: "
                              +:+ msg)))),
           failed_attempts req k ++ [Get req]))
  /\ (Z.of_nat k = r -> (0 < k)%nat ->
      run_read self op retry_arg h
      = (Raise (Exn ApiError (no_valid_response r (Some (errs (k - 1)%nat)))),
         failed_attempts req k))
  /\ (forall ip port, retry_or None (__init__ ip port None) = 5).
Proof.
  intros r req Hk. repeat split.
  - intros Hlt xml_data root v Hs Hp Hv.
    apply (run_read_success self op retry_arg h k errs v Hk Hlt).
    fold req. rewrite Hs. simpl. now rewrite Hp.
  - intros Hlt resp Hs Hst.
    apply (run_read_fatal self op retry_arg h k errs
             (Exn AssertionError "") _ Hk Hlt); [|reflexivity].
    fold req. rewrite Hs. simpl.
    destruct (Z.eqb_spec (status resp) 200); [contradiction|reflexivity].
  - intros Hlt xml_data msg Hs Hp.
    apply (run_read_fatal self op retry_arg h k errs
             (Exn ApiError ("Invalid XML response: " +:+ msg)) _ Hk Hlt);
      [|reflexivity].
    fold req. rewrite Hs. simpl. now rewrite Hp.
  - intros Hr Hpos.
    rewrite (run_read_retries self op retry_arg h k errs O Hk)
      by (fold r; lia).
    simpl. rewrite app_nil_r. fold r. rewrite Hr.
    destruct k as [|k']; [lia|]. simpl. now rewrite Nat.sub_0_r.
Qed.

(** C6, as the code has it. A read whose loop breaks on a fatal answer
    (a status other than 200, or an unparseable document) at attempt
    [k + 1] raises the same [ApiError] as an exhausted loop does: the
    message starts with the number of attempts made so far and ends with
    the text of the immediate cause. *)
Theorem read_fatal_error (self : ezone_api) (op : read_op)
        (retry_arg : option Z) (h : list event) (k : nat)
        (errs : nat -> string) (resp : response) :
  let req := read_request self op in
  (forall i, (i < k)%nat ->
     exists e, raised_by_transport (session (h ++ failed_attempts req i) req)
               = Some e /\ transport_error e = Some (errs i)) ->
  Z.of_nat k < retry_or retry_arg self ->
  session (h ++ failed_attempts req k) req = Responds resp ->
  (status resp <> 200 ->
   fst (run_read self op retry_arg h)
   = Raise (Exn ApiError
              ("No valid response after " +:+ str_of_int (Z.of_nat k + 1)
               +:+ " failed attempt" +:+ (if 1 <? Z.of_nat k + 1 then "s" else "")
               +:+ ". Last error was: " +:+ "Response status not 200.")))
  /\ (forall xml_data msg,
        status resp = 200 -> body resp = inr xml_data ->
        fromstring xml_data = inl msg ->
        fst (run_read self op retry_arg h)
        = Raise (Exn ApiError
                   ("No valid response after " +:+ str_of_int (Z.of_nat k + 1)
                    +:+ " failed attempt"
                    +:+ (if 1 <? Z.of_nat k + 1 then "s" else "")
                    +:+ ". Last error was: "
                    +:+ "XML parsing error: Invalid XML response: " +:+ msg))).
Proof.
  intros req Hk Hlt Hs. split.
  - intros Hst.
    rewrite (run_read_fatal self op retry_arg h k errs
               (Exn AssertionError "") "Response status not 200." Hk Hlt);
      [reflexivity| |reflexivity].
    fold req. rewrite Hs. simpl.
    destruct (Z.eqb_spec (status resp) 200); [contradiction|reflexivity].
  - intros xml_data msg Hst Hb Hp.
    rewrite (run_read_fatal self op retry_arg h k errs
               (Exn ApiError ("Invalid XML response: " +:+ msg))
               ("XML parsing error: Invalid XML response: " +:+ msg) Hk Hlt);
      [reflexivity| |reflexivity].
    fold req. rewrite Hs. simpl. now rewrite Hst, Hb, Hp.
Qed.

(** ** Traces *)

Lemma requests_app t1 t2 : requests (t1 ++ t2) = requests t1 ++ requests t2.
Proof.
  induction t1 as [|e t1 IH]; [reflexivity|].
  destruct e; simpl; now rewrite IH.
Qed.

Lemma current_snapshot_network t :
  Forall network_event t -> forall h,
  current_snapshot (h ++ t) = current_snapshot h.
Proof.
  intros Ht h. induction h as [|e h IH]; simpl.
  - induction Ht as [|e t He _ IH]; [reflexivity|]. simpl. rewrite IH.
    now destruct e.
  - now rewrite IH.
Qed.

Lemma current_snapshot_set h d : current_snapshot (h ++ [SetData d]) = Some d.
Proof.
  induction h as [|e h IH]; [reflexivity|]. simpl. now rewrite IH.
Qed.

(** The shape of a read: only GETs of its own request and sleeps, at most
    one GET per pass and at least one when a pass is made; and the only
    exception it lets out is an [ApiError]. *)
Lemma read_loop_shape self op left :
  forall count error h,
  let run := read_loop (read_block self op) left count error h in
  (exists n, requests (snd run) = repeat (read_request self op) n
             /\ (n <= left)%nat /\ ((0 < left)%nat -> (1 <= n)%nat))
  /\ Forall network_event (snd run)
  /\ (forall e, fst run = Raise e -> exn_cls e = ApiError).
Proof.
  induction left as [|left IH]; intros count error h; cbv zeta.
  - simpl. split; [exists O; repeat split; lia|].
    split; [constructor|]. now intros e [= <-].
  - change (read_loop (read_block self op) (S left) count error h)
      with (bind (read_attempt (read_block self op))
              (fun r => match r with
                 | Returned a => ret a
                 | Retry error' =>
                     bind (asyncio_sleep 1)
                       (fun _ => read_loop (read_block self op) left
                                   (count + 1) (Some error'))
                 | Break error' =>
                     raise (Exn ApiError
                              (no_valid_response (count + 1) (Some error')))
                 end) h).
    rewrite (bind_return _ _ _ _ _ (read_attempt_eq self op h)).
    destruct (match block_result op (session h (read_request self op)) with
              | Return v => Returned v
              | Raise e => read_handler e
              end) as [v|txt|txt]; simpl.
    + split; [exists 1%nat; repeat split; lia|].
      split; [repeat constructor|]. discriminate.
    + unfold bind, asyncio_sleep.
      specialize (IH (count + 1) (Some txt)
                     ((h ++ [Get (read_request self op)]) ++ [Sleep 1])).
      cbv zeta in IH. destruct IH as ((n & Hn & Hle & _) & Hnet & Hexn).
      destruct (read_loop _ left _ _ _) as [r t]. simpl in *.
      split; [exists (S n); simpl; rewrite Hn; repeat split; lia|].
      split; [repeat constructor; exact Hnet|exact Hexn].
    + split; [exists 1%nat; repeat split; lia|].
      split; [repeat constructor|]. now intros e [= <-].
Qed.

Lemma zone_data_shape self zone h :
  let run := async_get_zone_data self zone None h in
  (exists n, requests (snd run) = repeat (zone_request self zone) n
             /\ (n <= Z.to_nat (retry self))%nat
             /\ (0 < retry self -> (1 <= n)%nat))
  /\ Forall network_event (snd run)
  /\ (forall e, fst run = Raise e -> exn_cls e = ApiError).
Proof.
  cbv zeta. change (async_get_zone_data self zone None)
    with (run_read self (GetZoneData zone) None).
  rewrite run_read_eq.
  destruct (read_loop_shape self (GetZoneData zone)
              (Z.to_nat (retry_or None self)) 0 None h)
    as ((n & Hn & Hle & Hge) & Hnet & Hexn).
  simpl in *. split; [|now split].
  exists n. repeat split; [exact Hn|exact Hle|]. intros. apply Hge. lia.
Qed.

Lemma system_data_shape self h :
  let run := async_get_system_data self None h in
  (exists n, requests (snd run) = repeat (system_request self) n
             /\ (n <= Z.to_nat (retry self))%nat
             /\ (0 < retry self -> (1 <= n)%nat))
  /\ Forall network_event (snd run)
  /\ (forall e, fst run = Raise e -> exn_cls e = ApiError).
Proof.
  cbv zeta. change (async_get_system_data self None)
    with (run_read self GetSystemData None).
  rewrite run_read_eq.
  destruct (read_loop_shape self GetSystemData
              (Z.to_nat (retry_or None self)) 0 None h)
    as ((n & Hn & Hle & Hge) & Hnet & Hexn).
  simpl in *. split; [|now split].
  exists n. repeat split; [exact Hn|exact Hle|]. intros. apply Hge. lia.
Qed.

(** ** The loop over the zones *)

(** One pass of the loop over the zones: the zone's data is stored under
    the zone's number when the fetch returns, and nothing changes when it
    raises. *)
Lemma for_zone_num_cons self zone_num rest zones_data h :
  let run := async_get_zone_data self zone_num None h in
  let zones_data' :=
    match fst run with
    | Return zone_data => dict_set (str_of_int zone_num) zone_data zones_data
    | Raise _ => zones_data
    end in
  for_zone_num self (zone_num :: rest) zones_data h
  = (fst (for_zone_num self rest zones_data' (h ++ snd run)),
     snd run ++ snd (for_zone_num self rest zones_data' (h ++ snd run))).
Proof.
  cbv zeta. simpl. unfold bind at 1, try_except, bind.
  pose proof (zone_data_shape self zone_num h) as (_ & _ & Hexn).
  cbv zeta in Hexn.
  destruct (async_get_zone_data self zone_num None h) as [[zd|e] t]; simpl.
  - rewrite !app_nil_r. now destruct (for_zone_num _ _ _ _).
  - specialize (Hexn e eq_refl). unfold is_class. rewrite Hexn. simpl.
    rewrite !app_nil_r. now destruct (for_zone_num _ _ _ _).
Qed.

Lemma for_zone_num_returns self zone_nums :
  forall zones_data h,
  exists zones_data',
    fst (for_zone_num self zone_nums zones_data h) = Return zones_data'.
Proof.
  induction zone_nums as [|z zs IH]; intros zd h.
  - now exists zd.
  - rewrite for_zone_num_cons. simpl. apply IH.
Qed.

Lemma for_zone_num_network self zone_nums :
  forall zones_data h,
  Forall network_event (snd (for_zone_num self zone_nums zones_data h)).
Proof.
  induction zone_nums as [|z zs IH]; intros zd h.
  - constructor.
  - rewrite for_zone_num_cons. simpl. apply Forall_app. split; [|apply IH].
    apply (zone_data_shape self z h).
Qed.

(** The requests of the loop: for each zone in turn, its own GETs. *)
Lemma for_zone_num_requests self zone_nums :
  forall zones_data h,
  exists counts : list nat,
    length counts = length zone_nums
    /\ requests (snd (for_zone_num self zone_nums zones_data h))
       = concat (zip_with (fun z n => repeat (zone_request self z) n)
                          zone_nums counts)
    /\ Forall (fun n => (n <= Z.to_nat (retry self))%nat
                        /\ (0 < retry self -> (1 <= n)%nat)) counts.
Proof.
  induction zone_nums as [|z zs IH]; intros zd h.
  - exists []. repeat split. constructor.
  - rewrite for_zone_num_cons. cbv zeta.
    destruct (zone_data_shape self z h) as ((n & Hn & Hle & Hge) & _ & _).
    cbv zeta in Hn.
    match goal with
    | |- context [for_zone_num self zs ?d ?h'] =>
        destruct (IH d h') as (counts & Hlen & Hreq & Hall)
    end.
    exists (n :: counts). simpl. rewrite requests_app, Hn, Hreq, Hlen.
    repeat split. constructor; [split; assumption|exact Hall].
Qed.

(** What the loop leaves under each key. *)
Lemma for_zone_num_lookup self zone_nums :
  NoDup zone_nums ->
  forall zones_data h,
  let run := for_zone_num self zone_nums zones_data h in
  forall zones_data', fst run = Return zones_data' ->
  (forall key, (forall z, z ∈ zone_nums -> key <> str_of_int z) ->
     dict_get key zones_data' = dict_get key zones_data)
  /\ (forall before z after, zone_nums = before ++ z :: after ->
        dict_get (str_of_int z) zones_data'
        = match fst (async_get_zone_data self z None
                       (h ++ snd (for_zone_num self before zones_data h))) with
          | Return zone_data => Some zone_data
          | Raise _ => dict_get (str_of_int z) zones_data
          end).
Proof.
  induction zone_nums as [|z0 zs IH]; intros Hnd zd h; cbv zeta.
  - simpl. intros zd' [= <-]. split; [reflexivity|].
    intros [|] ? ? [=].
  - apply NoDup_cons in Hnd as [Hz0 Hnd].
    rewrite for_zone_num_cons. cbv zeta. simpl fst.
    set (run0 := async_get_zone_data self z0 None h).
    set (zd1 := match fst run0 with
                | Return zone_data => dict_set (str_of_int z0) zone_data zd
                | Raise _ => zd
                end).
    assert (Hother : forall key, key <> str_of_int z0 ->
                     dict_get key zd1 = dict_get key zd).
    { intros key Hkey. unfold zd1. destruct (fst run0); [|reflexivity].
      apply dict_get_set_ne. congruence. }
    intros zd' Hrun.
    destruct (IH Hnd zd1 (h ++ snd run0) zd' Hrun) as [Hkeys Hzones].
    split.
    + intros key Hkey. rewrite Hkeys.
      * apply Hother. apply Hkey. now left.
      * intros z Hz. apply Hkey. now right.
    + intros before z after Heq. destruct before as [|b before].
      * simpl in Heq. injection Heq as <- <-. simpl. rewrite app_nil_r.
        rewrite Hkeys.
        -- unfold zd1. fold run0.
           destruct (fst run0); [apply dict_get_set_eq|reflexivity].
        -- intros z Hz Heq. apply (inj pretty) in Heq. now subst.
      * simpl in Heq. injection Heq as <- ->.
        rewrite (Hzones before z after eq_refl).
        rewrite for_zone_num_cons. cbv zeta. simpl snd. fold run0 zd1.
        rewrite app_assoc. rewrite Hother; [reflexivity|].
        intros Heq. apply (inj pretty) in Heq. subst z.
        apply Hz0. apply elem_of_app. right. now left.
Qed.

(** ** The aggregate read *)

Lemma py_range_from_1 N : py_range 1 (N + 1) = seqZ 1 N.
Proof. unfold py_range. f_equal. lia. Qed.

(** The zones up to [N] split at a zone [z]. *)
Lemma seqZ_split_at N z :
  1 <= z <= N ->
  seqZ 1 N = py_range 1 z ++ z :: seqZ (z + 1) (N - z).
Proof.
  intros Hz. unfold py_range.
  replace N with ((z - 1) + (N - z + 1)) at 1 by lia.
  rewrite seqZ_app by lia. f_equal.
  rewrite seqZ_cons by lia. f_equal; [lia|]. f_equal; lia.
Qed.

Lemma num_zones_of_system system_data N :
  num_zones_of system_data = Return N ->
  exists system, py_get system_data "system" (VDict []) = Return system.
Proof.
  unfold num_zones_of.
  destruct (py_get system_data "system" (VDict [])) as [system|e];
    [now exists system|discriminate].
Qed.

Lemma all_data_system_fails self h e t :
  async_get_system_data self None h = (Raise e, t) ->
  async_get_all_data self h
  = (Raise (Exn ApiError ("Failed to get all data: " +:+ exn_msg e)), t).
Proof.
  intros H. unfold async_get_all_data, try_except.
  rewrite (bind_raise _ _ _ _ _ H). simpl. now rewrite app_nil_r.
Qed.

Lemma all_data_count_fails self h system_data t e :
  async_get_system_data self None h = (Return system_data, t) ->
  num_zones_of system_data = Raise e ->
  async_get_all_data self h
  = (Raise (Exn ApiError ("Failed to get all data: " +:+ exn_msg e)), t).
Proof.
  intros H He. unfold async_get_all_data, try_except.
  rewrite (bind_return _ _ _ _ _ H). unfold bind at 1, lift at 1.
  rewrite He. simpl. now rewrite !app_nil_r.
Qed.

Lemma all_data_returns self h system_data t N system zones_data :
  async_get_system_data self None h = (Return system_data, t) ->
  num_zones_of system_data = Return N ->
  py_get system_data "system" (VDict []) = Return system ->
  fst (for_zone_num self (seqZ 1 N) [] (h ++ t)) = Return zones_data ->
  async_get_all_data self h
  = (Return (VDict [("system", system); ("zones", VDict zones_data)]),
     t ++ snd (for_zone_num self (seqZ 1 N) [] (h ++ t))).
Proof.
  intros H HN Hsys Hz. unfold async_get_all_data, try_except.
  rewrite (bind_return _ _ _ _ _ H). unfold bind, lift.
  rewrite HN, Hsys. simpl. rewrite !app_nil_r, py_range_from_1.
  destruct (for_zone_num self (seqZ 1 N) [] (h ++ t)) as [r tz].
  simpl in Hz. subst r. simpl. now rewrite !app_nil_r.
Qed.

(** C1, as the code has it. When the system data is fetched and the
    zone count [N] can be read from it, the aggregate read returns a
    mapping with a [system] entry and a [zones] mapping; for each zone
    from 1 to [N] the [zones] mapping holds the zone's data under the
    zone's number as a string when the zone's fetch returned, and has no
    entry for it when the fetch raised; it has no other key.  When the
    system fetch raises, or the zone count cannot be read from the system
    data, the aggregate read raises an [ApiError].  Whatever the read
    returns has a [system] entry and a [zones] mapping. *)
Theorem all_data_partial_failure (self : ezone_api) (h : list event) :
  (forall system_data t_sys N,
     async_get_system_data self None h = (Return system_data, t_sys) ->
     num_zones_of system_data = Return N ->
     exists system zones_data t_zones,
       async_get_all_data self h
       = (Return (VDict [("system", system); ("zones", VDict zones_data)]),
          t_sys ++ t_zones)
       /\ py_get system_data "system" (VDict []) = Return system
       /\ (forall z, 1 <= z <= N ->
             dict_get (str_of_int z) zones_data
             = match fst (async_get_zone_data self z None
                            ((h ++ t_sys)
                             ++ snd (for_zone_num self (py_range 1 z) []
                                       (h ++ t_sys)))) with
               | Return zone_data => Some zone_data
               | Raise _ => None
               end)
       /\ (forall key, (forall z, 1 <= z <= N -> key <> str_of_int z) ->
             dict_get key zones_data = None))
  /\ (forall e t_sys,
        async_get_system_data self None h = (Raise e, t_sys) ->
        async_get_all_data self h
        = (Raise (Exn ApiError ("Failed to get all data: " +:+ exn_msg e)),
           t_sys))
  /\ (forall system_data t_sys e,
        async_get_system_data self None h = (Return system_data, t_sys) ->
        num_zones_of system_data = Raise e ->
        async_get_all_data self h
        = (Raise (Exn ApiError ("Failed to get all data: " +:+ exn_msg e)),
           t_sys))
  /\ (forall result,
        fst (async_get_all_data self h) = Return result ->
        exists system zones_data,
          result = VDict [("system", system); ("zones", VDict zones_data)]).
Proof.
  split; [|split; [|split]].
  - intros system_data t_sys N Hsys HN.
    destruct (num_zones_of_system _ _ HN) as [system Hget].
    destruct (for_zone_num_returns self (seqZ 1 N) [] (h ++ t_sys))
      as [zones_data Hz].
    exists system, zones_data,
      (snd (for_zone_num self (seqZ 1 N) [] (h ++ t_sys))).
    split; [now apply (all_data_returns _ _ system_data _ N)|].
    split; [exact Hget|].
    destruct (for_zone_num_lookup self (seqZ 1 N) (NoDup_seqZ 1 N) []
                (h ++ t_sys) zones_data Hz) as [Hkeys Hzones].
    split.
    + intros z Hz1.
      now rewrite (Hzones _ _ _ (seqZ_split_at N z Hz1)).
    + intros key Hkey. rewrite Hkeys; [reflexivity|].
      intros z Hin. apply Hkey. apply elem_of_seqZ in Hin. lia.
  - intros e t_sys. apply all_data_system_fails.
  - intros system_data t_sys e. apply all_data_count_fails.
  - intros result.
    destruct (async_get_system_data self None h) as [[system_data|e] t_sys]
      eqn:Hsys.
    + destruct (num_zones_of system_data) as [N|e] eqn:HN.
      * destruct (num_zones_of_system _ _ HN) as [system Hget].
        destruct (for_zone_num_returns self (seqZ 1 N) [] (h ++ t_sys))
          as [zones_data Hz].
        rewrite (all_data_returns _ _ _ _ _ _ _ Hsys HN Hget Hz). simpl.
        intros [= <-]. now exists system, zones_data.
      * now rewrite (all_data_count_fails _ _ _ _ _ Hsys HN).
    + now rewrite (all_data_system_fails _ _ _ _ Hsys).
Qed.

(** The loop over the zones is sequential: its trace is the traces of
    the single zone reads one after the other, each read starting on the
    history that the reads before it have left. *)
Lemma for_zone_num_sequential self zone_nums :
  forall zones_data h,
  exists ts : list (list event),
    snd (for_zone_num self zone_nums zones_data h) = concat ts
    /\ length ts = length zone_nums
    /\ forall k z t, zone_nums !! k = Some z -> ts !! k = Some t ->
         t = snd (async_get_zone_data self z None (h ++ concat (take k ts))).
Proof.
  induction zone_nums as [|z0 zs IH]; intros zd h.
  - exists []. repeat split. intros [|k] z t Hz; discriminate Hz.
  - rewrite for_zone_num_cons. cbv zeta. simpl snd.
    match goal with
    | |- context [for_zone_num self zs ?d ?h'] =>
        destruct (IH d h') as (ts & Hts & Hlen & Hk)
    end.
    exists (snd (async_get_zone_data self z0 None h) :: ts).
    split; [simpl; now rewrite Hts|]. split; [simpl; now rewrite Hlen|].
    intros [|k] z t; simpl.
    + intros [= <-] [= <-]. now rewrite app_nil_r.
    + intros Hz Ht. rewrite (Hk k z t Hz Ht). now rewrite app_assoc.
Qed.

(** The zone count is the integer that the fetched system data carries
    as text under [system], [unitcontrol], [numberOfZones]. *)
Lemma num_zones_of_text d s u txt N :
  dict_get "system" d = Some (VDict s) ->
  dict_get "unitcontrol" s = Some (VDict u) ->
  dict_get "numberOfZones" u = Some (VStr txt) ->
  int_of_str txt = Some N ->
  num_zones_of (VDict d) = Return N.
Proof.
  intros Hs Hu Hn HN. unfold num_zones_of, py_get.
  rewrite Hs, Hu, Hn. unfold py_int. now rewrite HN.
Qed.

(** C7. The aggregate read begins with the system fetch, whose requests
    all go to [/getSystemData]; nothing follows when that fetch raises or
    the zone count cannot be read.  Otherwise the count [N] is read from
    the data that this very fetch returned: it is the integer written
    under [system], [unitcontrol], [numberOfZones] of that data.  What
    follows the system fetch is then the read of zone 1, the read of zone
    2, and so on up to zone [N], one after the other: the [k]-th piece of
    the trace is the whole trace of the read of zone [k], run on the
    history left by the system fetch and the zones before it, and its
    requests all go to [/getZoneData] with [zone=k], at least one of them
    when the attempt budget is positive. *)
Theorem all_data_fetch_order (self : ezone_api) (h : list event) :
  let system_req :=
    Request ("http://" +:+ ip self +:+ ":" +:+ str_of_int (port self)
             +:+ "/getSystemData") [] 4 in
  let zone_req z :=
    Request ("http://" +:+ ip self +:+ ":" +:+ str_of_int (port self)
             +:+ "/getZoneData") [("zone", VInt z)] 4 in
  let sys := async_get_system_data self None h in
  exists (n_sys : nat) (t_zones : list event),
    snd (async_get_all_data self h) = snd sys ++ t_zones
    /\ requests (snd sys) = repeat system_req n_sys
    /\ (0 < retry self -> (1 <= n_sys <= Z.to_nat (retry self))%nat)
    /\ (forall e, fst sys = Raise e -> t_zones = [])
    /\ (forall system_data,
          fst sys = Return system_data ->
          (forall d s u txt N,
             system_data = VDict d ->
             dict_get "system" d = Some (VDict s) ->
             dict_get "unitcontrol" s = Some (VDict u) ->
             dict_get "numberOfZones" u = Some (VStr txt) ->
             int_of_str txt = Some N ->
             num_zones_of system_data = Return N)
          /\ match num_zones_of system_data with
             | Raise _ => t_zones = []
             | Return N =>
                 exists ts : list (list event),
                   t_zones = concat ts
                   /\ length ts = Z.to_nat N
                   /\ forall (k : nat) (t : list event),
                        ts !! k = Some t ->
                        let z := 1 + Z.of_nat k in
                        t = snd (async_get_zone_data self z None
                                   (h ++ snd sys ++ concat (take k ts)))
                        /\ exists n : nat,
                             requests t = repeat (zone_req z) n
                             /\ (n <= Z.to_nat (retry self))%nat
                             /\ (0 < retry self -> (1 <= n)%nat)
             end).
Proof.
  cbv zeta.
  change ("http://" +:+ ip self +:+ ":" +:+ str_of_int (port self)
          +:+ "/getSystemData") with (endpoint self "/getSystemData").
  change ("http://" +:+ ip self +:+ ":" +:+ str_of_int (port self)
          +:+ "/getZoneData") with (endpoint self "/getZoneData").
  fold (system_request self).
  destruct (system_data_shape self h) as ((n & Hn & Hle & Hge) & _ & _).
  cbv zeta in Hn.
  destruct (async_get_system_data self None h) as [[system_data|e] t_sys]
    eqn:Hsys; simpl in *.
  - destruct (num_zones_of system_data) as [N|e] eqn:HN.
    + destruct (num_zones_of_system _ _ HN) as [system Hget].
      destruct (for_zone_num_returns self (seqZ 1 N) [] (h ++ t_sys))
        as [zones_data Hz].
      exists n, (snd (for_zone_num self (seqZ 1 N) [] (h ++ t_sys))).
      rewrite (all_data_returns _ _ _ _ _ _ _ Hsys HN Hget Hz). simpl.
      split; [reflexivity|]. split; [exact Hn|].
      split; [intros; split; [now apply Hge|exact Hle]|].
      split; [discriminate|]. intros sd [= <-].
      split.
      { intros d s u txt N0 -> Hs Hu Hnz HN0.
        pose proof (num_zones_of_text _ _ _ _ _ Hs Hu Hnz HN0). congruence. }
      rewrite HN.
      destruct (for_zone_num_sequential self (seqZ 1 N) [] (h ++ t_sys))
        as (ts & Hts & Hlen & Hk).
      exists ts. rewrite length_seqZ in Hlen.
      split; [exact Hts|]. split; [exact Hlen|].
      intros k t Ht.
      assert (Hlt : Z.of_nat k < N).
      { apply lookup_lt_Some in Ht. lia. }
      rewrite (Hk k (1 + Z.of_nat k) t (lookup_seqZ_lt 1 N k Hlt) Ht).
      rewrite <- app_assoc. split; [reflexivity|].
      destruct (zone_data_shape self (1 + Z.of_nat k)
                  (h ++ t_sys ++ concat (take k ts)))
        as ((m & Hm & Hmle & Hmge) & _ & _).
      exists m. split; [exact Hm|]. split; [exact Hmle|exact Hmge].
    + exists n, []. rewrite (all_data_count_fails _ _ _ _ _ Hsys HN). simpl.
      rewrite app_nil_r. split; [reflexivity|]. split; [exact Hn|].
      split; [intros; split; [now apply Hge|exact Hle]|].
      split; [reflexivity|]. intros sd [= <-].
      split.
      { intros d s u txt N0 -> Hs Hu Hnz HN0.
        pose proof (num_zones_of_text _ _ _ _ _ Hs Hu Hnz HN0). congruence. }
      now rewrite HN.
  - exists n, []. rewrite (all_data_system_fails _ _ _ _ Hsys). simpl.
    rewrite app_nil_r. split; [reflexivity|]. split; [exact Hn|].
    split; [intros; split; [now apply Hge|exact Hle]|].
    split; [reflexivity|]. discriminate.
Qed.

Lemma all_data_network self h :
  Forall network_event (snd (async_get_all_data self h)).
Proof.
  destruct (system_data_shape self h) as (_ & Hnet & _). cbv zeta in Hnet.
  destruct (async_get_system_data self None h) as [[system_data|e] t_sys]
    eqn:Hsys; simpl in Hnet.
  - destruct (num_zones_of system_data) as [N|e] eqn:HN.
    + destruct (num_zones_of_system _ _ HN) as [system Hget].
      destruct (for_zone_num_returns self (seqZ 1 N) [] (h ++ t_sys))
        as [zones_data Hz].
      rewrite (all_data_returns _ _ _ _ _ _ _ Hsys HN Hget Hz). simpl.
      apply Forall_app. split; [exact Hnet|apply for_zone_num_network].
    + now rewrite (all_data_count_fails _ _ _ _ _ Hsys HN).
  - now rewrite (all_data_system_fails _ _ _ _ Hsys).
Qed.

Lemma all_data_raises self h e :
  fst (async_get_all_data self h) = Raise e -> exn_cls e = ApiError.
Proof.
  unfold async_get_all_data, try_except.
  match goal with |- context [bind ?m ?k h] => destruct (bind m k h) as [[v|e'] t] end;
    simpl; [discriminate|]. now intros [= <-].
Qed.

(** ** The coordinator *)

Lemma update_data_eq api h :
  _async_update_data api h
  = (match fst (async_get_all_data api h) with
     | Return data => Return data
     | Raise e => Raise (Exn UpdateFailed
                           ("Error communicating with API: " +:+ exn_msg e))
     end, snd (async_get_all_data api h)).
Proof.
  unfold _async_update_data, try_except, bind.
  pose proof (all_data_raises api h) as Hcls.
  destruct (async_get_all_data api h) as [[data|e] t]; simpl in *.
  - now rewrite !app_nil_r.
  - unfold is_class. rewrite (Hcls e eq_refl). simpl. now rewrite app_nil_r.
Qed.

(** C3. A refresh whose aggregate read raises leaves the stored snapshot
    as it was, whether there is one or none yet, and raises the update
    failure to its caller; a refresh whose read returns hands the new
    data to the caller and makes it the stored snapshot. *)
Theorem refresh_snapshot (api : ezone_api) (h : list event) :
  (forall e, fst (async_get_all_data api h) = Raise e ->
     fst (refresh api h)
     = Raise (Exn UpdateFailed
                ("Error communicating with API: " +:+ exn_msg e))
     /\ current_snapshot (h ++ snd (refresh api h)) = current_snapshot h
     /\ (current_snapshot h = None ->
         current_snapshot (h ++ snd (refresh api h)) = None))
  /\ (forall data, fst (async_get_all_data api h) = Return data ->
        fst (refresh api h) = Return data
        /\ current_snapshot (h ++ snd (refresh api h)) = Some data).
Proof.
  pose proof (all_data_network api h) as Hnet.
  unfold refresh, bind. rewrite update_data_eq.
  destruct (async_get_all_data api h) as [[data|e] t]; simpl in *.
  - split; [discriminate|]. intros d [= <-]. split; [reflexivity|].
    rewrite ?app_nil_r, app_assoc. apply current_snapshot_set.
  - split; [|discriminate]. intros e' [= <-].
    rewrite (current_snapshot_network _ Hnet). now repeat split.
Qed.

(** ** Writes *)

Lemma write_block_eq req failed h :
  write_block req failed h
  = (match session h req with
     | Raises e => Raise (Exn ApiError (failed +:+ exn_msg e))
     | Responds resp =>
         if status resp =? 200 then
           match body resp with
           | inl e => Raise (Exn ApiError (failed +:+ exn_msg e))
           | inr txt => Return txt
           end
         else Raise (Exn ApiError (failed +:+ ""))
     end, [Get req]).
Proof.
  unfold write_block, try_except, bind, session_get.
  destruct (session h req) as [e|[st bd]]; simpl; [reflexivity|].
  destruct (st =? 200); simpl; [|reflexivity].
  destruct bd as [e|txt]; reflexivity.
Qed.

Lemma run_write_block self op :
  exists failed, run_write self op = write_block (write_request self op) failed.
Proof. destruct op; eexists; reflexivity. Qed.

(** C5. Each write operation issues exactly one GET and nothing else: with
    a 200 response it returns the text of the response, and with any other
    status or an exception from the transport it raises an [ApiError],
    the single request being all it sent. *)
Theorem write_single_request (self : ezone_api) (op : write_op)
        (h : list event) :
  let req := write_request self op in
  snd (run_write self op h) = [Get req]
  /\ (forall txt, session h req = Responds (Response 200 (inr txt)) ->
        fst (run_write self op h) = Return txt)
  /\ (forall resp, session h req = Responds resp -> status resp <> 200 ->
        exists msg, fst (run_write self op h) = Raise (Exn ApiError msg))
  /\ (forall e, session h req = Raises e ->
        exists msg, fst (run_write self op h) = Raise (Exn ApiError msg)).
Proof.
  intros req. destruct (run_write_block self op) as [failed ->].
  rewrite write_block_eq. fold req. simpl. split; [reflexivity|].
  split; [|split].
  - now intros txt ->.
  - intros resp -> Hst.
    destruct (Z.eqb_spec (status resp) 200); [contradiction|]. eauto.
  - intros e ->. eauto.
Qed.

(** ** The damper entity *)

Lemma current_snapshot_keep t :
  forallb (fun e => negb (is_set_data e)) t = true -> forall h,
  current_snapshot (h ++ t) = current_snapshot h.
Proof.
  intros Ht h. induction h as [|e h IH]; simpl.
  - induction t as [|e t IH]; [reflexivity|]. simpl in *.
    apply andb_prop in Ht as [He Ht]. rewrite (IH Ht). now destruct e.
  - now rewrite IH.
Qed.

Lemma zone_write_eq self zone params h :
  let req := Request (endpoint self "/setZoneData")
                     (("zone", VInt zone) :: params) 4 in
  async_set_zone_data self zone params h
  = (match response_text (session h req) with
     | Some txt => Return txt
     | None =>
         Raise (Exn ApiError
                  ("Failed to set zone data: "
                   +:+ match raised_by_transport (session h req) with
                       | Some e => exn_msg e
                       | None => ""
                       end))
     end, [Get req]).
Proof.
  cbv zeta. unfold async_set_zone_data. rewrite write_block_eq.
  destruct (session h _) as [e|[st bd]]; simpl; [reflexivity|].
  destruct (st =? 200); [|reflexivity]. now destruct bd.
Qed.

Lemma command_eq self cmd h req :
  command_request self cmd = Some req ->
  run_command self cmd h
  = match response_text (session h req) with
    | Some _ => (Return tt, [Get req; RequestRefresh])
    | None =>
        (Raise (Exn ApiError
                  ("Failed to set zone data: "
                   +:+ match raised_by_transport (session h req) with
                       | Some e => exn_msg e
                       | None => ""
                       end)), [Get req])
    end.
Proof.
  destruct cmd as [| |[position|]]; simpl; [| | |discriminate].
  - intros [= <-]. unfold async_open_cover, async_set_zone_setting, bind.
    rewrite zone_write_eq. now destruct (response_text _).
  - intros [= <-]. unfold async_close_cover, async_set_zone_setting, bind.
    rewrite zone_write_eq. now destruct (response_text _).
  - unfold bind, async_set_zone_setting, async_set_zone_percent.
    destruct (position =? 0); intros [= <-]; rewrite zone_write_eq;
      now destruct (response_text _).
Qed.

(** C9. The set-zone-percent operation sends, in its one request, the
    zone, [zoneSetting=1] and [userPercentSetting] with the given
    percent; the entity's set-position with position 0 sends a request
    with [zoneSetting=0] and no [userPercentSetting]; and no request of
    set-position carries [userPercentSetting=0]. *)
Theorem zone_percent_opens (self : ezone_api) (zone percent : Z)
        (h : list event) :
  (exists req,
     snd (async_set_zone_percent self zone percent h) = [Get req]
     /\ url req = endpoint self "/setZoneData"
     /\ dict_get "zone" (params req) = Some (VInt zone)
     /\ dict_get "zoneSetting" (params req) = Some (VInt 1)
     /\ dict_get "userPercentSetting" (params req) = Some (VInt percent))
  /\ (exists req,
        requests (snd (async_set_cover_position (Cover self zone) (Some 0) h))
        = [req]
        /\ url req = endpoint self "/setZoneData"
        /\ dict_get "zone" (params req) = Some (VInt zone)
        /\ dict_get "zoneSetting" (params req) = Some (VInt 0)
        /\ dict_get "userPercentSetting" (params req) = None)
  /\ (forall position req,
        In req (requests (snd (async_set_cover_position (Cover self zone)
                                 position h))) ->
        dict_get "userPercentSetting" (params req) <> Some (VInt 0)).
Proof.
  split; [|split].
  - eexists. unfold async_set_zone_percent. rewrite zone_write_eq.
    simpl. repeat split.
  - change (async_set_cover_position (Cover self zone) (Some 0) h)
      with (run_command (Cover self zone) (SetCoverPosition (Some 0)) h).
    rewrite (command_eq (Cover self zone) (SetCoverPosition (Some 0)) h
               (Request (endpoint self "/setZoneData")
                        [("zone", VInt zone); ("zoneSetting", VInt 0)] 4)
               eq_refl).
    eexists. destruct (response_text _); simpl; repeat split.
  - intros [position|] req; [|contradiction].
    change (async_set_cover_position (Cover self zone) (Some position) h)
      with (run_command (Cover self zone)
              (SetCoverPosition (Some position)) h).
    destruct (command_request (Cover self zone)
                (SetCoverPosition (Some position))) as [req'|] eqn:Hreq.
    + rewrite (command_eq _ _ _ _ Hreq). simpl in Hreq.
      destruct (Z.eqb_spec position 0) as [->|Hne];
        injection Hreq as <-;
        destruct (response_text _); simpl; intros [<-|[]]; simpl;
        try discriminate; intros [= Heq]; contradiction.
    + simpl in Hreq. now destruct (position =? 0).
Qed.

(** C10. A node with no children whose text is absent or blank is
    normalized to the empty mapping. *)
Theorem xml_to_dict_blank (t : string) (txt : option string) :
  txt = None \/ (exists s, txt = Some s /\ all_space s = true) ->
  _xml_to_dict (Element t txt []) = VDict [].
Proof.
  intros [->|(s & -> & Hs)]; [reflexivity|]. simpl.
  apply strip_empty_iff in Hs. rewrite Hs. simpl.
  now rewrite andb_false_r.
Qed.
(** ** Further properties of the reads *)

Lemma zone_timer_eq self h :
  async_get_zone_timer self h
  = (match block_result GetSystemData
             (session h (zone_timer_request self)) with
     | Return v => Return v
     | Raise e =>
         Raise (Exn ApiError ("Failed to get zone timer: " +:+ exn_msg e))
     end, [Get (zone_timer_request self)]).
Proof.
  unfold async_get_zone_timer, try_except, bind, session_get.
  destruct (session h _) as [e|[st bd]]; simpl; [reflexivity|].
  destruct (st =? 200); simpl; [|reflexivity].
  destruct bd as [e|xml]; simpl; [reflexivity|].
  unfold _parse_system_xml, try_except, bind, ET_fromstring, lift.
  destruct (fromstring xml) as [msg|root]; reflexivity.
Qed.

(** X1. The zone-timer read sends exactly one GET and never sleeps or
    tries again, whatever the answer: a 200 answer with a parseable
    document gives the normalized document, and a transport failure,
    another status or an unparseable document each raise an [ApiError]
    at once. *)
Theorem zone_timer_single_request (self : ezone_api) (h : list event) :
  let req := zone_timer_request self in
  snd (async_get_zone_timer self h) = [Get req]
  /\ (forall xml_data root,
        session h req = Responds (Response 200 (inr xml_data)) ->
        fromstring xml_data = inr root ->
        fst (async_get_zone_timer self h) = Return (_xml_to_dict root))
  /\ (forall e,
        raised_by_transport (session h req) = Some e ->
        fst (async_get_zone_timer self h)
        = Raise (Exn ApiError ("Failed to get zone timer: " +:+ exn_msg e)))
  /\ (forall resp,
        session h req = Responds resp -> status resp <> 200 ->
        fst (async_get_zone_timer self h)
        = Raise (Exn ApiError "Failed to get zone timer: "))
  /\ (forall xml_data msg,
        session h req = Responds (Response 200 (inr xml_data)) ->
        fromstring xml_data = inl msg ->
        fst (async_get_zone_timer self h)
        = Raise (Exn ApiError
                   ("Failed to get zone timer: Invalid XML response: "
                    +:+ msg))).
Proof.
  intros req. rewrite zone_timer_eq. fold req. simpl.
  split; [reflexivity|]. split; [|split; [|split]].
  - intros xml_data root -> Hp. simpl. now rewrite Hp.
  - intros e He. now rewrite (raised_block_result _ _ _ He).
  - intros resp -> Hst. simpl.
    now destruct (Z.eqb_spec (status resp) 200).
  - intros xml_data msg -> Hp. simpl. now rewrite Hp.
Qed.

(** X2. A read whose attempt budget is zero or negative sends nothing
    and raises at once, with the count 0 and no last error; and a retry
    argument of 0 is the same as none: the client's own budget is used. *)
Theorem read_without_budget (self : ezone_api) (op : read_op)
        (retry_arg : option Z) (h : list event) :
  (retry_or retry_arg self <= 0 ->
   run_read self op retry_arg h
   = (Raise (Exn ApiError
               "No valid response after 0 failed attempt. Last error was: None"),
      []))
  /\ run_read self op (Some 0) h = run_read self op None h.
Proof.
  split.
  - intros Hle. rewrite run_read_eq.
    replace (Z.to_nat (retry_or retry_arg self)) with O by lia.
    reflexivity.
  - now rewrite !run_read_eq.
Qed.

(** What a read returns was returned by its block for some answer of
    the controller to the read's own request. *)
Lemma read_loop_returns self op left :
  forall count error h v,
  fst (read_loop (read_block self op) left count error h) = Return v ->
  exists h', block_result op (session h' (read_request self op)) = Return v.
Proof.
  induction left as [|left IH]; intros count error h v; [discriminate|].
  change (read_loop (read_block self op) (S left) count error h)
    with (bind (read_attempt (read_block self op))
            (fun r => match r with
               | Returned a => ret a
               | Retry error' =>
                   bind (asyncio_sleep 1)
                     (fun _ => read_loop (read_block self op) left
                                 (count + 1) (Some error'))
               | Break error' =>
                   raise (Exn ApiError
                            (no_valid_response (count + 1) (Some error')))
               end) h).
  rewrite (bind_return _ _ _ _ _ (read_attempt_eq self op h)).
  destruct (block_result op (session h (read_request self op)))
    as [v'|e] eqn:Hb.
  - simpl. intros [= <-]. now exists h.
  - destruct (@read_handler value e) as [v'|txt|txt] eqn:Hh; simpl.
    + unfold read_handler in Hh.
      destruct (is_client_error _), (exn_cls e); discriminate.
    + unfold bind, asyncio_sleep.
      destruct (read_loop _ left _ _ _) as [r t] eqn:Hl. simpl.
      intros ->. eapply IH. now rewrite Hl.
    + discriminate.
Qed.

Lemma zone_read_value (self : ezone_api) (zone : Z)
        (retry_arg : option Z) (h : list event) (v : value) :
  fst (async_get_zone_data self zone retry_arg h) = Return v ->
  exists h' xml_data root d0,
    session h' (zone_request self zone)
    = Responds (Response 200 (inr xml_data))
    /\ fromstring xml_data = inr root
    /\ _xml_to_dict root = VDict d0
    /\ v = VDict (dict_set "zone_number" (VInt zone) d0).
Proof.
  change (async_get_zone_data self zone retry_arg)
    with (run_read self (GetZoneData zone) retry_arg).
  rewrite run_read_eq. intros Hv.
  apply read_loop_returns in Hv as [h' Hb]. simpl in Hb.
  destruct (session h' (zone_request self zone)) as [e|[st bd]] eqn:Hs;
    simpl in Hb; [discriminate|].
  destruct (Z.eqb_spec st 200) as [->|]; [|discriminate].
  destruct bd as [e|xml_data]; [discriminate|].
  destruct (fromstring xml_data) as [msg|root] eqn:Hp; [discriminate|].
  destruct (_xml_to_dict root) as [s|n|d0|l] eqn:Hd; try discriminate.
  injection Hb as <-. now exists h', xml_data, root, d0.
Qed.

(** X3. Whatever a zone read returns is a mapping whose [zone_number] is
    the zone that was asked for, as an integer, whether or not the
    document has a [zone_number] element of its own; every other key is
    as in the normalized document of a 200 answer. *)
Theorem zone_data_zone_number (self : ezone_api) (zone : Z)
        (retry_arg : option Z) (h : list event) (v : value) :
  fst (async_get_zone_data self zone retry_arg h) = Return v ->
  exists d,
    v = VDict d
    /\ dict_get "zone_number" d = Some (VInt zone)
    /\ exists h' xml_data root d0,
         session h' (zone_request self zone)
         = Responds (Response 200 (inr xml_data))
         /\ fromstring xml_data = inr root
         /\ _xml_to_dict root = VDict d0
         /\ forall key, key <> "zone_number" ->
                        dict_get key d = dict_get key d0.
Proof.
  intros Hv.
  destruct (zone_read_value _ _ _ _ _ Hv)
    as (h' & xml_data & root & d0 & Hs & Hp & Hd & ->).
  exists (dict_set "zone_number" (VInt zone) d0).
  split; [reflexivity|]. split; [apply dict_get_set_eq|].
  exists h', xml_data, root, d0. repeat split; try assumption.
  intros key Hkey. apply dict_get_set_ne. congruence.
Qed.

(** X4. A zone read that is answered with a document made of bare text
    raises at once, after that one request and without a retry, because
    the zone number cannot be stored in a string; the system read returns
    the text for the same document. *)
Theorem zone_text_document (self : ezone_api) (zone : Z)
        (retry_arg : option Z) (h : list event) (xml_data : string)
        (root : element) (s : string) :
  0 < retry_or retry_arg self ->
  fromstring xml_data = inr root ->
  _xml_to_dict root = VStr s ->
  (session h (zone_request self zone)
   = Responds (Response 200 (inr xml_data)) ->
   async_get_zone_data self zone retry_arg h
   = (Raise (Exn ApiError
               "No valid response after 1 failed attempt. Last error was: XML parsing error: 'str' object does not support item assignment"),
      [Get (zone_request self zone)]))
  /\ (session h (system_request self)
      = Responds (Response 200 (inr xml_data)) ->
      async_get_system_data self retry_arg h
      = (Return (VStr s), [Get (system_request self)])).
Proof.
  intros Hr Hp Hd. split; intros Hs.
  - change (async_get_zone_data self zone retry_arg)
      with (run_read self (GetZoneData zone) retry_arg).
    rewrite (run_read_fatal self (GetZoneData zone) retry_arg h 0
               (fun _ => "")
               (Exn TypeError "'str' object does not support item assignment")
               "XML parsing error: 'str' object does not support item assignment");
      try reflexivity; try assumption.
    + intros i Hi. lia.
    + simpl. rewrite app_nil_r, Hs. simpl. now rewrite Hp, Hd.
  - change (async_get_system_data self retry_arg)
      with (run_read self GetSystemData retry_arg).
    rewrite (run_read_success self GetSystemData retry_arg h 0
               (fun _ => "") (VStr s)); try reflexivity; try assumption.
    + intros i Hi. lia.
    + simpl. rewrite app_nil_r, Hs. simpl. now rewrite Hp, Hd.
Qed.

(** X6. When every attempt of the system read fails in the transport,
    the coordinator's update raises [UpdateFailed] after exactly as many
    requests as the budget allows, and its message carries the three
    layers in order: the coordinator's, the aggregate read's and the
    loop's, ending with the text of the last failure. *)
Theorem update_failed_message (api : ezone_api) (h : list event)
        (errs : nat -> string) :
  let req := system_request api in
  let k := Z.to_nat (retry api) in
  0 < retry api ->
  (forall i, (i < k)%nat ->
     exists e, raised_by_transport (session (h ++ failed_attempts req i) req)
               = Some e /\ transport_error e = Some (errs i)) ->
  _async_update_data api h
  = (Raise (Exn UpdateFailed
              ("Error communicating with API: Failed to get all data: "
               +:+ no_valid_response (retry api) (Some (errs (k - 1)%nat)))),
     failed_attempts req k).
Proof.
  intros req k Hpos Hk.
  assert (Hsys : async_get_system_data api None h
                 = (Raise (Exn ApiError
                      (no_valid_response (retry api)
                         (Some (errs (k - 1)%nat)))),
                    failed_attempts req k)).
  { change (async_get_system_data api None)
      with (run_read api GetSystemData None).
    rewrite (run_read_retries api GetSystemData None h k errs O Hk)
      by (simpl; lia).
    simpl. rewrite app_nil_r. unfold k. rewrite Z2Nat.id by lia.
    destruct (Z.to_nat (retry api)) as [|k'] eqn:Ek; [lia|].
    simpl. now rewrite Nat.sub_0_r. }
  rewrite update_data_eq, (all_data_system_fails _ _ _ _ Hsys).
  reflexivity.
Qed.

(** ** Load on the controller *)

Lemma slept_app t1 t2 : slept (t1 ++ t2) = slept t1 + slept t2.
Proof.
  induction t1 as [|e t1 IH]; [reflexivity|].
  destruct e; simpl; rewrite IH; lia.
Qed.

Lemma read_loop_slept self op left :
  forall count error h,
  let t := snd (read_loop (read_block self op) left count error h) in
  slept t <= Z.of_nat (length (requests t)).
Proof.
  induction left as [|left IH]; intros count error h; cbv zeta.
  - simpl. lia.
  - change (read_loop (read_block self op) (S left) count error h)
      with (bind (read_attempt (read_block self op))
              (fun r => match r with
                 | Returned a => ret a
                 | Retry error' =>
                     bind (asyncio_sleep 1)
                       (fun _ => read_loop (read_block self op) left
                                   (count + 1) (Some error'))
                 | Break error' =>
                     raise (Exn ApiError
                              (no_valid_response (count + 1) (Some error')))
                 end) h).
    rewrite (bind_return _ _ _ _ _ (read_attempt_eq self op h)).
    destruct (match block_result op (session h (read_request self op)) with
              | Return v => Returned v
              | Raise e => read_handler e
              end) as [v|txt|txt]; simpl; try lia.
    unfold bind, asyncio_sleep.
    specialize (IH (count + 1) (Some txt)
                   ((h ++ [Get (read_request self op)]) ++ [Sleep 1])).
    cbv zeta in IH. destruct (read_loop _ left _ _ _) as [r t]. simpl in *.
    lia.
Qed.

(** What one read puts on the wire. *)
Lemma read_bound self op h :
  let t := snd (run_read self op None h) in
  (length (requests t) <= Z.to_nat (retry self))%nat
  /\ slept t <= Z.of_nat (length (requests t))
  /\ Forall (fun req => req = read_request self op) (requests t).
Proof.
  cbv zeta. rewrite run_read_eq. simpl retry_or.
  destruct (read_loop_shape self op (Z.to_nat (retry self)) 0 None h)
    as ((n & Hn & Hle & _) & _ & _). cbv zeta in Hn.
  split; [|split].
  - now rewrite Hn, repeat_length.
  - apply read_loop_slept.
  - rewrite Hn. clear. induction n; constructor; auto.
Qed.

Lemma for_zone_num_bound self zone_nums :
  forall zones_data h,
  let t := snd (for_zone_num self zone_nums zones_data h) in
  (length (requests t) <= Z.to_nat (retry self) * length zone_nums)%nat
  /\ slept t <= Z.of_nat (length (requests t))
  /\ Forall (fun req => exists z, In z zone_nums /\ req = zone_request self z)
            (requests t).
Proof.
  induction zone_nums as [|z zs IH]; intros zd h; cbv zeta.
  - simpl. repeat split; [lia|lia|constructor].
  - rewrite for_zone_num_cons. cbv zeta. simpl snd.
    destruct (read_bound self (GetZoneData z) h) as (Hlen & Hsl & Hreq).
    cbv zeta in Hlen, Hsl, Hreq. simpl in Hlen, Hsl, Hreq.
    match goal with
    | |- context [for_zone_num self zs ?d ?h'] =>
        destruct (IH d h') as (Hlen' & Hsl' & Hreq')
    end.
    cbv zeta in Hlen', Hsl', Hreq'.
    rewrite requests_app, slept_app, length_app. simpl length.
    split; [lia|]. split; [lia|].
    apply Forall_app. split.
    + eapply Forall_impl; [exact Hreq|]. simpl. intros req ->.
      exists z. split; [now left|reflexivity].
    + eapply Forall_impl; [exact Hreq'|]. simpl. intros req (z' & Hin & ->).
      exists z'. split; [now right|reflexivity].
Qed.

(** X7. The aggregate read sends at most as many requests as the attempt
    budget times one more than the zone count it read (the budget alone
    when it reads none); it sleeps at most one second per request; and
    every request goes, with a four-second timeout, to the system or the
    zone endpoint of the client's own controller. *)
Theorem all_data_request_bound (self : ezone_api) (h : list event) :
  let t := snd (async_get_all_data self h) in
  let zones :=
    match fst (async_get_system_data self None h) with
    | Return system_data =>
        match num_zones_of system_data with
        | Return N => Z.to_nat N
        | Raise _ => O
        end
    | Raise _ => O
    end in
  (length (requests t) <= Z.to_nat (retry self) * (1 + zones))%nat
  /\ slept t <= Z.of_nat (length (requests t))
  /\ Forall (fun req => timeout req = 4
                        /\ (url req = endpoint self "/getSystemData"
                            \/ url req = endpoint self "/getZoneData"))
            (requests t).
Proof.
  cbv zeta.
  destruct (read_bound self GetSystemData h) as (Hlen & Hsl & Hreq).
  cbv zeta in Hlen, Hsl, Hreq. simpl in Hlen, Hsl, Hreq.
  assert (Hsysreq : Forall (fun req => timeout req = 4
                        /\ (url req = endpoint self "/getSystemData"
                            \/ url req = endpoint self "/getZoneData"))
            (requests (snd (async_get_system_data self None h)))).
  { eapply Forall_impl; [exact Hreq|]. simpl. intros req ->.
    split; [reflexivity|now left]. }
  destruct (async_get_system_data self None h) as [[system_data|e] t_sys]
    eqn:Hsys; simpl in *.
  - destruct (num_zones_of system_data) as [N|e] eqn:HN.
    + destruct (num_zones_of_system _ _ HN) as [system Hget].
      destruct (for_zone_num_returns self (seqZ 1 N) [] (h ++ t_sys))
        as [zones_data Hz].
      rewrite (all_data_returns _ _ _ _ _ _ _ Hsys HN Hget Hz). simpl.
      destruct (for_zone_num_bound self (seqZ 1 N) [] (h ++ t_sys))
        as (Hlen' & Hsl' & Hreq'). cbv zeta in Hlen', Hsl', Hreq'.
      rewrite length_seqZ in Hlen'.
      rewrite requests_app, slept_app, length_app.
      split; [lia|]. split; [lia|].
      apply Forall_app. split; [exact Hsysreq|].
      eapply Forall_impl; [exact Hreq'|]. simpl. intros req (z & _ & ->).
      split; [reflexivity|now right].
    + rewrite (all_data_count_fails _ _ _ _ _ Hsys HN). simpl.
      split; [lia|]. now split.
  - rewrite (all_data_system_fails _ _ _ _ Hsys). simpl.
    split; [lia|]. now split.
Qed.

(** ** The zones mapping *)

Lemma dict_set_fresh {A} k (v : A) d :
  dict_get k d = None -> dict_set k v d = d ++ [(k, v)].
Proof.
  induction d as [|[k' v'] d IH]; simpl; [reflexivity|].
  destruct (String.eqb k' k); [discriminate|]. intros H. now rewrite IH.
Qed.

(** The loop over the zones only appends: one entry per zone that
    answered, in the order of the loop. *)
Lemma for_zone_num_appends self zone_nums :
  NoDup zone_nums ->
  forall zones_data h zones_data',
  (forall z, z ∈ zone_nums -> dict_get (str_of_int z) zones_data = None) ->
  fst (for_zone_num self zone_nums zones_data h) = Return zones_data' ->
  exists added,
    zones_data' = zones_data ++ added
    /\ map fst added `sublist_of` map str_of_int zone_nums
    /\ Forall zone_entry added.
Proof.
  induction zone_nums as [|z0 zs IH]; intros Hnd zd h zd' Hfresh.
  - simpl. intros [= <-]. exists []. rewrite app_nil_r.
    repeat split; constructor.
  - apply NoDup_cons in Hnd as [Hz0 Hnd].
    rewrite for_zone_num_cons. cbv zeta. simpl fst.
    destruct (fst (async_get_zone_data self z0 None h)) as [v|e] eqn:Hrun.
    + intros Hrest.
      destruct (zone_read_value _ _ _ _ _ Hrun)
        as (h' & xml_data & root & d0 & _ & _ & _ & ->).
      set (d := dict_set "zone_number" (VInt z0) d0) in *.
      assert (Hnum : dict_get "zone_number" d = Some (VInt z0))
        by apply dict_get_set_eq.
      clearbody d.
      rewrite (dict_set_fresh _ _ _ (Hfresh z0 ltac:(left))) in Hrest.
      assert (Hfresh' : forall z, z ∈ zs ->
                dict_get (str_of_int z) (zd ++ [(str_of_int z0, VDict d)])
                = None).
      { intros z Hz.
        rewrite <- (dict_set_fresh _ (VDict d) _ (Hfresh z0 ltac:(left))).
        rewrite dict_get_set_ne; [apply Hfresh; now right|].
        intros Heq. apply (inj pretty) in Heq. now subst. }
      destruct (IH Hnd _ _ _ Hfresh' Hrest) as (added & -> & Hsub & Hall).
      exists ((str_of_int z0, VDict d) :: added).
      rewrite <- app_assoc. split; [reflexivity|].
      split; [simpl; now constructor|].
      constructor; [|exact Hall]. now exists z0, d.
    + intros Hrest.
      assert (Hfresh' : forall z, z ∈ zs ->
                dict_get (str_of_int z) zd = None)
        by (intros z Hz; apply Hfresh; now right).
      destruct (IH Hnd _ _ _ Hfresh' Hrest) as (added & -> & Hsub & Hall).
      exists added. split; [reflexivity|].
      split; [simpl; now apply sublist_cons|exact Hall].
Qed.

Lemma all_data_zones (self : ezone_api) (h : list event) (result : value) :
  fst (async_get_all_data self h) = Return result ->
  exists system zones_data system_data N,
    result = VDict [("system", system); ("zones", VDict zones_data)]
    /\ fst (async_get_system_data self None h) = Return system_data
    /\ num_zones_of system_data = Return N
    /\ map fst zones_data `sublist_of` map str_of_int (seqZ 1 N)
    /\ Forall zone_entry zones_data.
Proof.
  destruct (async_get_system_data self None h) as [[system_data|e] t_sys]
    eqn:Hsys.
  - destruct (num_zones_of system_data) as [N|e] eqn:HN.
    + destruct (num_zones_of_system _ _ HN) as [system Hget].
      destruct (for_zone_num_returns self (seqZ 1 N) [] (h ++ t_sys))
        as [zones_data Hz].
      rewrite (all_data_returns _ _ _ _ _ _ _ Hsys HN Hget Hz). simpl.
      intros [= <-].
      destruct (for_zone_num_appends self (seqZ 1 N) (NoDup_seqZ 1 N)
                  [] (h ++ t_sys) zones_data ltac:(reflexivity) Hz)
        as (added & -> & Hsub & Hall).
      exists system, added, system_data, N. simpl.
      repeat split; assumption.
    + now rewrite (all_data_count_fails _ _ _ _ _ Hsys HN).
  - now rewrite (all_data_system_fails _ _ _ _ Hsys).
Qed.

Lemma zone_keys_NoDup N (keys : list string) :
  keys `sublist_of` map str_of_int (seqZ 1 N) -> NoDup keys.
Proof.
  intros Hsub. refine (sublist_NoDup _ _ _ Hsub).
  apply (NoDup_fmap_2 str_of_int). apply NoDup_seqZ.
Qed.

(** X8. The zones mapping of a result lists the zones in increasing
    order of zone number: its keys, in the order of the mapping, are a
    duplicate-free sublist of the numbers 1 to N written as strings, N
    being the zone count of the system data just read; and each entry is
    a mapping that carries the number of its key as [zone_number]. *)
Theorem zones_in_order (self : ezone_api) (h : list event) (result : value) :
  fst (async_get_all_data self h) = Return result ->
  exists system zones_data system_data N,
    result = VDict [("system", system); ("zones", VDict zones_data)]
    /\ fst (async_get_system_data self None h) = Return system_data
    /\ num_zones_of system_data = Return N
    /\ map fst zones_data `sublist_of` map str_of_int (seqZ 1 N)
    /\ NoDup (map fst zones_data)
    /\ Forall zone_entry zones_data.
Proof.
  intros Hres.
  destruct (all_data_zones _ _ _ Hres)
    as (system & zones_data & sd & N & -> & Hsd & HN & Hsub & Hall).
  exists system, zones_data, sd, N.
  repeat split; try assumption. now apply (zone_keys_NoDup N).
Qed.

Lemma num_zones_of_missing d :
  dict_get "system" d = None
  \/ (exists s, dict_get "system" d = Some (VDict s)
        /\ (dict_get "unitcontrol" s = None
            \/ exists u, dict_get "unitcontrol" s = Some (VDict u)
                 /\ dict_get "numberOfZones" u = None)) ->
  num_zones_of (VDict d) = Return 0.
Proof.
  unfold num_zones_of. simpl.
  intros [->|(s & -> & Hs)]; [reflexivity|]. simpl.
  destruct Hs as [->|(u & -> & Hu)]; [reflexivity|]. simpl.
  now rewrite Hu.
Qed.

(** X9. When the system data is a mapping without a zone count (no
    [system] entry, no [unitcontrol] entry in it, or no [numberOfZones]
    in that), or with a count of zero or less, the aggregate read fetches
    no zone: it returns the system entry, or an empty mapping when there
    is none, with an empty zones mapping, and sends nothing after the
    system read. *)
Theorem all_data_without_zones (self : ezone_api) (h : list event)
        (system_data : value) (t_sys : list event) :
  async_get_system_data self None h = (Return system_data, t_sys) ->
  (forall N system,
     num_zones_of system_data = Return N -> N <= 0 ->
     py_get system_data "system" (VDict []) = Return system ->
     async_get_all_data self h
     = (Return (VDict [("system", system); ("zones", VDict [])]), t_sys))
  /\ (forall d,
        system_data = VDict d ->
        dict_get "system" d = None
        \/ (exists s, dict_get "system" d = Some (VDict s)
              /\ (dict_get "unitcontrol" s = None
                  \/ exists u, dict_get "unitcontrol" s = Some (VDict u)
                       /\ dict_get "numberOfZones" u = None)) ->
        async_get_all_data self h
        = (Return (VDict [("system",
                           match dict_get "system" d with
                           | Some system => system
                           | None => VDict []
                           end);
                          ("zones", VDict [])]), t_sys)).
Proof.
  intros Hsys.
  assert (Hzero : forall N system,
            num_zones_of system_data = Return N -> N <= 0 ->
            py_get system_data "system" (VDict []) = Return system ->
            async_get_all_data self h
            = (Return (VDict [("system", system); ("zones", VDict [])]),
               t_sys)).
  { intros N system HN Hle Hget.
    rewrite (all_data_returns _ _ _ _ N system [] Hsys HN Hget);
      rewrite (seqZ_nil 1 N Hle); [|reflexivity].
    simpl. now rewrite app_nil_r. }
  split; [exact Hzero|].
  intros d -> Hmissing.
  apply (Hzero 0); [now apply num_zones_of_missing|lia|reflexivity].
Qed.

(** ** Decimal strings *)

Lemma lstrip_head_kept c r : isspace c = false -> lstrip (String c r) = String c r.
Proof. intros H. simpl. now rewrite H. Qed.

Lemma rstrip_no_space s :
  forallb (fun c => negb (isspace c)) (list_ascii_of_string s) = true ->
  rstrip s = s.
Proof.
  induction s as [|c s IH]; [reflexivity|]. simpl.
  intros [Hc Hs]%andb_prop. rewrite (IH Hs).
  apply negb_true_iff in Hc. rewrite Hc. now destruct s.
Qed.

Lemma strip_no_space s :
  forallb (fun c => negb (isspace c)) (list_ascii_of_string s) = true ->
  strip s = s.
Proof.
  intros H. unfold strip. destruct s as [|c r]; [reflexivity|].
  pose proof H as H'. simpl in H'. apply andb_prop in H' as [Hc _].
  apply negb_true_iff in Hc. rewrite (lstrip_head_kept _ _ Hc).
  now apply rstrip_no_space.
Qed.

Lemma pretty_N_char_digit d :
  (d < 10)%N ->
  digit_of (pretty_N_char d) = Some (Z.of_N d)
  /\ isspace (pretty_N_char d) = false.
Proof.
  intros Hd.
  assert (Hcases : (d = 0 \/ d = 1 \/ d = 2 \/ d = 3 \/ d = 4 \/ d = 5
                    \/ d = 6 \/ d = 7 \/ d = 8 \/ d = 9)%N) by lia.
  destruct Hcases as [->|[->|[->|[->|[->|[->|[->|[->|[->| ->]]]]]]]]];
    split; reflexivity.
Qed.

(** The digits of [x] in front of [s] read back as [x], after whatever
    was read before. *)
Lemma int_digits_pretty_N_go x :
  exists n, 0 <= n /\ forall s acc b,
    int_digits (pretty_N_go x s) acc b
    = int_digits s (acc * 10 ^ n + Z.of_N x) (b || (0 <? x)%N).
Proof.
  induction (N.lt_wf_0 x) as [x _ IH].
  destruct (N.eq_dec x 0%N) as [->|Hx].
  - exists 0. split; [lia|]. intros s acc b.
    rewrite pretty_N_go_0, orb_false_r. f_equal. lia.
  - destruct (IH (x `div` 10)%N) as (n & Hn & Hgo).
    { apply N.div_lt; lia. }
    exists (n + 1). split; [lia|]. intros s acc b.
    rewrite pretty_N_go_step by lia. rewrite Hgo. simpl.
    destruct (pretty_N_char_digit (x `mod` 10)%N) as [-> _].
    { apply N.mod_lt. lia. }
    assert (Hpos : (0 <? x)%N = true) by (apply N.ltb_lt; lia).
    rewrite Hpos, orb_true_r. f_equal.
    rewrite Z.pow_add_r, Z.pow_1_r by lia.
    rewrite (N.div_mod x 10) at 3 by lia.
    rewrite N2Z.inj_add, N2Z.inj_mul. simpl Z.of_N. lia.
Qed.

Lemma pretty_N_go_no_space x :
  forall s,
  forallb (fun c => negb (isspace c))
          (list_ascii_of_string (pretty_N_go x s))
  = forallb (fun c => negb (isspace c)) (list_ascii_of_string s).
Proof.
  induction (N.lt_wf_0 x) as [x _ IH]. intros s.
  destruct (N.eq_dec x 0%N) as [->|Hx]; [now rewrite pretty_N_go_0|].
  rewrite pretty_N_go_step by lia. rewrite IH by (apply N.div_lt; lia).
  simpl. destruct (pretty_N_char_digit (x `mod` 10)%N) as [_ ->];
    [apply N.mod_lt; lia|reflexivity].
Qed.

Lemma pretty_N_go_head x :
  forall s, (0 < x)%N ->
  exists c r, pretty_N_go x s = String c r /\ digit_of c <> None.
Proof.
  induction (N.lt_wf_0 x) as [x _ IH]. intros s Hx.
  rewrite pretty_N_go_step by lia.
  destruct (N.eq_dec (x `div` 10)%N 0%N) as [->|Hd].
  - rewrite pretty_N_go_0. eexists _, _. split; [reflexivity|].
    destruct (pretty_N_char_digit (x `mod` 10)%N) as [-> _];
      [apply N.mod_lt; lia|discriminate].
  - apply IH; [apply N.div_lt; lia|]. now apply N.neq_0_lt_0.
Qed.

(** A string that starts with a digit carries no sign. *)
Lemma int_of_str_unsigned c r :
  digit_of c <> None ->
  strip (String c r) = String c r ->
  int_of_str (String c r) = int_digits (String c r) 0 false.
Proof.
  intros Hc Hs. unfold int_of_str. rewrite Hs.
  destruct c as [[] [] [] [] [] [] [] []]; try reflexivity;
    now elim Hc.
Qed.

Lemma int_of_str_positive p :
  strip (pretty_N_go (Npos p) "") = pretty_N_go (Npos p) ""
  /\ int_digits (pretty_N_go (Npos p) "") 0 false = Some (Zpos p).
Proof.
  split.
  - apply strip_no_space. now rewrite pretty_N_go_no_space.
  - destruct (int_digits_pretty_N_go (Npos p)) as (n & _ & ->). reflexivity.
Qed.

(** [int(str(z)) == z] *)
Lemma int_of_str_pretty z : int_of_str (str_of_int z) = Some z.
Proof.
  destruct z as [|p|p]; [reflexivity| |].
  - destruct (int_of_str_positive p) as [Hs Hd].
    change (str_of_int (Zpos p)) with (pretty_N_go (Npos p) "").
    destruct (pretty_N_go_head (Npos p) "" ltac:(lia)) as (c & r & Hcr & Hc).
    rewrite Hcr in *. now rewrite int_of_str_unsigned.
  - destruct (int_of_str_positive p) as [Hs Hd].
    change (str_of_int (Zneg p))
      with (String "-" (pretty_N_go (Npos p) "")).
    unfold int_of_str. rewrite strip_no_space.
    + now rewrite Hd.
    + simpl. now rewrite pretty_N_go_no_space.
Qed.

(** ** The damper entities of a snapshot *)

Lemma cover_init_key api z :
  EZoneZoneCover_init api (str_of_int z)
  = Return (CoverEntity (Cover api z)
              ("EZone " +:+ _get_zone_name (str_of_int z) +:+ " Damper")
              (DOMAIN +:+ "_zone_" +:+ str_of_int z +:+ "_damper")).
Proof.
  unfold EZoneZoneCover_init. simpl. now rewrite int_of_str_pretty.
Qed.

(** X10. An entity built from the number of a zone written as a string,
    which is how the aggregate read keys the zones, gets that number back
    as its zone number; so its [zone_data] is the entry stored under that
    key in the snapshot, and an empty mapping when the snapshot has no
    such key. *)
Theorem cover_init_round_trip (api : ezone_api) (z : Z) :
  exists entity,
    EZoneZoneCover_init api (str_of_int z) = Return entity
    /\ _api (cover_self entity) = api
    /\ _zone_num (cover_self entity) = z
    /\ forall data zones,
         py_get data "zones" (VDict []) = Return (VDict zones) ->
         zone_data (cover_self entity) data
         = Return match dict_get (str_of_int z) zones with
                  | Some entry => entry
                  | None => VDict []
                  end.
Proof.
  eexists. split; [apply cover_init_key|]. simpl. repeat split.
  intros data zones Hzones. unfold zone_data. now rewrite Hzones.
Qed.

Lemma string_length_app s1 s2 :
  String.length (s1 +:+ s2) = (String.length s1 + String.length s2)%nat.
Proof. induction s1; simpl; [reflexivity|now f_equal]. Qed.

Lemma string_app_inv_tail s1 s2 s : s1 +:+ s = s2 +:+ s -> s1 = s2.
Proof.
  assert (Hlen : forall c s', String c s' +:+ s <> s).
  { intros c s' H. apply (f_equal String.length) in H.
    change (String c s' +:+ s) with (String c (s' +:+ s)) in H.
    change (String.length (String c (s' +:+ s)))
      with (S (String.length (s' +:+ s))) in H.
    rewrite string_length_app in H. lia. }
  revert s2. induction s1 as [|c s1 IH]; intros [|c' s2] H.
  - reflexivity.
  - symmetry in H. now apply Hlen in H.
  - now apply Hlen in H.
  - change (String c (s1 +:+ s) = String c' (s2 +:+ s)) in H.
    injection H as -> H. f_equal. now apply IH.
Qed.

Lemma unique_id_inj k1 k2 :
  DOMAIN +:+ "_zone_" +:+ k1 +:+ "_damper"
  = DOMAIN +:+ "_zone_" +:+ k2 +:+ "_damper" -> k1 = k2.
Proof.
  intros H. apply (inj (String.app DOMAIN)) in H.
  apply (inj (String.app "_zone_")) in H.
  now apply string_app_inv_tail in H.
Qed.

Lemma for_zone_item_entries api items :
  Forall zone_entry items ->
  forall entities,
  exists added,
    for_zone_item api items entities = Return (entities ++ added)
    /\ map (fun e => str_of_int (_zone_num (cover_self e))) added
       = map fst items
    /\ map _attr_unique_id added
       = map (fun k => DOMAIN +:+ "_zone_" +:+ k +:+ "_damper")
             (map fst items)
    /\ Forall (fun e => _api (cover_self e) = api) added.
Proof.
  induction 1 as [|[k v] items (z & d & Hk & _) _ IH]; intros entities.
  - exists []. simpl. rewrite app_nil_r. repeat split. constructor.
  - simpl in Hk. subst k. simpl. rewrite cover_init_key. simpl.
    destruct (IH (entities ++ [CoverEntity (Cover api z)
                ("EZone " +:+ _get_zone_name (str_of_int z) +:+ " Damper")
                (DOMAIN +:+ "_zone_" +:+ str_of_int z +:+ "_damper")]))
      as (added & -> & Hnum & Hid & Hapi).
    eexists (_ :: added). rewrite <- app_assoc. simpl.
    split; [reflexivity|]. rewrite Hnum, Hid.
    repeat split. now constructor.
Qed.

(** X11. From a snapshot returned by the aggregate read the setup of the
    damper platform builds one entity per zone of the snapshot, in the
    order of the zones mapping: the zone numbers of the entities, written
    as strings, are the keys of the mapping, every entity talks to the
    given client, and no two entities share a unique id. *)
Theorem cover_setup_on_snapshot (self api : ezone_api) (h : list event)
        (result : value) :
  fst (async_get_all_data self h) = Return result ->
  exists zones_data entities,
    py_get result "zones" (VDict []) = Return (VDict zones_data)
    /\ cover_setup_entry api result = Return entities
    /\ map (fun e => str_of_int (_zone_num (cover_self e))) entities
       = map fst zones_data
    /\ Forall (fun e => _api (cover_self e) = api) entities
    /\ NoDup (map _attr_unique_id entities).
Proof.
  intros Hres.
  destruct (all_data_zones _ _ _ Hres)
    as (system & zones_data & sd & N & -> & _ & _ & Hsub & Hall).
  pose proof (zone_keys_NoDup _ _ Hsub) as Hnd.
  destruct (for_zone_item_entries api zones_data Hall [])
    as (entities & Hrun & Hnum & Hid & Hapi).
  exists zones_data, entities. split; [reflexivity|].
  split; [exact Hrun|]. split; [exact Hnum|]. split; [exact Hapi|].
  rewrite Hid. apply (NoDup_fmap_2_strong _); [|exact Hnd].
  intros k1 k2 _ _. apply unique_id_inj.
Qed.

Lemma dict_get_In {A} k (v : A) d : dict_get k d = Some v -> In (k, v) d.
Proof.
  induction d as [|[k' v'] d IH]; simpl; [discriminate|].
  destruct (String.eqb_spec k' k) as [->|_].
  - intros [= ->]. now left.
  - intros H. right. now apply IH.
Qed.

Lemma py_int_raises v e :
  py_int v = Raise e ->
  is_class ValueError e || is_class TypeError e = true.
Proof.
  destruct v as [s|n|d|l]; simpl; try discriminate;
    try (intros [= <-]; reflexivity).
  destruct (int_of_str s); [discriminate|]. now intros [= <-].
Qed.

(** The position read from the data of one zone, when that is a mapping. *)
Lemma position_of_mapping d :
  exists p,
    (let+ percent_str := py_get (VDict d) "userPercentSetting" (VStr "0") in
     match py_int percent_str with
     | Return n => Return n
     | Raise err =>
         if is_class ValueError err || is_class TypeError err then
           let+ setting := py_get (VDict d) "setting" (VStr "0") in
           Return (if eq_str setting "1" then 100 else 0)
         else Raise err
     end) = Return p.
Proof.
  simpl.
  destruct (py_int match dict_get "userPercentSetting" d with
                   | Some x => x
                   | None => VStr "0"
                   end) as [n|err] eqn:Hint; [now exists n|].
  rewrite (py_int_raises _ _ Hint). eexists. reflexivity.
Qed.

(** X12. On a snapshot returned by the aggregate read the state of a
    damper entity can always be read, whatever its zone number: closed,
    open and position each have a value, closed and open are never both
    true, and a zone that the snapshot does not have reads as closed, not
    open, at position 0. *)
Theorem cover_state_on_snapshot (self : ezone_api) (h : list event)
        (result : value) (cover : EZoneZoneCover) :
  fst (async_get_all_data self h) = Return result ->
  exists (closed open : bool) (position : Z),
    is_closed cover result = Return closed
    /\ is_open cover result = Return open
    /\ current_cover_position cover result = Return position
    /\ closed && open = false
    /\ forall zones_data,
         py_get result "zones" (VDict []) = Return (VDict zones_data) ->
         dict_get (str_of_int (_zone_num cover)) zones_data = None ->
         closed = true /\ open = false /\ position = 0.
Proof.
  intros Hres.
  destruct (all_data_zones _ _ _ Hres)
    as (system & zones_data & sd & N & -> & _ & _ & _ & Hall).
  unfold is_closed, is_open, current_cover_position, zone_data. simpl.
  destruct (dict_get (str_of_int (_zone_num cover)) zones_data)
    as [entry|] eqn:Hentry.
  - pose proof (dict_get_In _ _ _ Hentry) as Hin.
    rewrite List.Forall_forall in Hall. apply Hall in Hin.
    destruct Hin as (z & d & _ & Hd & _). simpl in Hd. subst entry.
    destruct (position_of_mapping d) as [p Hp].
    simpl and_then at 1 2. simpl in Hp |- *.
    exists (eq_str match dict_get "setting" d with
                   | Some x => x | None => VStr "0" end "0"),
           (eq_str match dict_get "setting" d with
                   | Some x => x | None => VStr "0" end "1"), p.
    split; [reflexivity|]. split; [reflexivity|]. split; [exact Hp|].
    split; [|intros zd Hzd Hnone; simpl in Hzd; injection Hzd as <-;
             rewrite Hentry in Hnone; discriminate].
    destruct (match dict_get "setting" d with
              | Some x => x | None => VStr "0" end) as [s| | |];
      try reflexivity.
    simpl. destruct (String.eqb_spec s "0") as [->|]; reflexivity.
  - exists true, false, 0. simpl. repeat split; reflexivity.
Qed.

(** ** The climate entity *)

Lemma system_write_eq self params h :
  let req := Request (endpoint self "/setSystemData") params 4 in
  async_set_system_data self params h
  = (match response_text (session h req) with
     | Some txt => Return txt
     | None =>
         Raise (Exn ApiError
                  ("Failed to set system data: "
                   +:+ match raised_by_transport (session h req) with
                       | Some e => exn_msg e
                       | None => ""
                       end))
     end, [Get req]).
Proof.
  cbv zeta. unfold async_set_system_data. rewrite write_block_eq.
  destruct (session h _) as [e|[st bd]]; simpl; [reflexivity|].
  destruct (st =? 200); [|reflexivity]. now destruct bd.
Qed.

Lemma first_key_of_cons num name rest target :
  first_key_of ((num, name) :: rest) target
  = if String.eqb name target then Some num else first_key_of rest target.
Proof. reflexivity. Qed.

(** The number found for a name in one of the two tables. *)
Lemma find_number_cases table m :
  table = EZONE_HVAC_MODES \/ table = EZONE_FAN_MODES ->
  (exists n, find_number table m = Return (Some n)
             /\ dict_get (str_of_int n) table = Some m
             /\ (n = 1 \/ n = 2 \/ n = 3))
  \/ (find_number table m = Return None /\ ~ In m (map snd table)).
Proof.
  intros [-> | ->]; unfold find_number, EZONE_HVAC_MODES, EZONE_FAN_MODES;
    rewrite !first_key_of_cons.
  - destruct (String.eqb_spec "cool" m) as [<-|H1];
      [left; exists 1; repeat split; auto|].
    destruct (String.eqb_spec "heat" m) as [<-|H2];
      [left; exists 2; repeat split; auto|].
    destruct (String.eqb_spec "fan_only" m) as [<-|H3];
      [left; exists 3; repeat split; auto|].
    right. split; [reflexivity|]. simpl. intros [|[|[|[]]]]; congruence.
  - destruct (String.eqb_spec "low" m) as [<-|H1];
      [left; exists 1; repeat split; auto|].
    destruct (String.eqb_spec "medium" m) as [<-|H2];
      [left; exists 2; repeat split; auto|].
    destruct (String.eqb_spec "high" m) as [<-|H3];
      [left; exists 3; repeat split; auto|].
    right. split; [reflexivity|]. simpl. intros [|[|[|[]]]]; congruence.
Qed.

Lemma set_hvac_mode_off self h :
  let req := Request (endpoint (climate_api self) "/setSystemData")
                     [("airconOnOff", VInt 0)] 4 in
  async_set_hvac_mode self HVACMode_OFF h
  = match response_text (session h req) with
    | Some _ => (Return tt, [Get req; RequestRefresh])
    | None =>
        (Raise (Exn ApiError
                  ("Failed to set system data: "
                   +:+ match raised_by_transport (session h req) with
                       | Some e => exn_msg e
                       | None => ""
                       end)), [Get req])
    end.
Proof.
  cbv zeta. unfold async_set_hvac_mode. rewrite String.eqb_refl.
  unfold async_set_aircon_on_off, bind. rewrite system_write_eq.
  now destruct (response_text _).
Qed.

Lemma set_hvac_mode_found self m n h :
  m <> HVACMode_OFF ->
  find_number EZONE_HVAC_MODES m = Return (Some n) -> n <> 0 ->
  let on_req := Request (endpoint (climate_api self) "/setSystemData")
                        [("airconOnOff", VInt 1)] 4 in
  let mode_req := Request (endpoint (climate_api self) "/setSystemData")
                          [("mode", VInt n)] 4 in
  async_set_hvac_mode self m h
  = match response_text (session h on_req) with
    | None =>
        (Raise (Exn ApiError
                  ("Failed to set system data: "
                   +:+ match raised_by_transport (session h on_req) with
                       | Some e => exn_msg e
                       | None => ""
                       end)), [Get on_req])
    | Some _ =>
        match response_text (session (h ++ [Get on_req]) mode_req) with
        | None =>
            (Raise (Exn ApiError
                      ("Failed to set system data: "
                       +:+ match raised_by_transport
                                   (session (h ++ [Get on_req]) mode_req) with
                           | Some e => exn_msg e
                           | None => ""
                           end)), [Get on_req; Get mode_req])
        | Some _ => (Return tt, [Get on_req; Get mode_req; RequestRefresh])
        end
    end.
Proof.
  intros Hoff Hfind Hn. cbv zeta.
  unfold async_set_hvac_mode, async_set_aircon_on_off, async_set_mode.
  destruct (String.eqb_spec m HVACMode_OFF) as [|_]; [contradiction|].
  unfold bind at 1 2, lift. rewrite Hfind. unfold number_truthy.
  destruct (Z.eqb_spec n 0) as [|_]; [contradiction|]. simpl negb. cbv iota.
  unfold bind. change (negb false) with true. cbv beta iota.
  rewrite app_nil_r, system_write_eq.
  destruct (response_text (session h _)); [|reflexivity].
  rewrite system_write_eq. simpl.
  now destruct (response_text (session (h ++ _) _)).
Qed.

Lemma set_hvac_mode_unknown self m h :
  m <> HVACMode_OFF ->
  find_number EZONE_HVAC_MODES m = Return None ->
  async_set_hvac_mode self m h = (Return tt, [RequestRefresh]).
Proof.
  intros Hoff Hfind. unfold async_set_hvac_mode.
  destruct (String.eqb_spec m HVACMode_OFF) as [|_]; [contradiction|].
  unfold bind, lift. rewrite Hfind. reflexivity.
Qed.

(** X13. Setting the mode of the climate entity takes up to two writes
    and they are not undone: switching off is one write; a mode of the
    table is the switch-on write followed by the mode write, and when
    the second fails the unit has been switched on, the error is raised
    and no refresh is requested; the refresh is requested once after the
    writes have all succeeded; and for a mode that is neither off nor in
    the table nothing is written, yet a refresh is requested. *)
Theorem set_hvac_mode_steps (self : EZoneClimate) (m : string)
        (h : list event) :
  let system params :=
    Request (endpoint (climate_api self) "/setSystemData") params 4 in
  let on_req := system [("airconOnOff", VInt 1)] in
  (m = HVACMode_OFF ->
   forall txt,
     response_text (session h (system [("airconOnOff", VInt 0)])) = Some txt ->
     async_set_hvac_mode self m h
     = (Return tt, [Get (system [("airconOnOff", VInt 0)]); RequestRefresh]))
  /\ (In m (map snd EZONE_HVAC_MODES) ->
      exists n,
        let mode_req := system [("mode", VInt n)] in
        dict_get (str_of_int n) EZONE_HVAC_MODES = Some m
        /\ (response_text (session h on_req) = None ->
            exists msg, async_set_hvac_mode self m h
                        = (Raise (Exn ApiError msg), [Get on_req]))
        /\ (forall txt,
              response_text (session h on_req) = Some txt ->
              response_text (session (h ++ [Get on_req]) mode_req) = None ->
              exists msg, async_set_hvac_mode self m h
                          = (Raise (Exn ApiError msg),
                             [Get on_req; Get mode_req]))
        /\ (forall txt txt',
              response_text (session h on_req) = Some txt ->
              response_text (session (h ++ [Get on_req]) mode_req)
              = Some txt' ->
              async_set_hvac_mode self m h
              = (Return tt, [Get on_req; Get mode_req; RequestRefresh])))
  /\ (~ In m hvac_modes ->
      async_set_hvac_mode self m h = (Return tt, [RequestRefresh])).
Proof.
  cbv zeta. split; [|split].
  - intros -> txt Htxt. rewrite set_hvac_mode_off. cbv zeta.
    now rewrite Htxt.
  - intros Hin.
    assert (Hoff : m <> HVACMode_OFF)
      by (intros ->; destruct Hin as [|[|[|[]]]]; discriminate).
    destruct (find_number_cases EZONE_HVAC_MODES m (or_introl eq_refl))
      as [(n & Hfind & Hget & Hn)|[_ Hnot]]; [|contradiction].
    exists n. split; [exact Hget|].
    assert (Hn0 : n <> 0) by lia.
    pose proof (set_hvac_mode_found self m n h Hoff Hfind Hn0) as Hrun.
    cbv zeta in Hrun. split; [|split].
    + intros Hnone. rewrite Hrun, Hnone. eauto.
    + intros txt Htxt Hnone. rewrite Hrun, Htxt, Hnone. eauto.
    + intros txt txt' Htxt Htxt'. now rewrite Hrun, Htxt, Htxt'.
  - intros Hnot.
    assert (Hoff : m <> HVACMode_OFF) by (intros ->; apply Hnot; now left).
    destruct (find_number_cases EZONE_HVAC_MODES m (or_introl eq_refl))
      as [(n & _ & Hget & _)|[Hfind _]].
    + elim Hnot. right. apply dict_get_In in Hget.
      now apply (List.in_map snd) in Hget.
    + now apply set_hvac_mode_unknown.
Qed.

Lemma hvac_mode_of_mapping self data d :
  unit_control self data = Return (VDict d) ->
  hvac_mode self data
  = if match dict_get "airconOnOff" d with
       | Some v => eq_str v "0"
       | None => false
       end
    then Return HVACMode_OFF
    else table_get EZONE_HVAC_MODES
           match dict_get "mode" d with Some x => x | None => VStr "3" end
           HVACMode_FAN_ONLY.
Proof. intros H. unfold hvac_mode. rewrite H. reflexivity. Qed.

(** X14. The mode number that the climate entity writes reads back as
    the mode that was asked for: whenever a request of [async_set_hvac_mode]
    carries [mode=n], a snapshot whose unit control reports that number
    and is not switched off makes the [hvac_mode] property give the
    requested mode. *)
Theorem set_hvac_mode_round_trip (self : EZoneClimate) (m : string)
        (h : list event) (req : request) (n : Z) :
  In req (requests (snd (async_set_hvac_mode self m h))) ->
  dict_get "mode" (params req) = Some (VInt n) ->
  forall data d,
    unit_control self data = Return (VDict d) ->
    dict_get "airconOnOff" d <> Some (VStr "0") ->
    dict_get "mode" d = Some (VStr (str_of_int n)) ->
    hvac_mode self data = Return m.
Proof.
  intros Hin Hmode data d Huc Hon Hd.
  assert (Hsent : m <> HVACMode_OFF
                  /\ dict_get (str_of_int n) EZONE_HVAC_MODES = Some m).
  { destruct (String.eqb_spec m HVACMode_OFF) as [->|Hoff].
    - rewrite set_hvac_mode_off in Hin. cbv zeta in Hin.
      destruct (response_text _); simpl in Hin;
        destruct Hin as [<-|[]]; discriminate Hmode.
    - destruct (find_number_cases EZONE_HVAC_MODES m (or_introl eq_refl))
        as [(n' & Hfind & Hget & Hn)|[Hfind _]].
      + rewrite (set_hvac_mode_found self m n' h Hoff Hfind ltac:(lia))
          in Hin.
        destruct (response_text (session h _)); simpl in Hin;
          [|destruct Hin as [<-|[]]; discriminate Hmode].
        destruct (response_text (session (h ++ _) _)); simpl in Hin;
          destruct Hin as [<-|[<-|[]]]; try discriminate Hmode;
          simpl in Hmode; injection Hmode as <-; now split.
      + rewrite (set_hvac_mode_unknown self m h Hoff Hfind) in Hin.
        destruct Hin. }
  destruct Hsent as [_ Hget].
  rewrite (hvac_mode_of_mapping _ _ _ Huc), Hd.
  assert (Hread : table_get EZONE_HVAC_MODES (VStr (str_of_int n))
                    HVACMode_FAN_ONLY = Return m)
    by (unfold table_get; now rewrite Hget).
  destruct (dict_get "airconOnOff" d) as [[s| | |]|]; try exact Hread.
  unfold eq_str. destruct (String.eqb_spec s "0") as [->|_];
    [now elim Hon|exact Hread].
Qed.

Lemma set_fan_mode_found self m n h :
  find_number EZONE_FAN_MODES m = Return (Some n) -> n <> 0 ->
  let req := Request (endpoint (climate_api self) "/setSystemData")
                     [("fanSpeed", VInt n)] 4 in
  async_set_fan_mode self m h
  = match response_text (session h req) with
    | Some _ => (Return tt, [Get req; RequestRefresh])
    | None =>
        (Raise (Exn ApiError
                  ("Failed to set system data: "
                   +:+ match raised_by_transport (session h req) with
                       | Some e => exn_msg e
                       | None => ""
                       end)), [Get req])
    end.
Proof.
  intros Hfind Hn. cbv zeta. unfold async_set_fan_mode, async_set_fan_speed.
  unfold bind at 1, lift. rewrite Hfind. unfold number_truthy.
  destruct (Z.eqb_spec n 0) as [|_]; [contradiction|]. simpl negb. cbv iota.
  unfold bind. change (negb false) with true. cbv beta iota.
  rewrite app_nil_r, system_write_eq.
  now destruct (response_text _).
Qed.

(** X15. Setting the fan mode writes the speed number of the name in the
    table and then requests one refresh, and that number reads back as
    the name through the [fan_mode] property; a name that is not in the
    table writes nothing and requests no refresh, without an error. *)
Theorem set_fan_mode_round_trip (self : EZoneClimate) (m : string)
        (h : list event) :
  (In m fan_modes ->
   exists n,
     let req := Request (endpoint (climate_api self) "/setSystemData")
                        [("fanSpeed", VInt n)] 4 in
     (forall txt, response_text (session h req) = Some txt ->
        async_set_fan_mode self m h = (Return tt, [Get req; RequestRefresh]))
     /\ (response_text (session h req) = None ->
         exists msg, async_set_fan_mode self m h
                     = (Raise (Exn ApiError msg), [Get req]))
     /\ forall data d,
          unit_control self data = Return (VDict d) ->
          dict_get "fanSpeed" d = Some (VStr (str_of_int n)) ->
          fan_mode self data = Return m)
  /\ (~ In m fan_modes -> async_set_fan_mode self m h = (Return tt, [])).
Proof.
  split.
  - intros Hin.
    destruct (find_number_cases EZONE_FAN_MODES m (or_intror eq_refl))
      as [(n & Hfind & Hget & Hn)|[_ Hnot]]; [|contradiction].
    exists n. cbv zeta.
    pose proof (set_fan_mode_found self m n h Hfind ltac:(lia)) as Hrun.
    cbv zeta in Hrun. split; [|split].
    + intros txt Htxt. now rewrite Hrun, Htxt.
    + intros Hnone. rewrite Hrun, Hnone. eauto.
    + intros data d Huc Hd. unfold fan_mode. rewrite Huc.
      unfold and_then, py_get. rewrite Hd. unfold table_get.
      now rewrite Hget.
  - intros Hnot.
    destruct (find_number_cases EZONE_FAN_MODES m (or_intror eq_refl))
      as [(n & _ & Hget & _)|[Hfind _]].
    + elim Hnot. apply dict_get_In in Hget.
      now apply (List.in_map snd) in Hget.
    + unfold async_set_fan_mode, bind, lift. now rewrite Hfind.
Qed.

(** ** More on the normalizer *)

Lemma dict_get_None_keys {A} k (d : list (string * A)) :
  dict_get k d = None -> ~ In k (map fst d).
Proof.
  induction d as [|[k' v'] d IH]; simpl; [intros _ []|].
  destruct (String.eqb_spec k' k) as [->|Hne]; [discriminate|].
  intros H [Heq|Hin]; [contradiction|]. now apply IH.
Qed.

Lemma dict_set_keys {A} k (v v' : A) d :
  dict_get k d = Some v' -> map fst (dict_set k v d) = map fst d.
Proof.
  induction d as [|[k0 v0] d IH]; simpl; [discriminate|].
  destruct (String.eqb k0 k); simpl; [reflexivity|].
  intros H. now rewrite IH.
Qed.

Lemma dict_set_values {A} (P : A -> Prop) k v (d : list (string * A)) :
  P v -> Forall (fun entry => P entry.2) d ->
  Forall (fun entry => P entry.2) (dict_set k v d).
Proof.
  intros Hv. induction 1 as [|[k0 v0] d H0 Hd IH]; simpl.
  - now constructor.
  - destruct (String.eqb k0 k); constructor; assumption.
Qed.

Lemma dict_set_distinct k v d :
  distinct_keys v -> distinct_keys (VDict d) ->
  distinct_keys (VDict (dict_set k v d)).
Proof.
  intros Hv Hd. inversion Hd as [| |d' Hnd Hall|]; subst.
  constructor; [|now apply dict_set_values].
  destruct (dict_get k d) as [v'|] eqn:Hget.
  - now rewrite (dict_set_keys _ _ _ _ Hget).
  - rewrite (dict_set_fresh _ _ _ Hget), map_app. simpl.
    apply NoDup_app. split; [exact Hnd|]. split.
    + intros x Hx [->|[]]%list_elem_of_In.
      apply (dict_get_None_keys _ _ Hget). now apply list_elem_of_In.
    + apply NoDup_singleton.
Qed.

Lemma add_child_distinct result child_tag child_data :
  distinct_keys child_data -> distinct_keys (VDict result) ->
  distinct_keys (VDict (add_child result child_tag child_data)).
Proof.
  intros Hc Hr. unfold add_child.
  destruct (dict_get child_tag result) as [old|] eqn:Hget;
    [|now apply dict_set_distinct].
  apply dict_set_distinct; [|exact Hr].
  assert (Hold : distinct_keys old).
  { inversion Hr as [| |d' _ Hall|]; subst.
    rewrite List.Forall_forall in Hall.
    apply (Hall (child_tag, old)). now apply dict_get_In. }
  constructor. apply Forall_app. split; [|now repeat constructor].
  destruct old as [s|n|d|l];
    try (constructor; [exact Hold|constructor]).
  now inversion Hold.
Qed.

Lemma for_child_distinct f cs :
  Forall (fun c => distinct_keys (f c)) cs ->
  forall result, distinct_keys (VDict result) ->
  distinct_keys (VDict (for_child f cs result)).
Proof.
  induction 1 as [|c cs Hc _ IH]; intros result Hr; simpl; [exact Hr|].
  apply IH. now apply add_child_distinct.
Qed.

Lemma xml_to_dict_distinct (e : element) :
  distinct_keys (_xml_to_dict e).
Proof.
  revert e. fix IH 1. intros [t txt cs].
  assert (Hcs : Forall (fun c => distinct_keys (_xml_to_dict c)) cs).
  { clear t txt. induction cs as [|c cs IHcs]; constructor;
      [apply IH|exact IHcs]. }
  simpl.
  destruct (match txt with
            | Some t0 => str_truthy t0 && str_truthy (strip t0)
                         && (length cs =? 0)%nat
            | None => false
            end); [constructor|].
  apply for_child_distinct; [exact Hcs|].
  constructor; constructor.
Qed.

(** X16. In whatever the normalizer returns, every mapping has each of
    its keys once, at every depth of the document: a repeated tag never
    gives a second entry, but a sequence under the one key; and storing
    the zone number in the normalized document keeps it so, whether or
    not the document has a [zone_number] element. *)
Theorem xml_to_dict_distinct_keys (e : element) :
  distinct_keys (_xml_to_dict e)
  /\ forall zone v,
       py_setitem (_xml_to_dict e) "zone_number" (VInt zone) = Return v ->
       distinct_keys v.
Proof.
  pose proof (xml_to_dict_distinct e) as He. split; [exact He|].
  intros zone v. destruct (_xml_to_dict e) as [s|n|d|l]; try discriminate.
  simpl. intros [= <-]. apply dict_set_distinct; [constructor|exact He].
Qed.

Lemma rstrip_idem s : rstrip (rstrip s) = rstrip s.
Proof.
  induction s as [|c s IH]; [reflexivity|]. simpl.
  destruct (rstrip s) as [|c' r] eqn:E.
  - destruct (isspace c) eqn:Hc; [reflexivity|]. simpl. now rewrite Hc.
  - change (rstrip (String c (String c' r))
            = String c (String c' r)).
    simpl. simpl in IH. now rewrite IH.
Qed.

Lemma rstrip_head c r :
  isspace c = false -> exists r', rstrip (String c r) = String c r'.
Proof.
  intros Hc. simpl. destruct (rstrip r); [rewrite Hc|]; eauto.
Qed.

Lemma strip_idem s : strip (strip s) = strip s.
Proof.
  unfold strip. destruct (lstrip s) as [|c r] eqn:E; [reflexivity|].
  pose proof (lstrip_head _ _ _ E) as Hc.
  destruct (rstrip_head c r Hc) as [r' Hr]. rewrite Hr.
  rewrite (lstrip_head_kept _ _ Hc), <- Hr. apply rstrip_idem.
Qed.

(** X17. The only text the normalizer returns is the text of a node
    without children, and it returns it trimmed: the string is not empty
    and has no white space left to strip at either end. *)
Theorem xml_leaf_stripped (e : element) (s : string) :
  _xml_to_dict e = VStr s ->
  s <> ""
  /\ strip s = s
  /\ exists t txt, e = Element t (Some txt) [] /\ s = strip txt.
Proof.
  destruct e as [t [txt|] cs]; simpl; [|discriminate].
  destruct (str_truthy txt && str_truthy (strip txt)
            && (length cs =? 0)%nat) eqn:Hleaf; [|discriminate].
  intros [= <-].
  apply andb_prop in Hleaf as [[_ Hs]%andb_prop Hlen].
  split; [|split].
  - unfold str_truthy in Hs. apply negb_true_iff in Hs.
    now apply String.eqb_neq in Hs.
  - apply strip_idem.
  - apply Nat.eqb_eq in Hlen. destruct cs; [|discriminate]. eauto.
Qed.

(** ** Well-formed snapshots *)

Lemma read_distinct self op retry_arg h v :
  fst (run_read self op retry_arg h) = Return v -> distinct_keys v.
Proof.
  rewrite run_read_eq. intros Hv.
  apply read_loop_returns in Hv as [h' Hb].
  destruct (session h' (read_request self op)) as [e|[st bd]];
    simpl in Hb; [discriminate|].
  destruct (st =? 200); [|discriminate].
  destruct bd as [e|xml_data]; [discriminate|].
  destruct (fromstring xml_data) as [msg|root]; [discriminate|].
  pose proof (xml_to_dict_distinct root) as Hroot.
  destruct op as [|zone]; simpl in Hb.
  - now injection Hb as <-.
  - destruct (_xml_to_dict root) as [s|n|d0|l]; try discriminate.
    injection Hb as <-. apply dict_set_distinct; [constructor|exact Hroot].
Qed.

Lemma for_zone_num_distinct self zone_nums :
  forall zones_data h zones_data',
  Forall (fun entry => distinct_keys entry.2) zones_data ->
  fst (for_zone_num self zone_nums zones_data h) = Return zones_data' ->
  Forall (fun entry => distinct_keys entry.2) zones_data'.
Proof.
  induction zone_nums as [|z zs IH]; intros zd h zd' Hzd.
  - simpl. now intros [= <-].
  - rewrite for_zone_num_cons. cbv zeta. simpl fst. apply IH.
    destruct (fst (async_get_zone_data self z None h)) as [v|e] eqn:Hrun;
      [|exact Hzd].
    apply dict_set_values; [|exact Hzd].
    apply (read_distinct self (GetZoneData z) None h). exact Hrun.
Qed.

(** X18. Every snapshot that the aggregate read returns is well formed
    all the way down: the result, its system entry, its zones mapping and
    each zone's data are mappings or values in which no mapping has a key
    twice. *)
Theorem snapshot_distinct_keys (self : ezone_api) (h : list event)
        (result : value) :
  fst (async_get_all_data self h) = Return result -> distinct_keys result.
Proof.
  intros Hres.
  destruct (all_data_zones _ _ _ Hres)
    as (system & zones_data & sd & N & -> & Hsd & HN & Hsub & _).
  pose proof (zone_keys_NoDup _ _ Hsub) as Hnd.
  destruct (async_get_system_data self None h) as [r t_sys] eqn:Hsys.
  simpl in Hsd. subst r.
  destruct (num_zones_of_system _ _ HN) as [system' Hget].
  destruct (for_zone_num_returns self (seqZ 1 N) [] (h ++ t_sys))
    as [zones_data' Hz].
  rewrite (all_data_returns _ _ _ _ _ _ _ Hsys HN Hget Hz) in Hres.
  simpl in Hres. injection Hres as <- <-.
  assert (Hsystem : distinct_keys system').
  { pose proof (read_distinct self GetSystemData None h sd) as Hd.
    simpl in Hd. rewrite Hsys in Hd. specialize (Hd eq_refl).
    destruct sd as [s|n|d|l]; try discriminate Hget.
    simpl in Hget. injection Hget as <-.
    destruct (dict_get "system" d) as [x|] eqn:Hx;
      [|constructor; constructor].
    inversion Hd as [| |d' _ Hall|]; subst.
    rewrite List.Forall_forall in Hall.
    apply (Hall ("system", x)). now apply dict_get_In. }
  constructor.
  - simpl. repeat constructor; rewrite ?list_elem_of_In; simpl; intuition
      discriminate.
  - repeat constructor; [exact Hsystem|exact Hnd|].
    apply (for_zone_num_distinct self (seqZ 1 N) [] (h ++ t_sys));
      [constructor|exact Hz].
Qed.

(** ** State and commands together *)

Lemma position_of_percent cover data zd p :
  zone_data cover data = Return (VDict zd) ->
  dict_get "userPercentSetting" zd = Some (VStr (str_of_int p)) ->
  current_cover_position cover data = Return p.
Proof.
  intros Hzd Hp. unfold current_cover_position. rewrite Hzd.
  unfold and_then at 1. unfold py_get at 1. rewrite Hp.
  unfold and_then at 1. unfold py_int. now rewrite int_of_str_pretty.
Qed.

(** X19. The percent that the damper entity writes reads back as its
    position: whenever a request of [async_set_cover_position] carries
    [userPercentSetting=q], a snapshot in which the zone reports that
    number makes [current_cover_position] give the position that was
    asked for. *)
Theorem cover_position_round_trip (cover : EZoneZoneCover) (position : Z)
        (h : list event) (req : request) (q : Z) :
  In req (requests (snd (async_set_cover_position cover (Some position) h))) ->
  dict_get "userPercentSetting" (params req) = Some (VInt q) ->
  forall data zd,
    zone_data cover data = Return (VDict zd) ->
    dict_get "userPercentSetting" zd = Some (VStr (str_of_int q)) ->
    current_cover_position cover data = Return position.
Proof.
  intros Hin Hq data zd Hzd Hp.
  assert (Heq : q = position).
  { change (async_set_cover_position cover (Some position) h)
      with (run_command cover (SetCoverPosition (Some position)) h) in Hin.
    destruct (command_request cover (SetCoverPosition (Some position)))
      as [req'|] eqn:Hreq.
    - rewrite (command_eq _ _ _ _ Hreq) in Hin. simpl in Hreq.
      destruct (position =? 0); injection Hreq as <-;
        destruct (response_text _); simpl in Hin;
        destruct Hin as [<-|[]]; simpl in Hq; congruence.
    - simpl in Hreq. now destruct (position =? 0). }
  subst q. eapply position_of_percent; eassumption.
Qed.

Lemma snapshot_unit_control self h result climate :
  fst (async_get_all_data self h) = Return result ->
  exists d, unit_control climate result = Return (VDict d).
Proof.
  intros Hres.
  destruct (all_data_zones _ _ _ Hres)
    as (system & zones_data & sd & N & -> & Hsd & HN & _).
  destruct (async_get_system_data self None h) as [r t_sys] eqn:Hsys.
  simpl in Hsd. subst r.
  destruct (num_zones_of_system _ _ HN) as [system' Hget].
  destruct (for_zone_num_returns self (seqZ 1 N) [] (h ++ t_sys))
    as [zones_data' Hz].
  rewrite (all_data_returns _ _ _ _ _ _ _ Hsys HN Hget Hz) in Hres.
  simpl in Hres. injection Hres as <- <-.
  unfold unit_control. simpl.
  unfold num_zones_of in HN. rewrite Hget in HN.
  destruct system' as [s|n|d|l]; try discriminate HN. simpl in HN |- *.
  destruct (dict_get "unitcontrol" d) as [[s|n|u|l]|];
    try discriminate HN; eauto.
Qed.

Lemma table_get_member table key default m :
  table_get table key default = Return m ->
  In m (map snd table) \/ m = default.
Proof.
  destruct key as [k|n|d|l]; simpl; try discriminate.
  - intros [= <-]. destruct (dict_get k table) as [x|] eqn:Hx; [|now right].
    left. apply dict_get_In in Hx. now apply (List.in_map snd) in Hx.
  - intros [= <-]. now right.
Qed.

Lemma table_get_raises table key default e :
  table_get table key default = Raise e ->
  exn_cls e = TypeError
  /\ ((exists d, key = VDict d) \/ (exists l, key = VList l)).
Proof.
  destruct key as [k|n|d|l]; simpl; try discriminate;
    intros [= <-]; eauto.
Qed.

(** X20. On a snapshot returned by the aggregate read the unit control
    of the climate entity is always a mapping, and what the [hvac_mode]
    and [fan_mode] properties return is always one of the modes the
    entity advertises; the one way they fail is a [TypeError], when the
    controller's [mode] or [fanSpeed] element is itself a mapping or a
    sequence, as an empty or a repeated element is. *)
Theorem climate_state_on_snapshot (self : ezone_api) (h : list event)
        (result : value) (climate : EZoneClimate) :
  fst (async_get_all_data self h) = Return result ->
  exists d,
    unit_control climate result = Return (VDict d)
    /\ (forall m, hvac_mode climate result = Return m -> In m hvac_modes)
    /\ (forall m, fan_mode climate result = Return m -> In m fan_modes)
    /\ (forall e, hvac_mode climate result = Raise e ->
          exn_cls e = TypeError
          /\ ((exists x, dict_get "mode" d = Some (VDict x))
              \/ (exists x, dict_get "mode" d = Some (VList x))))
    /\ (forall e, fan_mode climate result = Raise e ->
          exn_cls e = TypeError
          /\ ((exists x, dict_get "fanSpeed" d = Some (VDict x))
              \/ (exists x, dict_get "fanSpeed" d = Some (VList x)))).
Proof.
  intros Hres.
  destruct (snapshot_unit_control self h result climate Hres) as [d Huc].
  exists d. split; [exact Huc|].
  rewrite (hvac_mode_of_mapping _ _ _ Huc).
  unfold fan_mode. rewrite Huc. unfold and_then, py_get.
  split; [|split; [|split]].
  - intros m.
    destruct (match dict_get "airconOnOff" d with
              | Some v => eq_str v "0" | None => false end).
    + intros [= <-]. now left.
    + intros [Hin| ->]%table_get_member; [now right|].
      right. right. right. now left.
  - intros m [Hin| ->]%table_get_member; [exact Hin|].
    right. now left.
  - intros e.
    destruct (match dict_get "airconOnOff" d with
              | Some v => eq_str v "0" | None => false end); [discriminate|].
    intros [Hcls Hkey]%table_get_raises. split; [exact Hcls|].
    destruct (dict_get "mode" d) as [x|];
      destruct Hkey as [[y Hy]|[y Hy]]; try discriminate Hy; subst; eauto.
  - intros e [Hcls Hkey]%table_get_raises. split; [exact Hcls|].
    destruct (dict_get "fanSpeed" d) as [x|];
      destruct Hkey as [[y Hy]|[y Hy]]; try discriminate Hy; subst; eauto.
Qed.

(** X21. The timer write sends the schedule status always, and each of
    the four times exactly when it is given, a given 0 included, under
    its own key and unchanged; no key appears twice. *)
Theorem set_zone_timer_params (self : ezone_api)
        (start_hour start_min end_hour end_min : option Z)
        (schedule_status : Z) (h : list event) :
  exists req,
    snd (async_set_zone_timer self start_hour start_min end_hour end_min
           schedule_status h) = [Get req]
    /\ url req = endpoint self "/setZoneTimer"
    /\ dict_get "scheduleStatus" (params req) = Some (VInt schedule_status)
    /\ dict_get "startTimeHours" (params req) = option_map VInt start_hour
    /\ dict_get "startTimeMinutes" (params req) = option_map VInt start_min
    /\ dict_get "endTimeHours" (params req) = option_map VInt end_hour
    /\ dict_get "endTimeMinutes" (params req) = option_map VInt end_min
    /\ NoDup (map fst (params req)).
Proof.
  unfold async_set_zone_timer. rewrite write_block_eq. eexists.
  split; [reflexivity|]. split; [reflexivity|].
  destruct start_hour, start_min, end_hour, end_min; simpl;
    repeat split;
    repeat (constructor; [rewrite ?list_elem_of_In; simpl;
                          intuition discriminate|]);
    constructor.
Qed.

(** ** The command methods of the entities *)

(** How an invocation of a command method can go: it sends one write or
    two, the second after the first has been answered, and requests the
    refresh after the last; it stops with an [ApiError] at the first write
    that is not answered; or it sends no write at all. *)
Lemma command_rule (r : result unit) (t h : list event) :
  (r = Return tt /\ (t = [] \/ t = [RequestRefresh]))
  \/ (exists r1,
        response_text (session h r1) <> None
        /\ r = Return tt /\ t = [Get r1; RequestRefresh])
  \/ (exists r1 msg,
        response_text (session h r1) = None
        /\ r = Raise (Exn ApiError msg) /\ t = [Get r1])
  \/ (exists r1 r2,
        response_text (session h r1) <> None
        /\ response_text (session (h ++ [Get r1]) r2) <> None
        /\ r = Return tt /\ t = [Get r1; Get r2; RequestRefresh])
  \/ (exists r1 r2 msg,
        response_text (session h r1) <> None
        /\ response_text (session (h ++ [Get r1]) r2) = None
        /\ r = Raise (Exn ApiError msg) /\ t = [Get r1; Get r2]) ->
  (requests t <> [] ->
   (forall t1 req t2, t = t1 ++ Get req :: t2 ->
      response_text (session (h ++ t1) req) <> None) ->
   r = Return tt
   /\ t = map Get (requests t) ++ [RequestRefresh]
   /\ refresh_count t = 1%nat)
  /\ (forall t1 req t2, t = t1 ++ Get req :: t2 ->
        response_text (session (h ++ t1) req) = None ->
        (exists msg, r = Raise (Exn ApiError msg))
        /\ t2 = []
        /\ refresh_count t = 0%nat)
  /\ forallb (fun e => negb (is_set_data e)) t = true
  /\ current_snapshot (h ++ t) = current_snapshot h.
Proof.
  intros Hshape.
  assert (Hkeep : forallb (fun e => negb (is_set_data e)) t = true).
  { destruct Hshape as [(_ & [-> | ->])
                       |[(r1 & _ & _ & ->)
                       |[(r1 & msg & _ & _ & ->)
                       |[(r1 & r2 & _ & _ & _ & ->)
                       |(r1 & r2 & msg & _ & _ & _ & ->)]]]];
      reflexivity. }
  split; [|split; [|split; [exact Hkeep|now apply current_snapshot_keep]]].
  - intros Hne Hall.
    destruct Hshape as [(_ & [-> | ->])
                       |[(r1 & _ & -> & ->)
                       |[(r1 & msg & Hno & _ & ->)
                       |[(r1 & r2 & _ & _ & -> & ->)
                       |(r1 & r2 & msg & _ & Hno & _ & ->)]]]].
    + now elim Hne.
    + now elim Hne.
    + repeat split.
    + specialize (Hall [] r1 [] eq_refl). rewrite app_nil_r in Hall.
      contradiction.
    + repeat split.
    + specialize (Hall [Get r1] r2 [] eq_refl). contradiction.
  - intros t1 req t2 Heq Hnone.
    destruct Hshape as [(_ & [-> | ->])
                       |[(r1 & Hok & _ & ->)
                       |[(r1 & msg & _ & -> & ->)
                       |[(r1 & r2 & Hok1 & Hok2 & _ & ->)
                       |(r1 & r2 & msg & Hok1 & _ & -> & ->)]]]];
      destruct t1 as [|e1 [|e2 [|e3 [|e4 t1]]]]; simplify_eq/=;
      try rewrite app_nil_r in Hnone; try contradiction;
      repeat split; eauto.
Qed.

Lemma command_shape self cmd h :
  let r := fst (run_command self cmd h) in
  let t := snd (run_command self cmd h) in
  (r = Return tt /\ (t = [] \/ t = [RequestRefresh]))
  \/ (exists r1,
        response_text (session h r1) <> None
        /\ r = Return tt /\ t = [Get r1; RequestRefresh])
  \/ (exists r1 msg,
        response_text (session h r1) = None
        /\ r = Raise (Exn ApiError msg) /\ t = [Get r1])
  \/ (exists r1 r2,
        response_text (session h r1) <> None
        /\ response_text (session (h ++ [Get r1]) r2) <> None
        /\ r = Return tt /\ t = [Get r1; Get r2; RequestRefresh])
  \/ (exists r1 r2 msg,
        response_text (session h r1) <> None
        /\ response_text (session (h ++ [Get r1]) r2) = None
        /\ r = Raise (Exn ApiError msg) /\ t = [Get r1; Get r2]).
Proof.
  cbv zeta. destruct (command_request self cmd) as [req|] eqn:Hreq.
  - rewrite (command_eq _ _ _ _ Hreq).
    destruct (response_text (session h req)) as [txt|] eqn:Htxt.
    + right; left. exists req. rewrite Htxt. now repeat split.
    + right; right; left. eexists req, _. now repeat split.
  - left. destruct cmd as [| |[position|]]; simpl in Hreq; try discriminate.
    + now destruct (position =? 0).
    + split; [reflexivity|now left].
Qed.

Lemma set_temperature_eq self temp h :
  let req := Request (endpoint (climate_api self) "/setSystemData")
                     [("centralDesiredTemp", temp)] 4 in
  async_set_temperature self (Some temp) h
  = match response_text (session h req) with
    | Some _ => (Return tt, [Get req; RequestRefresh])
    | None =>
        (Raise (Exn ApiError
                  ("Failed to set system data: "
                   +:+ match raised_by_transport (session h req) with
                       | Some e => exn_msg e
                       | None => ""
                       end)), [Get req])
    end.
Proof.
  cbv zeta. unfold async_set_temperature, async_set_target_temp, bind.
  rewrite system_write_eq. now destruct (response_text _).
Qed.

Lemma set_temperature_shape self temperature h :
  let r := fst (async_set_temperature self temperature h) in
  let t := snd (async_set_temperature self temperature h) in
  (r = Return tt /\ (t = [] \/ t = [RequestRefresh]))
  \/ (exists r1,
        response_text (session h r1) <> None
        /\ r = Return tt /\ t = [Get r1; RequestRefresh])
  \/ (exists r1 msg,
        response_text (session h r1) = None
        /\ r = Raise (Exn ApiError msg) /\ t = [Get r1])
  \/ (exists r1 r2,
        response_text (session h r1) <> None
        /\ response_text (session (h ++ [Get r1]) r2) <> None
        /\ r = Return tt /\ t = [Get r1; Get r2; RequestRefresh])
  \/ (exists r1 r2 msg,
        response_text (session h r1) <> None
        /\ response_text (session (h ++ [Get r1]) r2) = None
        /\ r = Raise (Exn ApiError msg) /\ t = [Get r1; Get r2]).
Proof.
  cbv zeta. destruct temperature as [temp|].
  - rewrite set_temperature_eq.
    destruct (response_text (session h _)) as [txt|] eqn:Htxt.
    + right; left. eexists. rewrite Htxt. now repeat split.
    + right; right; left. eexists _, _. now repeat split.
  - left. split; [reflexivity|now left].
Qed.

Lemma set_hvac_mode_shape self m h :
  let r := fst (async_set_hvac_mode self m h) in
  let t := snd (async_set_hvac_mode self m h) in
  ((r = Return tt /\ (t = [] \/ t = [RequestRefresh]))
   \/ (exists r1,
         response_text (session h r1) <> None
         /\ r = Return tt /\ t = [Get r1; RequestRefresh])
   \/ (exists r1 msg,
         response_text (session h r1) = None
         /\ r = Raise (Exn ApiError msg) /\ t = [Get r1])
   \/ (exists r1 r2,
         response_text (session h r1) <> None
         /\ response_text (session (h ++ [Get r1]) r2) <> None
         /\ r = Return tt /\ t = [Get r1; Get r2; RequestRefresh])
   \/ (exists r1 r2 msg,
         response_text (session h r1) <> None
         /\ response_text (session (h ++ [Get r1]) r2) = None
         /\ r = Raise (Exn ApiError msg) /\ t = [Get r1; Get r2]))
  /\ (In m hvac_modes -> requests t <> [])
  /\ (~ In m hvac_modes -> requests t = []).
Proof.
  cbv zeta. destruct (String.eqb_spec m HVACMode_OFF) as [->|Hoff].
  - rewrite set_hvac_mode_off.
    split; [|split; [|intros Hnot; elim Hnot; now left]].
    + destruct (response_text (session h _)) as [txt|] eqn:Htxt.
      * right; left. eexists. rewrite Htxt. now repeat split.
      * right; right; left. eexists _, _. now repeat split.
    + intros _. now destruct (response_text (session h _)).
  - destruct (find_number_cases EZONE_HVAC_MODES m (or_introl eq_refl))
      as [(n & Hfind & Hget & Hn)|[Hfind Hnot]].
    + pose proof (set_hvac_mode_found self m n h Hoff Hfind ltac:(lia))
        as Hrun.
      cbv zeta in Hrun. rewrite Hrun.
      split; [|split].
      * destruct (response_text (session h _)) as [txt|] eqn:Htxt.
        -- destruct (response_text (session (h ++ _) _)) as [txt'|] eqn:Htxt'.
           ++ do 3 right; left. eexists _, _.
              rewrite Htxt, Htxt'. now repeat split.
           ++ do 4 right. eexists _, _, _. rewrite Htxt.
              now repeat split.
        -- right; right; left. eexists _, _. now repeat split.
      * intros _. destruct (response_text (session h _)); [|discriminate].
        now destruct (response_text (session (h ++ _) _)).
      * intros Hno. elim Hno. right. apply dict_get_In in Hget.
        now apply (List.in_map snd) in Hget.
    + rewrite (set_hvac_mode_unknown self m h Hoff Hfind).
      split; [left; split; [reflexivity|now right]|].
      split; [|reflexivity].
      intros [Hin|Hin]; [now elim Hoff|contradiction].
Qed.

Lemma set_fan_mode_shape self m h :
  let r := fst (async_set_fan_mode self m h) in
  let t := snd (async_set_fan_mode self m h) in
  ((r = Return tt /\ (t = [] \/ t = [RequestRefresh]))
   \/ (exists r1,
         response_text (session h r1) <> None
         /\ r = Return tt /\ t = [Get r1; RequestRefresh])
   \/ (exists r1 msg,
         response_text (session h r1) = None
         /\ r = Raise (Exn ApiError msg) /\ t = [Get r1])
   \/ (exists r1 r2,
         response_text (session h r1) <> None
         /\ response_text (session (h ++ [Get r1]) r2) <> None
         /\ r = Return tt /\ t = [Get r1; Get r2; RequestRefresh])
   \/ (exists r1 r2 msg,
         response_text (session h r1) <> None
         /\ response_text (session (h ++ [Get r1]) r2) = None
         /\ r = Raise (Exn ApiError msg) /\ t = [Get r1; Get r2]))
  /\ (In m fan_modes -> requests t <> [])
  /\ (~ In m fan_modes -> requests t = []).
Proof.
  cbv zeta.
  destruct (find_number_cases EZONE_FAN_MODES m (or_intror eq_refl))
    as [(n & Hfind & Hget & Hn)|[Hfind Hnot]].
  - pose proof (set_fan_mode_found self m n h Hfind ltac:(lia)) as Hrun.
    cbv zeta in Hrun. rewrite Hrun.
    split; [|split].
    + destruct (response_text (session h _)) as [txt|] eqn:Htxt.
      * right; left. eexists. rewrite Htxt. now repeat split.
      * right; right; left. eexists _, _. now repeat split.
    + intros _. now destruct (response_text (session h _)).
    + intros Hno. elim Hno. apply dict_get_In in Hget.
      now apply (List.in_map snd) in Hget.
  - assert (Hrun : async_set_fan_mode self m h = (Return tt, [])).
    { unfold async_set_fan_mode, bind, lift. now rewrite Hfind. }
    rewrite Hrun.
    split; [left; split; [reflexivity|now left]|].
    split; [|reflexivity]. intros Hin. contradiction.
Qed.

(** C8. Every command method of the entities follows one rule, whatever
    the history: when the invocation sends a write and each write it
    sends gets a 200 response, it returns normally and requests the
    refresh exactly once, after its last write; when a write it sends is
    not answered so, it raises an [ApiError] there, sends nothing more and
    requests no refresh; and it never stores a snapshot itself, so what
    the coordinator holds changes only through the refresh.  The rule is
    not empty: open and close always send their write, set-position and
    set-temperature send theirs whenever a value is given, and the mode
    and fan-mode commands send theirs for every mode the entity
    advertises.  The damper commands are the methods of [EZoneZoneCover],
    the others those of [EZoneClimate]. *)
Theorem command_refresh (cover : EZoneZoneCover) (cmd : cover_command)
        (climate : EZoneClimate) (temperature : option value)
        (hvac fan : string) (h : list event) :
  let rule (run : M unit) :=
    let r := fst (run h) in
    let t := snd (run h) in
    (requests t <> [] ->
     (forall t1 req t2, t = t1 ++ Get req :: t2 ->
        response_text (session (h ++ t1) req) <> None) ->
     r = Return tt
     /\ t = map Get (requests t) ++ [RequestRefresh]
     /\ refresh_count t = 1%nat)
    /\ (forall t1 req t2, t = t1 ++ Get req :: t2 ->
          response_text (session (h ++ t1) req) = None ->
          (exists msg, r = Raise (Exn ApiError msg))
          /\ t2 = []
          /\ refresh_count t = 0%nat)
    /\ forallb (fun e => negb (is_set_data e)) t = true
    /\ current_snapshot (h ++ t) = current_snapshot h in
  (forall req txt,
     command_request cover cmd = Some req ->
     response_text (session h req) = Some txt ->
     run_command cover cmd h = (Return tt, [Get req; RequestRefresh])
     /\ refresh_count (snd (run_command cover cmd h)) = 1%nat)
  /\ (forall req,
        command_request cover cmd = Some req ->
        response_text (session h req) = None ->
        (exists msg, run_command cover cmd h
                     = (Raise (Exn ApiError msg), [Get req]))
        /\ refresh_count (snd (run_command cover cmd h)) = 0%nat)
  /\ (command_request cover cmd = None ->
      cmd = SetCoverPosition None
      /\ run_command cover cmd h = (Return tt, []))
  /\ (forall temp,
        temperature = Some temp ->
        requests (snd (async_set_temperature climate temperature h))
        = [Request (endpoint (climate_api climate) "/setSystemData")
                   [("centralDesiredTemp", temp)] 4])
  /\ (In hvac hvac_modes ->
      requests (snd (async_set_hvac_mode climate hvac h)) <> [])
  /\ (In fan fan_modes ->
      requests (snd (async_set_fan_mode climate fan h)) <> [])
  /\ rule (run_command cover cmd)
  /\ rule (async_set_temperature climate temperature)
  /\ rule (async_set_hvac_mode climate hvac)
  /\ rule (async_set_fan_mode climate fan).
Proof.
  intros rule. subst rule. cbv beta zeta.
  split; [|split; [|split; [|split; [|split; [|split;
    [|split; [|split; [|split]]]]]]]].
  - intros req txt Hreq Htxt. rewrite (command_eq _ _ _ _ Hreq), Htxt.
    now split.
  - intros req Hreq Htxt. rewrite (command_eq _ _ _ _ Hreq), Htxt.
    split; [eauto|reflexivity].
  - destruct cmd as [| |[position|]]; simpl; try discriminate.
    + now destruct (position =? 0).
    + now intros _.
  - intros temp ->. rewrite set_temperature_eq.
    now destruct (response_text _).
  - apply (set_hvac_mode_shape climate hvac h).
  - apply (set_fan_mode_shape climate fan h).
  - apply command_rule, command_shape.
  - apply command_rule, set_temperature_shape.
  - apply command_rule, (set_hvac_mode_shape climate hvac h).
  - apply command_rule, (set_fan_mode_shape climate fan h).
Qed.

End Client.

(** ** The theorems at work on the demonstration controller *)

Example demo_system_fetch :
  async_get_system_data demo_fromstring demo_session demo_api None []
  = (Return demo_system_data, [Get (system_request demo_api)]).
Proof. vm_compute. reflexivity. Qed.

Example demo_all_data :
  fst (async_get_all_data demo_fromstring demo_session demo_api [])
  = Return (VDict [("system",
                    VDict [("unitcontrol",
                            VDict [("numberOfZones", VStr "5")])]);
                   ("zones",
                    VDict [("1", demo_zone_data 1); ("2", demo_zone_data 2);
                           ("4", demo_zone_data 4); ("5", demo_zone_data 5)])]).
Proof. vm_compute. reflexivity. Qed.

(** Four dropped requests, then an answer: the fifth attempt returns the
    parsed system data, after four sleeps.  A 404 or a body that is not
    XML on the first attempt ends the read with that one request.  An
    unreachable controller is tried five times, with a sleep after each. *)
Lemma read_retry_policy_witness :
  run_read demo_fromstring flaky_session demo_api GetSystemData None []
  = (Return demo_system_data,
     failed_attempts (system_request demo_api) 4
     ++ [Get (system_request demo_api)])
  /\ run_read demo_fromstring not_found_session demo_api (GetZoneData 2)
       None []
     = (Raise (Exn ApiError
                 "No valid response after 1 failed attempt. Last error was: Response status not 200."),
        [Get (zone_request demo_api 2)])
  /\ run_read demo_fromstring garbled_session demo_api GetSystemData None []
     = (Raise (Exn ApiError
                 "No valid response after 1 failed attempt. Last error was: XML parsing error: Invalid XML response: syntax error: line 1, column 0"),
        [Get (system_request demo_api)])
  /\ run_read demo_fromstring refused_session demo_api (GetZoneData 3)
       None []
     = (Raise (Exn ApiError
                 "No valid response after 5 failed attempts. Last error was: Cannot connect to host"),
        failed_attempts (zone_request demo_api 3) 5).
Proof.
  split; [|split; [|split]].
  - destruct (read_retry_policy demo_fromstring flaky_session demo_api
                GetSystemData None [] 4 (fun _ => "Cannot connect to host"))
      as (Hsuccess & _).
    + intros i Hi. exists refused.
      destruct i as [|[|[|[|i]]]]; [| | | |lia]; split; reflexivity.
    + apply (Hsuccess ltac:(vm_compute; reflexivity) system_xml system_root);
        reflexivity.
  - destruct (read_retry_policy demo_fromstring not_found_session demo_api
                (GetZoneData 2) None [] 0 (fun _ => ""))
      as (_ & Hstatus & _).
    + intros i Hi. lia.
    + apply (Hstatus ltac:(vm_compute; reflexivity)
                     (Response 404 (inr "Not Found")) eq_refl).
      simpl. lia.
  - destruct (read_retry_policy demo_fromstring garbled_session demo_api
                GetSystemData None [] 0 (fun _ => ""))
      as (_ & _ & Hparse & _).
    + intros i Hi. lia.
    + apply (Hparse ltac:(vm_compute; reflexivity) "Service Unavailable"
                    "syntax error: line 1, column 0" eq_refl eq_refl).
  - destruct (read_retry_policy demo_fromstring refused_session demo_api
                (GetZoneData 3) None [] 5 (fun _ => "Cannot connect to host"))
      as (_ & _ & _ & Hexhausted & _).
    + intros i Hi. exists refused. split; reflexivity.
    + apply (Hexhausted ltac:(vm_compute; reflexivity) ltac:(lia)).
Defined.

(** A 404, or a body that is not XML, on the first attempt. *)
Lemma read_fatal_error_witness :
  fst (run_read demo_fromstring not_found_session demo_api
         GetSystemData None [])
  = Raise (Exn ApiError
             "No valid response after 1 failed attempt. Last error was: Response status not 200.")
  /\ fst (run_read demo_fromstring garbled_session demo_api
            (GetZoneData 1) None [])
     = Raise (Exn ApiError
                "No valid response after 1 failed attempt. Last error was: XML parsing error: Invalid XML response: syntax error: line 1, column 0").
Proof.
  split.
  - destruct (read_fatal_error demo_fromstring not_found_session demo_api
                GetSystemData None [] 0 (fun _ => "")
                (Response 404 (inr "Not Found")))
      as (Hstatus & _).
    + intros i Hi. lia.
    + vm_compute. reflexivity.
    + reflexivity.
    + rewrite Hstatus; [reflexivity|]. simpl. lia.
  - destruct (read_fatal_error demo_fromstring garbled_session demo_api
                (GetZoneData 1) None [] 0 (fun _ => "")
                (Response 200 (inr "Service Unavailable")))
      as (_ & Hparse).
    + intros i Hi. lia.
    + vm_compute. reflexivity.
    + reflexivity.
    + rewrite (Hparse "Service Unavailable" "syntax error: line 1, column 0"
                 eq_refl eq_refl eq_refl).
      reflexivity.
Defined.

(** C6 as the claim words it fails: with a 404 on the first attempt and
    four attempts left, the caller does not get the cause itself (the
    failed assertion, or an error whose message is the cause) but the
    error of the exhausted loop, whose message opens with the attempt
    count. *)
Lemma read_fatal_error_counterexample :
  fst (async_get_system_data demo_fromstring not_found_session demo_api
         None [])
  = Raise (Exn ApiError
             "No valid response after 1 failed attempt. Last error was: Response status not 200.")
  /\ snd (async_get_system_data demo_fromstring not_found_session demo_api
            None [])
     = [Get (system_request demo_api)]
  /\ ~ (exists c, fst (async_get_system_data demo_fromstring
                         not_found_session demo_api None [])
                  = Raise (Exn c "Response status not 200."))
  /\ fst (async_get_system_data demo_fromstring not_found_session demo_api
            None [])
     <> Raise (Exn AssertionError "").
Proof.
  assert (H : async_get_system_data demo_fromstring not_found_session
                demo_api None []
              = (Raise (Exn ApiError
                   "No valid response after 1 failed attempt. Last error was: Response status not 200."),
                 [Get (system_request demo_api)]))
    by (vm_compute; reflexivity).
  rewrite H. simpl. repeat split.
  - intros [c Hc]. discriminate Hc.
  - discriminate.
Qed.

(** Zone 3 of 5 never answers: the aggregate has zones 1, 2, 4 and 5.
    An unreachable controller, or a system document without a readable
    zone count, makes the aggregate read raise. *)
Lemma all_data_partial_failure_witness :
  (exists system zones_data t,
     async_get_all_data demo_fromstring demo_session demo_api []
     = (Return (VDict [("system", system); ("zones", VDict zones_data)]), t)
     /\ dict_get "2" zones_data = Some (demo_zone_data 2)
     /\ dict_get "3" zones_data = None
     /\ dict_get "4" zones_data = Some (demo_zone_data 4)
     /\ dict_get "6" zones_data = None)
  /\ fst (async_get_all_data demo_fromstring refused_session demo_api [])
     = Raise (Exn ApiError
                "Failed to get all data: No valid response after 5 failed attempts. Last error was: Cannot connect to host")
  /\ fst (async_get_all_data demo_fromstring no_count_session demo_api [])
     = Raise (Exn ApiError
                "Failed to get all data: int() argument must be a string, a bytes-like object or a real number, not 'dict'").
Proof.
  split; [|split].
  - destruct (all_data_partial_failure demo_fromstring demo_session
                demo_api []) as (H & _ & _).
    destruct (H demo_system_data [Get (system_request demo_api)] 5
                demo_system_fetch eq_refl)
      as (system & zones_data & t_zones & Hall & _ & Hzone & Hkeys).
    exists system, zones_data, ([Get (system_request demo_api)] ++ t_zones).
    split; [exact Hall|].
    pose proof (Hzone 2 ltac:(lia)) as H2.
    pose proof (Hzone 3 ltac:(lia)) as H3.
    pose proof (Hzone 4 ltac:(lia)) as H4.
    split; [exact H2|]. split; [exact H3|]. split; [exact H4|].
    apply Hkeys. intros z Hz Heq.
    assert (Hcases : z = 1 \/ z = 2 \/ z = 3 \/ z = 4 \/ z = 5) by lia.
    destruct Hcases as [->|[->|[->|[->| ->]]]]; discriminate Heq.
  - destruct (all_data_partial_failure demo_fromstring refused_session
                demo_api []) as (_ & H & _).
    rewrite (H (Exn ApiError
                  "No valid response after 5 failed attempts. Last error was: Cannot connect to host")
               (failed_attempts (system_request demo_api) 5)
               ltac:(vm_compute; reflexivity)).
    reflexivity.
  - destruct (all_data_partial_failure demo_fromstring no_count_session
                demo_api []) as (_ & _ & H & _).
    rewrite (H (VDict [("system",
                        VDict [("unitcontrol",
                                VDict [("numberOfZones", VDict [])])])])
               [Get (system_request demo_api)]
               (Exn TypeError
                  "int() argument must be a string, a bytes-like object or a real number, not 'dict'")
               ltac:(vm_compute; reflexivity) ltac:(vm_compute; reflexivity)).
    reflexivity.
Defined.

(** C1 as the claim words it fails: the system fetch returns, with a
    document whose zone count is an empty element, and the aggregate read
    raises instead of returning a result. *)
Lemma all_data_partial_failure_counterexample :
  (exists system_data,
     fst (async_get_system_data demo_fromstring no_count_session demo_api
            None [])
     = Return system_data)
  /\ fst (async_get_all_data demo_fromstring no_count_session demo_api [])
     = Raise (Exn ApiError
                "Failed to get all data: int() argument must be a string, a bytes-like object or a real number, not 'dict'")
  /\ ~ (exists result,
          fst (async_get_all_data demo_fromstring no_count_session
                 demo_api [])
          = Return result).
Proof.
  assert (H : fst (async_get_all_data demo_fromstring no_count_session
                     demo_api [])
              = Raise (Exn ApiError
                "Failed to get all data: int() argument must be a string, a bytes-like object or a real number, not 'dict'"))
    by (vm_compute; reflexivity).
  split; [eexists; vm_compute; reflexivity|].
  split; [exact H|]. intros [result Hr]. rewrite H in Hr. discriminate Hr.
Qed.

(** The aggregate read on the demonstration controller, whose system
    data says five zones and whose zone 3 never answers: the count read
    is 5, and the requests are the one for the system data, then zone 1,
    zone 2, the five attempts of zone 3, zone 4 and zone 5, in that
    order. *)
Lemma all_data_fetch_order_witness :
  num_zones_of demo_system_data = Return 5
  /\ requests
       (snd (async_get_all_data demo_fromstring demo_session demo_api []))
     = Request "http://192.168.1.50:2025/getSystemData" [] 4
       :: map (fun z => Request "http://192.168.1.50:2025/getZoneData"
                                [("zone", VInt z)] 4)
              [1; 2; 3; 3; 3; 3; 3; 4; 5].
Proof.
  destruct (all_data_fetch_order demo_fromstring demo_session demo_api [])
    as (n_sys & t_zones & Hall & _ & _ & _ & Hzones).
  destruct (Hzones demo_system_data (f_equal fst demo_system_fetch))
    as [Hcount Hloop].
  pose proof (Hcount _ _ _ "5" 5 eq_refl eq_refl eq_refl eq_refl
                ltac:(vm_compute; reflexivity)) as HN.
  split; [exact HN|].
  rewrite HN in Hloop. destruct Hloop as (ts & Hts & Hlen & Hk).
  destruct ts as [|t1 [|t2 [|t3 [|t4 [|t5 [|t6 ts]]]]]];
    try discriminate Hlen.
  destruct (Hk 0%nat t1 eq_refl) as [H1 _]. vm_compute in H1. subst t1.
  destruct (Hk 1%nat t2 eq_refl) as [H2 _]. vm_compute in H2. subst t2.
  destruct (Hk 2%nat t3 eq_refl) as [H3 _]. vm_compute in H3. subst t3.
  destruct (Hk 3%nat t4 eq_refl) as [H4 _]. vm_compute in H4. subst t4.
  destruct (Hk 4%nat t5 eq_refl) as [H5 _]. vm_compute in H5. subst t5.
  rewrite Hall, Hts. vm_compute. reflexivity.
Defined.

(** A refresh against an unreachable controller keeps the snapshot it
    had, or keeps having none; a refresh that gets through stores what it
    read. *)
Lemma refresh_snapshot_witness :
  (exists msg,
     fst (refresh demo_fromstring refused_session demo_api
            [SetData demo_system_data])
     = Raise (Exn UpdateFailed msg)
     /\ current_snapshot
          ([SetData demo_system_data]
           ++ snd (refresh demo_fromstring refused_session demo_api
                     [SetData demo_system_data]))
        = Some demo_system_data)
  /\ current_snapshot
       ([] ++ snd (refresh demo_fromstring refused_session demo_api []))
     = None
  /\ (exists data,
        fst (refresh demo_fromstring demo_session demo_api
               [SetData demo_system_data])
        = Return data
        /\ current_snapshot
             ([SetData demo_system_data]
              ++ snd (refresh demo_fromstring demo_session demo_api
                        [SetData demo_system_data]))
           = Some data
        /\ data <> demo_system_data).
Proof.
  split; [|split].
  - destruct (refresh_snapshot demo_fromstring refused_session demo_api
                [SetData demo_system_data]) as (Hfail & _).
    destruct (Hfail (Exn ApiError
                "Failed to get all data: No valid response after 5 failed attempts. Last error was: Cannot connect to host")
                ltac:(vm_compute; reflexivity))
      as (Hres & Hkeep & _).
    eexists. split; [exact Hres|exact Hkeep].
  - destruct (refresh_snapshot demo_fromstring refused_session demo_api [])
      as (Hfail & _).
    destruct (Hfail (Exn ApiError
                "Failed to get all data: No valid response after 5 failed attempts. Last error was: Cannot connect to host")
                ltac:(vm_compute; reflexivity))
      as (_ & _ & Hnone).
    exact (Hnone eq_refl).
  - destruct (refresh_snapshot demo_fromstring demo_session demo_api
                [SetData demo_system_data]) as (_ & Hok).
    destruct (Hok (VDict [("system",
                           VDict [("unitcontrol",
                                   VDict [("numberOfZones", VStr "5")])]);
                          ("zones",
                           VDict [("1", demo_zone_data 1);
                                  ("2", demo_zone_data 2);
                                  ("4", demo_zone_data 4);
                                  ("5", demo_zone_data 5)])])
                ltac:(vm_compute; reflexivity))
      as (Hres & Hset).
    eexists. split; [exact Hres|]. split; [exact Hset|]. discriminate.
Defined.

(** One write, one request: the raw text back on status 200, an
    [ApiError] on status 404 and when the controller is unreachable. *)
Lemma write_single_request_witness :
  run_write demo_session demo_api
    (SetZoneData 2 [("zoneSetting", VInt 1)]) []
  = (Return "<ack/>",
     [Get (Request (endpoint demo_api "/setZoneData")
                   [("zone", VInt 2); ("zoneSetting", VInt 1)] 4)])
  /\ (exists msg,
        fst (run_write not_found_session demo_api
               (ChangeSystemName "Home") [])
        = Raise (Exn ApiError msg))
  /\ (exists msg,
        fst (run_write refused_session demo_api
               (SetSystemData [("mode", VInt 2)]) [])
        = Raise (Exn ApiError msg)).
Proof.
  split; [|split].
  - destruct (write_single_request demo_session demo_api
                (SetZoneData 2 [("zoneSetting", VInt 1)]) [])
      as (Htrace & Hok & _).
    specialize (Hok "<ack/>" ltac:(vm_compute; reflexivity)).
    rewrite (surjective_pairing (run_write _ _ _ _)), Htrace, Hok.
    reflexivity.
  - destruct (write_single_request not_found_session demo_api
                (ChangeSystemName "Home") [])
      as (_ & _ & Hstatus & _).
    apply (Hstatus (Response 404 (inr "Not Found")) eq_refl).
    simpl. lia.
  - destruct (write_single_request refused_session demo_api
                (SetSystemData [("mode", VInt 2)]) [])
      as (_ & _ & _ & Hraise).
    apply (Hraise refused eq_refl).
Defined.

(** Opening zone 2: the write, then one refresh request.  Closing it on
    an unreachable controller: the write fails, an [ApiError] is raised
    and no refresh is requested.  Set-position without a position sends
    nothing.  Setting the unit to heat: two writes, both answered, then
    one refresh request. *)
Lemma command_refresh_witness :
  run_command demo_session (Cover demo_api 2) OpenCover []
  = (Return tt,
     [Get (Request "http://192.168.1.50:2025/setZoneData"
                   [("zone", VInt 2); ("zoneSetting", VInt 1)] 4);
      RequestRefresh])
  /\ ((exists msg,
         fst (run_command refused_session (Cover demo_api 2) CloseCover [])
         = Raise (Exn ApiError msg))
      /\ refresh_count
           (snd (run_command refused_session (Cover demo_api 2) CloseCover []))
         = 0%nat)
  /\ run_command demo_session (Cover demo_api 2) (SetCoverPosition None) []
     = (Return tt, [])
  /\ requests (snd (async_set_temperature demo_session (Climate demo_api)
                      (Some (VInt 22)) []))
     = [Request "http://192.168.1.50:2025/setSystemData"
                [("centralDesiredTemp", VInt 22)] 4]
  /\ (fst (async_set_hvac_mode demo_session (Climate demo_api) "heat" [])
      = Return tt
      /\ snd (async_set_hvac_mode demo_session (Climate demo_api) "heat" [])
         = [Get (Request "http://192.168.1.50:2025/setSystemData"
                         [("airconOnOff", VInt 1)] 4);
            Get (Request "http://192.168.1.50:2025/setSystemData"
                         [("mode", VInt 2)] 4);
            RequestRefresh]
      /\ refresh_count
           (snd (async_set_hvac_mode demo_session (Climate demo_api) "heat"
                   []))
         = 1%nat).
Proof.
  split; [|split; [|split; [|split]]].
  - destruct (command_refresh demo_session (Cover demo_api 2) OpenCover
                (Climate demo_api) None "heat" "low" [])
      as (Hok & _).
    destruct (Hok _ "<ack/>" eq_refl ltac:(vm_compute; reflexivity))
      as (Hrun & _).
    exact Hrun.
  - destruct (command_refresh refused_session (Cover demo_api 2) CloseCover
                (Climate demo_api) None "heat" "low" [])
      as (_ & _ & _ & _ & _ & _ & (_ & Hfail & _) & _).
    destruct (Hfail [] (Request "http://192.168.1.50:2025/setZoneData"
                          [("zone", VInt 2); ("zoneSetting", VInt 0)] 4) []
                eq_refl eq_refl) as (Hraise & _ & Hcount).
    split; [exact Hraise|exact Hcount].
  - destruct (command_refresh demo_session (Cover demo_api 2)
                (SetCoverPosition None) (Climate demo_api) None "heat"
                "low" [])
      as (_ & _ & Hnone & _).
    destruct (Hnone eq_refl) as (_ & Hrun).
    exact Hrun.
  - destruct (command_refresh demo_session (Cover demo_api 2) OpenCover
                (Climate demo_api) (Some (VInt 22)) "heat" "low" [])
      as (_ & _ & _ & Htemp & _).
    exact (Htemp (VInt 22) eq_refl).
  - destruct (command_refresh demo_session (Cover demo_api 2) OpenCover
                (Climate demo_api) None "heat" "low" [])
      as (_ & _ & _ & _ & Hsends & _ & _ & _ & (Hok & _) & _).
    assert (Hin : In "heat" hvac_modes) by (vm_compute; tauto).
    destruct (Hok (Hsends Hin)) as (Hret & Htrace & Hcount).
    + intros t1 req t2 Heq. vm_compute in Heq.
      destruct t1 as [|e1 [|e2 [|e3 [|e4 t1]]]]; simplify_eq/=;
        intros Hnone; vm_compute in Hnone; discriminate Hnone.
    + split; [exact Hret|]. split; [|exact Hcount].
      rewrite Htrace. vm_compute. reflexivity.
Defined.

(** Position 40 goes out as 40 percent with the zone open. *)
Lemma zone_percent_opens_witness :
  dict_get "userPercentSetting"
    (params (Request (endpoint demo_api "/setZoneData")
               [("zone", VInt 2); ("userPercentSetting", VInt 40);
                ("zoneSetting", VInt 1)] 4))
  <> Some (VInt 0).
Proof.
  destruct (zone_percent_opens demo_session demo_api 2 40 [])
    as (_ & _ & Hnever).
  apply (Hnever (Some 40)). vm_compute. left. reflexivity.
Defined.

(** Three [zone] children and one [name] child under one parent, and a
    leaf with spaces around its text. *)
Lemma xml_to_dict_promotion_witness :
  (exists d,
     _xml_to_dict
       (Element "zones" None
          [Element "zone" (Some "a") []; Element "name" (Some " n ") [];
           Element "zone" (Some "b") []; Element "zone" (Some "c") []])
     = VDict d
     /\ dict_get "zone" d = Some (VList [VStr "a"; VStr "b"; VStr "c"])
     /\ dict_get "name" d = Some (VStr "n")
     /\ dict_get "other" d = None)
  /\ _xml_to_dict (Element "name" (Some " Living room ") [])
     = VStr "Living room".
Proof.
  split.
  - destruct (xml_to_dict_promotion "zones" None
                [Element "zone" (Some "a") []; Element "name" (Some " n ") [];
                 Element "zone" (Some "b") []; Element "zone" (Some "c") []])
      as (_ & Hmap & _).
    destruct (Hmap ltac:(discriminate)) as (d & Hd & Hget & _).
    exists d. split; [exact Hd|].
    split; [exact (Hget "zone")|]. split; [exact (Hget "name")|].
    exact (Hget "other").
  - destruct (xml_to_dict_promotion "name" (Some " Living room ") [])
      as (Hleaf & _).
    apply (Hleaf " Living room " eq_refl); [|reflexivity].
    vm_compute. discriminate.
Defined.

(** An element holding only spaces and a newline. *)
Lemma xml_to_dict_blank_witness :
  _xml_to_dict (Element "name" (Some (String " " (String "010" ""))) [])
  = VDict [].
Proof.
  apply xml_to_dict_blank. right. eexists. split; reflexivity.
Defined.

(** ** The further properties at work *)

Example demo_snapshot_read :
  fst (async_get_all_data demo_fromstring demo_session demo_api [])
  = Return demo_snapshot.
Proof. exact demo_all_data. Qed.

Lemma zone_timer_single_request_witness :
  async_get_zone_timer demo_fromstring refused_session demo_api []
  = (Raise (Exn ApiError "Failed to get zone timer: Cannot connect to host"),
     [Get (zone_timer_request demo_api)])
  /\ fst (async_get_zone_timer demo_fromstring no_count_session demo_api [])
     = Return (_xml_to_dict no_count_root)
  /\ fst (async_get_zone_timer demo_fromstring not_found_session demo_api [])
     = Raise (Exn ApiError "Failed to get zone timer: ")
  /\ fst (async_get_zone_timer demo_fromstring garbled_session demo_api [])
     = Raise (Exn ApiError
                "Failed to get zone timer: Invalid XML response: syntax error: line 1, column 0").
Proof.
  split; [|split; [|split]].
  - destruct (zone_timer_single_request demo_fromstring refused_session
                demo_api []) as (Htrace & _ & Hraise & _).
    rewrite (surjective_pairing (async_get_zone_timer _ _ _ _)), Htrace.
    now rewrite (Hraise refused eq_refl).
  - destruct (zone_timer_single_request demo_fromstring no_count_session
                demo_api []) as (_ & Hok & _).
    apply (Hok no_count_xml no_count_root eq_refl eq_refl).
  - destruct (zone_timer_single_request demo_fromstring not_found_session
                demo_api []) as (_ & _ & _ & Hstatus & _).
    apply (Hstatus (Response 404 (inr "Not Found")) eq_refl).
    simpl. lia.
  - destruct (zone_timer_single_request demo_fromstring garbled_session
                demo_api []) as (_ & _ & _ & _ & Hparse).
    apply (Hparse "Service Unavailable" "syntax error: line 1, column 0"
                  eq_refl eq_refl).
Defined.

Lemma read_without_budget_witness :
  run_read demo_fromstring demo_session idle_api GetSystemData None []
  = (Raise (Exn ApiError
              "No valid response after 0 failed attempt. Last error was: None"),
     [])
  /\ run_read demo_fromstring demo_session demo_api (GetZoneData 1)
       (Some (-2)) []
     = (Raise (Exn ApiError
                 "No valid response after 0 failed attempt. Last error was: None"),
        []).
Proof.
  split.
  - destruct (read_without_budget demo_fromstring demo_session idle_api
                GetSystemData None []) as (Hidle & _).
    apply Hidle. vm_compute. discriminate.
  - destruct (read_without_budget demo_fromstring demo_session demo_api
                (GetZoneData 1) (Some (-2)) []) as (Hidle & _).
    apply Hidle. vm_compute. discriminate.
Defined.

Lemma zone_data_zone_number_witness :
  exists d,
    fst (async_get_zone_data demo_fromstring demo_session demo_api 4 None [])
    = Return (VDict d)
    /\ dict_get "zone_number" d = Some (VInt 4).
Proof.
  destruct (zone_data_zone_number demo_fromstring demo_session demo_api 4
              None [] (demo_zone_data 4) ltac:(vm_compute; reflexivity))
    as (d & Hd & Hnum & _).
  exists d. split; [|exact Hnum].
  rewrite <- Hd. vm_compute. reflexivity.
Defined.

Lemma zone_text_document_witness :
  async_get_zone_data demo_fromstring' text_session demo_api 2 None []
  = (Raise (Exn ApiError
              "No valid response after 1 failed attempt. Last error was: XML parsing error: 'str' object does not support item assignment"),
     [Get (zone_request demo_api 2)])
  /\ async_get_system_data demo_fromstring' text_session demo_api None []
     = (Return (VStr "busy"), [Get (system_request demo_api)]).
Proof.
  destruct (zone_text_document demo_fromstring' text_session demo_api 2
              None [] text_xml text_root "busy")
    as (Hzone & Hsystem); try reflexivity.
  split; [apply Hzone|apply Hsystem]; reflexivity.
Defined.

Lemma update_failed_message_witness :
  _async_update_data demo_fromstring refused_session demo_api []
  = (Raise (Exn UpdateFailed
              "Error communicating with API: Failed to get all data: No valid response after 5 failed attempts. Last error was: Cannot connect to host"),
     failed_attempts (system_request demo_api) 5).
Proof.
  apply (update_failed_message demo_fromstring refused_session demo_api []
           (fun _ => "Cannot connect to host")).
  - reflexivity.
  - intros i Hi. exists refused. split; reflexivity.
Defined.

Lemma zones_in_order_witness :
  exists zones_data,
    py_get demo_snapshot "zones" (VDict []) = Return (VDict zones_data)
    /\ map fst zones_data `sublist_of` ["1"; "2"; "3"; "4"; "5"]
    /\ NoDup (map fst zones_data).
Proof.
  destruct (zones_in_order demo_fromstring demo_session demo_api []
              demo_snapshot demo_snapshot_read)
    as (system & zones_data & sd & N & Hres & Hsd & HN & Hsub & Hnd & _).
  injection Hres as _ <-.
  exists (match demo_snapshot with
          | VDict [_; (_, VDict zd)] => zd
          | _ => []
          end).
  split; [reflexivity|]. split; [|exact Hnd].
  assert (Hsd' : sd = demo_system_data).
  { rewrite demo_system_fetch in Hsd. simpl in Hsd. congruence. }
  subst sd. assert (HN' : N = 5).
  { change (num_zones_of demo_system_data) with (@Return Z 5) in HN.
    congruence. }
  subst N. exact Hsub.
Defined.

Lemma all_data_without_zones_witness :
  async_get_all_data demo_fromstring' bare_session demo_api []
  = (Return (VDict [("system", VDict [("unitcontrol", VDict [])]);
                    ("zones", VDict [])]),
     [Get (system_request demo_api)]).
Proof.
  destruct (all_data_without_zones demo_fromstring' bare_session demo_api []
              (VDict [("system", VDict [("unitcontrol", VDict [])])])
              [Get (system_request demo_api)]
              ltac:(vm_compute; reflexivity))
    as (_ & Hmissing).
  apply (Hmissing _ eq_refl). right. eexists. split; [reflexivity|].
  right. eexists. split; reflexivity.
Defined.

Lemma cover_init_round_trip_witness :
  exists entity,
    EZoneZoneCover_init demo_api "4" = Return entity
    /\ zone_data (cover_self entity) demo_snapshot
       = Return (demo_zone_data 4).
Proof.
  destruct (cover_init_round_trip demo_api 4)
    as (entity & Hinit & _ & _ & Hdata).
  exists entity. split; [exact Hinit|].
  exact (Hdata demo_snapshot _ eq_refl).
Defined.

Lemma cover_setup_on_snapshot_witness :
  exists entities,
    cover_setup_entry demo_api demo_snapshot = Return entities
    /\ map (fun e => str_of_int (_zone_num (cover_self e))) entities
       = ["1"; "2"; "4"; "5"]
    /\ NoDup (map _attr_unique_id entities).
Proof.
  destruct (cover_setup_on_snapshot demo_fromstring demo_session demo_api
              demo_api [] demo_snapshot demo_snapshot_read)
    as (zones_data & entities & Hzones & Hsetup & Hnum & _ & Hnd).
  exists entities. split; [exact Hsetup|]. split; [|exact Hnd].
  rewrite Hnum. simpl in Hzones. injection Hzones as <-. reflexivity.
Defined.

Lemma cover_state_on_snapshot_witness :
  is_closed (Cover demo_api 3) demo_snapshot = Return true
  /\ is_open (Cover demo_api 3) demo_snapshot = Return false
  /\ current_cover_position (Cover demo_api 3) demo_snapshot = Return 0.
Proof.
  destruct (cover_state_on_snapshot demo_fromstring demo_session demo_api []
              demo_snapshot (Cover demo_api 3) demo_snapshot_read)
    as (closed & open & position & Hc & Ho & Hp & _ & Habsent).
  destruct (Habsent _ eq_refl eq_refl) as (-> & -> & ->).
  now repeat split.
Defined.

Lemma set_hvac_mode_steps_witness :
  async_set_hvac_mode demo_session (Climate demo_api) "off" []
  = (Return tt,
     [Get (Request (endpoint demo_api "/setSystemData")
                   [("airconOnOff", VInt 0)] 4);
      RequestRefresh])
  /\ (exists n,
        async_set_hvac_mode demo_session (Climate demo_api) "heat" []
        = (Return tt,
           [Get (Request (endpoint demo_api "/setSystemData")
                         [("airconOnOff", VInt 1)] 4);
            Get (Request (endpoint demo_api "/setSystemData")
                         [("mode", VInt n)] 4);
            RequestRefresh]))
  /\ (exists msg,
        async_set_hvac_mode refused_session (Climate demo_api) "cool" []
        = (Raise (Exn ApiError msg),
           [Get (Request (endpoint demo_api "/setSystemData")
                         [("airconOnOff", VInt 1)] 4)]))
  /\ async_set_hvac_mode demo_session (Climate demo_api) "dry" []
     = (Return tt, [RequestRefresh]).
Proof.
  split; [|split; [|split]].
  - destruct (set_hvac_mode_steps demo_session (Climate demo_api) "off" [])
      as (Hoff & _).
    apply (Hoff eq_refl "<ack/>"). vm_compute. reflexivity.
  - destruct (set_hvac_mode_steps demo_session (Climate demo_api) "heat" [])
      as (_ & Hmode & _).
    destruct (Hmode ltac:(simpl; tauto)) as (n & _ & _ & _ & Hok).
    exists n. apply (Hok "<ack/>" "<ack/>"); vm_compute; reflexivity.
  - destruct (set_hvac_mode_steps refused_session (Climate demo_api) "cool" [])
      as (_ & Hmode & _).
    destruct (Hmode ltac:(simpl; tauto)) as (n & _ & Hfail & _).
    apply Hfail. reflexivity.
  - destruct (set_hvac_mode_steps demo_session (Climate demo_api) "dry" [])
      as (_ & _ & Hunknown).
    apply Hunknown. simpl. intros [H|[H|[H|[H|[]]]]]; discriminate H.
Defined.

Lemma set_hvac_mode_round_trip_witness :
  hvac_mode (Climate demo_api) heating_snapshot = Return "heat".
Proof.
  apply (set_hvac_mode_round_trip demo_session (Climate demo_api) "heat" []
           (Request (endpoint demo_api "/setSystemData")
                    [("mode", VInt 2)] 4) 2
           ltac:(vm_compute; right; left; reflexivity) eq_refl
           heating_snapshot
           [("airconOnOff", VStr "1"); ("mode", VStr "2");
            ("fanSpeed", VStr "3")]).
  - reflexivity.
  - discriminate.
  - reflexivity.
Defined.

Lemma set_fan_mode_round_trip_witness :
  (exists n,
     async_set_fan_mode demo_session (Climate demo_api) "high" []
     = (Return tt,
        [Get (Request (endpoint demo_api "/setSystemData")
                      [("fanSpeed", VInt n)] 4);
         RequestRefresh]))
  /\ async_set_fan_mode demo_session (Climate demo_api) "auto" []
     = (Return tt, []).
Proof.
  split.
  - destruct (set_fan_mode_round_trip demo_session (Climate demo_api)
                "high" []) as (Hknown & _).
    destruct (Hknown ltac:(simpl; tauto)) as (n & Hok & _).
    exists n. apply (Hok "<ack/>"). vm_compute. reflexivity.
  - destruct (set_fan_mode_round_trip demo_session (Climate demo_api)
                "auto" []) as (_ & Hunknown).
    apply Hunknown. simpl. intros [H|[H|[H|[]]]]; discriminate H.
Defined.

Lemma xml_leaf_stripped_witness :
  strip "Living room" = "Living room".
Proof.
  destruct (xml_leaf_stripped (Element "name" (Some "  Living room ") [])
              "Living room" eq_refl) as (_ & Hstrip & _).
  exact Hstrip.
Defined.

Lemma snapshot_distinct_keys_witness : distinct_keys demo_snapshot.
Proof.
  exact (snapshot_distinct_keys demo_fromstring demo_session demo_api []
           demo_snapshot demo_snapshot_read).
Defined.

Lemma cover_position_round_trip_witness :
  current_cover_position (Cover demo_api 2) heating_snapshot = Return 40.
Proof.
  apply (cover_position_round_trip demo_session (Cover demo_api 2) 40 []
           (Request (endpoint demo_api "/setZoneData")
                    [("zone", VInt 2); ("userPercentSetting", VInt 40);
                     ("zoneSetting", VInt 1)] 4) 40
           ltac:(vm_compute; left; reflexivity) eq_refl
           heating_snapshot
           [("setting", VStr "1"); ("userPercentSetting", VStr "40");
            ("zone_number", VInt 2)]);
    reflexivity.
Defined.

Lemma climate_state_on_snapshot_witness :
  In "fan_only" hvac_modes /\ In "medium" fan_modes.
Proof.
  destruct (climate_state_on_snapshot demo_fromstring demo_session demo_api
              [] demo_snapshot (Climate demo_api) demo_snapshot_read)
    as (d & _ & Hhvac & Hfan & _).
  split; [apply Hhvac|apply Hfan]; reflexivity.
Defined.

Lemma xml_to_dict_distinct_keys_witness :
  distinct_keys (demo_zone_data 4).
Proof.
  destruct (xml_to_dict_distinct_keys zone_root) as (_ & Hstore).
  apply (Hstore 4). reflexivity.
Defined.
